(** * Coordinate and geometry transforms of jesaerys/misc

    A shallow embedding of [wcs.py], [wcs_transform.py], [leastsquares2d.py]
    and [sparea.py].  The Python functions are duck-typed over their
    numbers, so the embedding is written once over an interface of
    arithmetic ([Num]) and read at two instances:

    - [Binary64]: IEEE 754 binary64 values ([spec_float] at precision 53),
      tagged as Python [float] or NumPy [float64], with the rounding, the
      infinities and the NaN of the machine; the C library's trigonometric
      functions are a parameter ([libm]);
    - [Exact]: real numbers, where every operation is exact.

    Exceptions are explicit: a function returns [Ok v] or [Raise e].  A
    global name is looked up in the names that its file binds:
    [wcs_transform.py] and [sparea.py] use [np] and never import it. *)

From stdpp Require Import base option list gmap strings.
From Stdlib Require Import Floats.
From Stdlib Require Import ZArith Reals Lra Lia.
From Stdlib Require Import Ascii String.

Local Open Scope string_scope.
Local Open Scope list_scope.

(** ** Python exceptions and results *)

Inductive exn : Type :=
  | KeyError (key : string)
  | TypeError
  | AttributeError
  | ZeroDivisionError
  | IndexError
  | ValueError
  | NameError (name : string)
  | OverflowError.

Inductive result (A : Type) : Type :=
  | Ok (a : A)
  | Raise (e : exn).
Arguments Ok {A} a.
Arguments Raise {A} e.

#[global] Instance result_ret : MRet result := fun A a => Ok a.
#[global] Instance result_bind : MBind result := fun A B k c =>
  match c with
  | Ok a => k a
  | Raise e => Raise e
  end.

Definition raises {A} (c : result A) : Prop :=
  match c with
  | Ok _ => False
  | Raise _ => True
  end.

Definition returns {A} (c : result A) : Prop :=
  match c with
  | Ok _ => True
  | Raise _ => False
  end.

(** ** Global names

    A file binds the names that it imports and the functions that it
    defines.  Evaluating a name that is neither local nor among them
    raises [NameError] (no builtin is called [np] or [gcdist]). *)

Definition global (bound : list string) (name : string) : result unit :=
  if existsb (String.eqb name) bound then Ok tt else Raise (NameError name).

(** ** The arithmetic the code relies on

    [div a b] is the quotient where it is defined.  [zero_division a b]
    tells when Python raises [ZeroDivisionError] for [a / b] instead of
    computing it: [truediv] is the division of the source wherever the
    divisor is not a non-zero literal.  The [np_] fields are the NumPy
    functions of the same name; [float64 x] is [x] as a NumPy value (an
    element of [np.array(...)], the result of [np.sum]).  [pow2 x] is
    NumPy's [x**2], the product [x*x]: the square of an array element or
    of a NumPy scalar, which overflows to an infinity.  [power2 x] is
    [x**2] on a number that may be a Python [float]: Python raises
    [OverflowError] where the square of a finite [float] is out of range,
    and [pow_overflow x] tells when.  The trigonometric functions form an
    interface of their own, [Trig]: the linear stage and the fit do not
    use them. *)

Class Num (F : Type) : Type := {
  lit_0 : F;
  lit_1 : F;
  lit_2 : F;
  lit_4 : F;
  lit_half : F;
  lit_180 : F;
  np_pi : F;
  add : F -> F -> F;
  sub : F -> F -> F;
  mul : F -> F -> F;
  div : F -> F -> F;
  zero_division : F -> F -> bool;
  pow_overflow : F -> bool;
  neg : F -> F;
  ltb : F -> F -> bool;
  eqb : F -> F -> bool;
  float64 : F -> F;
  np_sqrt : F -> F
}.

Class Trig (F : Type) : Type := {
  np_sin : F -> F;
  np_cos : F -> F;
  np_tan : F -> F;
  np_arctan : F -> F;
  np_arcsin : F -> F;
  np_arctan2 : F -> F -> F
}.

Declare Scope num_scope.
Delimit Scope num_scope with num.
Infix "+" := add : num_scope.
Infix "-" := sub : num_scope.
Infix "*" := mul : num_scope.
Infix "/" := div : num_scope.
Notation "- x" := (neg x) : num_scope.

Definition pow2 {F} `{Num F} (x : F) : F := mul x x.

Definition power2 {F} `{Num F} (x : F) : result F :=
  if pow_overflow x then Raise OverflowError else Ok (pow2 x).

Definition truediv {F} `{Num F} (a b : F) : result F :=
  if zero_division a b then Raise ZeroDivisionError else Ok (div a b).

(** ** Headers

    A header is a dictionary from keywords to values; a value is a number
    or a string. *)

Inductive hval (F : Type) : Type :=
  | HNum (v : F)
  | HStr (s : string).
Arguments HNum {F} v.
Arguments HStr {F} s.

Section Header.
Context {F : Type}.

(** [hdr[key]] *)
Definition getitem (hdr : gmap string (hval F)) (key : string) : result (hval F) :=
  match hdr !! key with
  | Some v => Ok v
  | None => Raise (KeyError key)
  end.

(** A value used as an operand of arithmetic: a string operand makes the
    operation raise [TypeError]. *)
Definition operand (v : hval F) : result F :=
  match v with
  | HNum x => Ok x
  | HStr _ => Raise TypeError
  end.

(** A value whose [split] method is called: a number has none. *)
Definition str_of (v : hval F) : result string :=
  match v with
  | HStr s => Ok s
  | HNum _ => Raise AttributeError
  end.
End Header.

(** ** [str.split] with a one-character separator, and [parse_ctype] *)

Fixpoint split (sep : ascii) (s : string) : list string :=
  match s with
  | EmptyString => [EmptyString]
  | String c rest =>
      if Ascii.eqb c sep then EmptyString :: split sep rest
      else match split sep rest with
           | [] => [String c EmptyString]
           | w :: ws => String c w :: ws
           end
  end.

Definition parse_ctype (ctype_str : string) : string * string :=
  let elements := split "-"%char ctype_str in
  let coordsys := List.hd EmptyString elements in
  let projection := List.last elements EmptyString in
  (coordsys, projection).

(** ** wcs.py

    Every header access [hdr[key]] is kept, in the order of evaluation
    of the source.  The reads [hdr.get('CUNIT1')] and
    [hdr.get('CUNIT2')] at the head of some functions cannot fail and
    their values are not used ([pass]); they are left out. *)

Module Wcs.
Section Wcs.
Context {F : Type} `{Num F} `{Trig F}.
Local Open Scope num_scope.

Abbreviation header := (gmap string (hval F)).

(** [a - hdr[key]], [hdr[key] * b], [-hdr[key]] and [a + hdr[key]] on a
    value already read from the header. *)
Definition rsub (a : F) (v : hval F) : result F := c ← operand v; mret (a - c).
Definition lmul (v : hval F) (b : F) : result F := a ← operand v; mret (a * b).
Definition hneg (v : hval F) : result F := a ← operand v; mret (- a).
Definition radd (a : F) (v : hval F) : result F := c ← operand v; mret (a + c).
Definition hmul (v w : hval F) : result F := a ← operand v; b ← operand w; mret (a * b).

(** Arithmetic on a name that may hold [None]. *)
Definition the (v : option F) : result F :=
  match v with
  | Some x => Ok x
  | None => Raise TypeError
  end.

Definition pix2proj (x y : F) (hdr : header) : result (F * F) :=
  (* xp = hdr['CD1_1']*(x-hdr['CRPIX1']) + hdr['CD1_2']*(y-hdr['CRPIX2']) *)
  cd1_1 ← getitem hdr "CD1_1"; crpix1 ← getitem hdr "CRPIX1";
  dx ← rsub x crpix1; t1 ← lmul cd1_1 dx;
  cd1_2 ← getitem hdr "CD1_2"; crpix2 ← getitem hdr "CRPIX2";
  dy ← rsub y crpix2; t2 ← lmul cd1_2 dy;
  let xp := t1 + t2 in
  (* yp = hdr['CD2_1']*(x-hdr['CRPIX1']) + hdr['CD2_2']*(y-hdr['CRPIX2']) *)
  cd2_1 ← getitem hdr "CD2_1"; crpix1 ← getitem hdr "CRPIX1";
  dx ← rsub x crpix1; t1 ← lmul cd2_1 dx;
  cd2_2 ← getitem hdr "CD2_2"; crpix2 ← getitem hdr "CRPIX2";
  dy ← rsub y crpix2; t2 ← lmul cd2_2 dy;
  let yp := t1 + t2 in
  mret (xp, yp).

Definition proj2pix (xp yp : F) (hdr : header) : result (F * F) :=
  (* c = hdr['CD1_1']*hdr['CD2_2'] - hdr['CD1_2']*hdr['CD2_1'] *)
  cd1_1 ← getitem hdr "CD1_1"; cd2_2 ← getitem hdr "CD2_2"; t1 ← hmul cd1_1 cd2_2;
  cd1_2 ← getitem hdr "CD1_2"; cd2_1 ← getitem hdr "CD2_1"; t2 ← hmul cd1_2 cd2_1;
  let c := t1 - t2 in
  (* x = (hdr['CD2_2']*xp - hdr['CD1_2']*yp) / c + hdr['CRPIX1'] *)
  cd2_2 ← getitem hdr "CD2_2"; t1 ← lmul cd2_2 xp;
  cd1_2 ← getitem hdr "CD1_2"; t2 ← lmul cd1_2 yp;
  q ← truediv (t1 - t2) c;
  crpix1 ← getitem hdr "CRPIX1"; x ← radd q crpix1;
  (* y = (-hdr['CD2_1']*xp + hdr['CD1_1']*yp) / c + hdr['CRPIX2'] *)
  cd2_1 ← getitem hdr "CD2_1"; m ← hneg cd2_1; let t1 := m * xp in
  cd1_1 ← getitem hdr "CD1_1"; t2 ← lmul cd1_1 yp;
  q ← truediv (t1 + t2) c;
  crpix2 ← getitem hdr "CRPIX2"; y ← radd q crpix2;
  mret (x, y).

(** [parse_ctype(hdr[key])[1]] *)
Definition projection_of (hdr : header) (key : string) : result string :=
  v ← getitem hdr key; s ← str_of v; mret (snd (parse_ctype s)).

Definition proj2natsph (xp yp : F) (hdr : header) : result (F * F) :=
  (* Degrees to radians *)
  let xp := xp * np_pi / lit_180 in
  let yp := yp * np_pi / lit_180 in
  projection1 ← projection_of hdr "CTYPE1";
  projection2 ← projection_of hdr "CTYPE2";
  let projection := projection1 in
  '(phi, theta) ←
    (if String.eqb projection "TAN" then
       let phi := np_arctan2 xp (- yp) in
       sx ← power2 xp; sy ← power2 yp;
       let r := np_sqrt (sx + sy) in
       q ← truediv lit_1 r;
       let theta := np_arctan q in
       mret (Some phi, Some theta)
     else mret (None, None));
  (* Radians to degrees *)
  phi ← the phi; let phi := phi * (lit_180 / np_pi) in
  theta ← the theta; let theta := theta * (lit_180 / np_pi) in
  mret (phi, theta).

Definition natsph2proj (phi theta : F) (hdr : header) : result (F * F) :=
  (* Degrees to radians *)
  let phi := phi * np_pi / lit_180 in
  let theta := theta * np_pi / lit_180 in
  projection1 ← projection_of hdr "CTYPE1";
  projection2 ← projection_of hdr "CTYPE2";
  let projection := projection1 in
  '(xp, yp) ←
    (if String.eqb projection "TAN" then
       r ← truediv lit_1 (np_tan theta);
       let xp := r * np_sin phi in
       let yp := (- r) * np_cos phi in
       mret (Some xp, Some yp)
     else mret (None, None));
  (* Radians to degrees *)
  xp ← the xp; let xp := xp * (lit_180 / np_pi) in
  yp ← the yp; let yp := yp * (lit_180 / np_pi) in
  mret (xp, yp).

(** The TAN-specific settings shared by [natsph2celsph] and
    [celsph2natsph]: [lon_p], [lat_p] and [phi_p], or three [None]. *)
Definition pole_settings (hdr : header) (projection : string)
  : result (option F * option F * option F) :=
  if String.eqb projection "TAN" then
    crval1 ← getitem hdr "CRVAL1"; t ← lmul crval1 np_pi; let lon_p := t / lit_180 in
    crval2 ← getitem hdr "CRVAL2"; t ← lmul crval2 np_pi; let lat_p := t / lit_180 in
    let phi_p := lit_180 * np_pi / lit_180 in
    mret (Some lon_p, Some lat_p, Some phi_p)
  else mret (None, None, None).

(** The rotation of C&G02 eq. 2 and eq. 5, which the two functions
    spell out with the same expression: from the angles [a] (longitude
    offset) and [b] (latitude) and the latitude [lat_p] of the pole. *)
Definition rot_lon (a b lat_p : F) : F :=
  np_arctan2 ((- np_cos b) * np_sin a)
             (np_sin b * np_cos lat_p - np_cos b * np_sin lat_p * np_cos a).
Definition rot_lat (a b lat_p : F) : F :=
  np_arcsin (np_sin b * np_sin lat_p + np_cos b * np_cos lat_p * np_cos a).

Definition natsph2celsph (phi theta : F) (hdr : header) : result (F * F) :=
  (* Degrees to radians *)
  let phi := phi * np_pi / lit_180 in
  let theta := theta * np_pi / lit_180 in
  projection1 ← projection_of hdr "CTYPE1";
  projection2 ← projection_of hdr "CTYPE2";
  let projection := projection1 in
  '(lon_p, lat_p, phi_p) ← pole_settings hdr projection;
  (* (C&G02 eq.2/pg.1079/pdf.3) *)
  phi_p ← the phi_p; let dphi := phi - phi_p in
  lon_p ← the lon_p; lat_p ← the lat_p;
  let lon := lon_p + rot_lon dphi theta lat_p in
  let lat := rot_lat dphi theta lat_p in
  (* Radians to degrees *)
  let lon := lon * (lit_180 / np_pi) in
  let lat := lat * (lit_180 / np_pi) in
  mret (lon, lat).

Definition celsph2natsph (lon lat : F) (hdr : header) : result (F * F) :=
  (* Degrees to radians *)
  let lon := lon * np_pi / lit_180 in
  let lat := lat * np_pi / lit_180 in
  projection1 ← projection_of hdr "CTYPE1";
  projection2 ← projection_of hdr "CTYPE2";
  let projection := projection1 in
  '(lon_p, lat_p, phi_p) ← pole_settings hdr projection;
  (* (C&G02 eq.5/pg.1080/pdf.4) *)
  lon_p ← the lon_p; let dlon := lon - lon_p in
  phi_p ← the phi_p; lat_p ← the lat_p;
  let phi := phi_p + rot_lon dlon lat lat_p in
  let theta := rot_lat dlon lat lat_p in
  (* Radians to degrees *)
  let phi := phi * (lit_180 / np_pi) in
  let theta := theta * (lit_180 / np_pi) in
  mret (phi, theta).

Definition pix2world (x y : F) (hdr : header) : result (F * F) :=
  '(xp, yp) ← pix2proj x y hdr;
  '(phi, theta) ← proj2natsph xp yp hdr;
  '(lon, lat) ← natsph2celsph phi theta hdr;
  mret (lon, lat).

Definition world2pix (lon lat : F) (hdr : header) : result (F * F) :=
  '(phi, theta) ← celsph2natsph lon lat hdr;
  '(xp, yp) ← natsph2proj phi theta hdr;
  '(x, y) ← proj2pix xp yp hdr;
  mret (x, y).
End Wcs.
End Wcs.

(** ** wcs_transform.py

    The earlier version of the same transforms: lower-case keywords, and
    no look at CTYPE (a TAN projection is assumed).  The file imports
    nothing: its global names are its eight functions.  The two functions
    of the linear stage use none but their arguments; every other
    function evaluates [np], which is not bound.  The statements after
    that evaluation are kept as the source has them. *)

Module WcsTransform.
Definition names : list string :=
  ["pix2proj"; "proj2pix"; "proj2natsph"; "natsph2proj";
   "natsph2celsph"; "celsph2natsph"; "pix2world"; "world2pix"].

Section WcsTransform.
Context {F : Type} `{Num F} `{Trig F}.
Local Open Scope num_scope.

Abbreviation header := (gmap string (hval F)).

Definition pix2proj (x y : F) (hdr : header) : result (F * F) :=
  (* u = hdr['cd1_1']*(x-hdr['crpix1']) + hdr['cd1_2']*(y-hdr['crpix2']) *)
  cd1_1 ← getitem hdr "cd1_1"; crpix1 ← getitem hdr "crpix1";
  dx ← Wcs.rsub x crpix1; t1 ← Wcs.lmul cd1_1 dx;
  cd1_2 ← getitem hdr "cd1_2"; crpix2 ← getitem hdr "crpix2";
  dy ← Wcs.rsub y crpix2; t2 ← Wcs.lmul cd1_2 dy;
  let u := t1 + t2 in
  (* v = hdr['cd2_1']*(x-hdr['crpix1']) + hdr['cd2_2']*(y-hdr['crpix2']) *)
  cd2_1 ← getitem hdr "cd2_1"; crpix1 ← getitem hdr "crpix1";
  dx ← Wcs.rsub x crpix1; t1 ← Wcs.lmul cd2_1 dx;
  cd2_2 ← getitem hdr "cd2_2"; crpix2 ← getitem hdr "crpix2";
  dy ← Wcs.rsub y crpix2; t2 ← Wcs.lmul cd2_2 dy;
  let v := t1 + t2 in
  mret (u, v).

Definition proj2pix (u v : F) (hdr : header) : result (F * F) :=
  (* c = hdr['cd1_1']*hdr['cd2_2'] - hdr['cd1_2']*hdr['cd2_1'] *)
  cd1_1 ← getitem hdr "cd1_1"; cd2_2 ← getitem hdr "cd2_2"; t1 ← Wcs.hmul cd1_1 cd2_2;
  cd1_2 ← getitem hdr "cd1_2"; cd2_1 ← getitem hdr "cd2_1"; t2 ← Wcs.hmul cd1_2 cd2_1;
  let c := t1 - t2 in
  (* x = (hdr['cd2_2']*u - hdr['cd1_2']*v) / c + hdr['crpix1'] *)
  cd2_2 ← getitem hdr "cd2_2"; t1 ← Wcs.lmul cd2_2 u;
  cd1_2 ← getitem hdr "cd1_2"; t2 ← Wcs.lmul cd1_2 v;
  q ← truediv (t1 - t2) c;
  crpix1 ← getitem hdr "crpix1"; x ← Wcs.radd q crpix1;
  (* y = (-hdr['cd2_1']*u + hdr['cd1_1']*v) / c + hdr['crpix2'] *)
  cd2_1 ← getitem hdr "cd2_1"; m ← Wcs.hneg cd2_1; let t1 := m * u in
  cd1_1 ← getitem hdr "cd1_1"; t2 ← Wcs.lmul cd1_1 v;
  q ← truediv (t1 + t2) c;
  crpix2 ← getitem hdr "crpix2"; y ← Wcs.radd q crpix2;
  mret (x, y).

Definition proj2natsph (u v : F) : result (F * F) :=
  (* u = u * np.pi/180 *)
  _ ← global names "np";
  let u := u * np_pi / lit_180 in
  let v := v * np_pi / lit_180 in
  let p := np_arctan2 u (- v) in
  su ← power2 u; sv ← power2 v;
  let r := np_sqrt (su + sv) in
  q ← truediv lit_1 r;
  let t := np_arctan q in
  let p := p * (lit_180 / np_pi) in
  let t := t * (lit_180 / np_pi) in
  mret (p, t).

Definition natsph2proj (p t : F) : result (F * F) :=
  (* p = p * np.pi/180 *)
  _ ← global names "np";
  let p := p * np_pi / lit_180 in
  let t := t * np_pi / lit_180 in
  r ← truediv lit_1 (np_tan t);
  let u := r * np_sin p in
  let v := (- r) * np_cos p in
  let u := u * (lit_180 / np_pi) in
  let v := v * (lit_180 / np_pi) in
  mret (u, v).

Definition natsph2celsph (p t : F) (hdr : header) : result (F * F) :=
  (* TAN-specific settings *)
  ap ← getitem hdr "crval1"; dp ← getitem hdr "crval2";
  let pp := lit_180 in
  (* (C&G02 eq.2/pg.1079/pdf.3) *)
  (* p = p * np.pi/180 *)
  _ ← global names "np";
  let p := p * np_pi / lit_180 in
  let t := t * np_pi / lit_180 in
  (* ap *= np.pi/180 *)
  ap ← Wcs.lmul ap (np_pi / lit_180);
  dp ← Wcs.lmul dp (np_pi / lit_180);
  let pp := pp * (np_pi / lit_180) in
  let a := ap + Wcs.rot_lon (p - pp) t dp in
  let d := Wcs.rot_lat (p - pp) t dp in
  let a := a * (lit_180 / np_pi) in
  let d := d * (lit_180 / np_pi) in
  mret (a, d).

Definition celsph2natsph (a d : F) (hdr : header) : result (F * F) :=
  (* TAN-specific settings *)
  ap ← getitem hdr "crval1"; dp ← getitem hdr "crval2";
  let pp := lit_180 in
  (* (C&G02 eq.5/pg.1080/pdf.4) *)
  (* a = a * np.pi/180 *)
  _ ← global names "np";
  let a := a * np_pi / lit_180 in
  let d := d * np_pi / lit_180 in
  ap ← Wcs.lmul ap (np_pi / lit_180);
  dp ← Wcs.lmul dp (np_pi / lit_180);
  let pp := pp * (np_pi / lit_180) in
  let p := pp + Wcs.rot_lon (a - ap) d dp in
  let t := Wcs.rot_lat (a - ap) d dp in
  let p := p * (lit_180 / np_pi) in
  let t := t * (lit_180 / np_pi) in
  mret (p, t).

Definition pix2world (x y : F) (hdr : header) : result (F * F) :=
  '(u, v) ← pix2proj x y hdr;
  '(p, t) ← proj2natsph u v;
  '(a, d) ← natsph2celsph p t hdr;
  mret (a, d).

Definition world2pix (a d : F) (hdr : header) : result (F * F) :=
  '(p, t) ← celsph2natsph a d hdr;
  '(u, v) ← natsph2proj p t;
  '(x, y) ← proj2pix u v hdr;
  mret (x, y).
End WcsTransform.
End WcsTransform.

(** ** NumPy arrays

    A one-dimensional array is the list of its elements.  Two arrays
    combine element by element when they have the same length; a
    one-element array is stretched to the length of the other
    (broadcasting); other pairs of lengths are refused with [ValueError].

    [np_sum] is [np.add.reduce] on a contiguous array of float64: it
    starts from the identity [0.] and adds to it the result of NumPy's
    [pairwise_sum] on the whole array, which

    - adds from left to right, starting from [0.], below 8 elements;
    - up to [PW_BLOCKSIZE = 128] elements keeps eight running sums
      [r[0..7]], adds them as [((r0+r1)+(r2+r3)) + ((r4+r5)+(r6+r7))] and
      then adds the elements left over by the blocks of 8, one by one;
    - splits a longer array at [n2 = n/2 - (n/2) % 8] and adds the sums
      of the two parts. *)

Section Arrays.
Context {F : Type} `{Num F}.

Definition broadcast {A B C} (f : A -> B -> C) (x : list A) (y : list B)
  : result (list C) :=
  if Nat.eqb (List.length x) (List.length y) then Ok (zip_with f x y)
  else match x, y with
       | [a], _ => Ok (f a <$> y)
       | _, [b] => Ok ((fun a => f a b) <$> x)
       | _, _ => Raise ValueError
       end.

(** [r[j] += a[i + j]], one element at a time: the sum in turn is at the
    head of [r] and goes to its end. *)
Definition lane_add (r : list F) (v : F) : list F :=
  match r with
  | r0 :: r' => r' ++ [add r0 v]
  | [] => []
  end.

Definition PW_BLOCKSIZE : nat := 128.

(** The branch [n <= PW_BLOCKSIZE] of [pairwise_sum], for [8 <= n]: [r]
    then holds the eight running sums. *)
Definition unrolled_sum (a : list F) : F :=
  let n := List.length a in
  let blocks := take (n - n mod 8) a in
  let r := foldl lane_add (take 8 blocks) (drop 8 blocks) in
  let res :=
    match r with
    | [r0; r1; r2; r3; r4; r5; r6; r7] =>
        add (add (add r0 r1) (add r2 r3)) (add (add r4 r5) (add r6 r7))
    | _ => lit_0
    end in
  (* do non multiple of 8 rest *)
  foldl add res (drop (n - n mod 8) a).

(** [pairwise_sum]; [depth] bounds the nesting of the calls, and the
    length of the array is enough ([pairwise_sum_depth]). *)
Fixpoint pairwise_sum (depth : nat) (a : list F) : F :=
  let n := List.length a in
  if Nat.ltb n 8 then foldl add lit_0 a
  else if Nat.leb n PW_BLOCKSIZE then unrolled_sum a
  else
    match depth with
    | O => unrolled_sum a
    | S depth' =>
        (* divide by two but avoid non-multiples of unroll factor *)
        let n2 := (n / 2)%nat in
        let n2 := n2 - n2 mod 8 in
        add (pairwise_sum depth' (take n2 a)) (pairwise_sum depth' (drop n2 a))
    end.

Definition np_sum (a : list F) : F :=
  float64 (add lit_0 (pairwise_sum (List.length a) a)).

(** [a[i]] for a boolean array [i]: NumPy refuses an [i] of another
    length than [a] with [IndexError]; [mask] is the selection. *)
Definition boolean_index {A} (a : list A) (i : list bool) : result unit :=
  if Nat.eqb (List.length a) (List.length i) then Ok tt else Raise IndexError.

Fixpoint mask {A} (a : list A) (i : list bool) : list A :=
  match a, i with
  | v :: a', b :: i' => if b then v :: mask a' i' else mask a' i'
  | _, _ => []
  end.

(** [a[0]] and [a[-1]] *)
Definition first (a : list F) : result F :=
  match a with
  | [] => Raise IndexError
  | v :: _ => Ok v
  end.
Definition final (a : list F) : result F :=
  match a with
  | [] => Raise IndexError
  | v :: a' => Ok (List.last a' v)
  end.
End Arrays.

(** ** leastsquares2d.py

    The function returns [np.nan], a bare number, or the tuple [(a, b)].
    The arguments are NumPy arrays ([x[i]] with a boolean array is theirs);
    the sums are NumPy scalars, so that [sxy**2] is NumPy's square. *)

Inductive fit (F : Type) : Type :=
  | Nan
  | Coeffs (a b : F).
Arguments Nan {F}.
Arguments Coeffs {F} a b.

Section LeastSquares2d.
Context {F : Type} `{Num F}.
Local Open Scope num_scope.

Definition leastsquares2d (x y z : list F) : result (fit F) :=
  (* i = x != y *)
  i ← broadcast (fun a b => negb (eqb a b)) x y;
  (* if np.sum(i) == 0 *)
  if forallb negb i then mret Nan
  else
    (* x[i], y[i], z[i] *)
    _ ← boolean_index x i;
    _ ← boolean_index y i;
    _ ← boolean_index z i;
    let sx := np_sum (pow2 <$> mask x i) in
    let sxy := np_sum (zip_with mul (mask x i) (mask y i)) in
    let sxz := np_sum (zip_with mul (mask x i) (mask z i)) in
    let sy := np_sum (pow2 <$> mask y i) in
    let syz := np_sum (zip_with mul (mask y i) (mask z i)) in
    (* a = (sxz - sxy*syz/sy) / (sx - sxy**2/sy) *)
    q1 ← truediv (sxy * syz) sy;
    q2 ← truediv (pow2 sxy) sy;
    a ← truediv (sxz - q1) (sx - q2);
    (* b = (sxz - a*sx) / sxy *)
    b ← truediv (sxz - a * sx) sxy;
    mret (Coeffs a b).
End LeastSquares2d.

(** ** sparea.py

    The file imports nothing and defines [sparea] alone: [np], which its
    first statement evaluates, is not bound, and neither is [gcdist],
    which no file of the repository defines.  What the statements after
    the call of [gcdist] would compute is not known, and they are not
    modelled. *)

Module Sparea.
Definition names : list string := ["sparea"].

Section Sparea.
Context {F : Type} `{Num F}.
Local Open Scope num_scope.

Definition sparea (lon lat : list F) (R : F) (units : string) : result F :=
  (* lon, lat = np.array(lon), np.array(lat) *)
  _ ← global names "np";
  let lon := float64 <$> lon in
  let lat := float64 <$> lat in
  (* Ensure the polygon is closed *)
  lon_last ← final lon; lon_first ← first lon;
  is_open ← (if negb (eqb lon_last lon_first) then Ok true
             else lat_last ← final lat; lat_first ← first lat;
                  Ok (negb (eqb lat_last lat_first)));
  '(lon, lat) ←
    (if is_open : bool then
       lat_first ← first lat; Ok (lon ++ [lon_first], lat ++ [lat_first])
     else Ok (lon, lat));
  let '(lon, lat) :=
    if String.eqb units "deg"
    then ((fun v => v * np_pi / lit_180) <$> lon, (fun v => v * np_pi / lit_180) <$> lat)
    else (lon, lat) in
  (* l = gcdist(lon[:-1], lat[:-1], lon[1:], lat[1:], deg=False) *)
  _ ← global names "gcdist";
  Raise (NameError "gcdist").
End Sparea.
End Sparea.

(** ** The binary64 instance

    A number is an IEEE 754 binary64 value together with its Python type:
    a [float], or a NumPy [float64] (a scalar, or an element of an array).
    An operation with a NumPy operand is NumPy's and gives a [float64];
    dividing a [float] by a zero [float] raises [ZeroDivisionError], every
    other division follows IEEE 754; the square [x**2] of a finite
    [float] raises [OverflowError] when it is out of range, and is an
    infinity for a [float64].  Every NumPy function returns a
    [float64]. *)

Module Binary64.
Definition prec : Z := 53.
Definition emax : Z := 1024.

Record pyfloat : Type := PyFloat { is_np : bool; val : spec_float }.

(** A Python [float] and a NumPy [float64] from a literal. *)
Definition py (f : float) : pyfloat := PyFloat false (Prim2SF f).
Definition np (f : float) : pyfloat := PyFloat true (Prim2SF f).

Definition is_zero (x : spec_float) : bool :=
  match x with
  | S754_zero _ => true
  | _ => false
  end.

Definition is_finite (x : spec_float) : bool :=
  match x with
  | S754_zero _ | S754_finite _ _ _ => true
  | _ => false
  end.

(** The functions of the C library that NumPy calls.  Their values are
    not fixed by IEEE 754 beyond special cases, so they stay abstract. *)
Record libm : Type := Libm {
  c_sin : spec_float -> spec_float;
  c_cos : spec_float -> spec_float;
  c_tan : spec_float -> spec_float;
  c_atan : spec_float -> spec_float;
  c_asin : spec_float -> spec_float;
  c_atan2 : spec_float -> spec_float -> spec_float
}.

Definition binop (f : spec_float -> spec_float -> spec_float) (a b : pyfloat) : pyfloat :=
  PyFloat (is_np a || is_np b) (f (val a) (val b)).

Definition ufunc (f : spec_float -> spec_float) (a : pyfloat) : pyfloat :=
  PyFloat true (f (val a)).

#[export] Instance binary64 : Num pyfloat := {|
  lit_0 := py 0;
  lit_1 := py 1;
  lit_2 := py 2;
  lit_4 := py 4;
  lit_half := py 0.5;
  lit_180 := py 180;
  np_pi := py 0x1.921fb54442d18p+1;
  add := binop (SFadd prec emax);
  sub := binop (SFsub prec emax);
  mul := binop (SFmul prec emax);
  div := binop (SFdiv prec emax);
  zero_division a b := negb (is_np a) && negb (is_np b) && is_zero (val b);
  pow_overflow a :=
    negb (is_np a) && is_finite (val a)
    && negb (is_finite (SFmul prec emax (val a) (val a)));
  neg a := PyFloat (is_np a) (SFopp (val a));
  ltb a b := SFltb (val a) (val b);
  eqb a b := SFeqb (val a) (val b);
  float64 := ufunc (fun x => x);
  np_sqrt := ufunc (SFsqrt prec emax)
|}.

#[export] Instance binary64_trig (lm : libm) : Trig pyfloat := {|
  np_sin := ufunc (c_sin lm);
  np_cos := ufunc (c_cos lm);
  np_tan := ufunc (c_tan lm);
  np_arctan := ufunc (c_atan lm);
  np_arcsin := ufunc (c_asin lm);
  np_arctan2 a b := PyFloat true (c_atan2 lm (val a) (val b))
|}.

(** Classes of values. *)
Definition finite (x : pyfloat) : Prop := is_finite (val x) = true.
Definition not_finite (x : pyfloat) : Prop := is_finite (val x) = false.
Definition zero (x : pyfloat) : Prop := is_zero (val x) = true.
Definition is_nan (x : pyfloat) : Prop := val x = S754_nan.

(** [a] is within [tol] of [target]. *)
Definition within (tol : spec_float) (a target : pyfloat) : Prop :=
  SFleb (SFabs (SFsub prec emax (val a) (val target))) tol = true.

(** [a] is farther than [tol] from [target]. *)
Definition beyond (tol : spec_float) (a target : pyfloat) : Prop :=
  SFleb (SFabs (SFsub prec emax (val a) (val target))) tol = false.

(** [1e-9], the binary64 value nearest to it. *)
Definition tolerance : spec_float := Prim2SF 0x1.12e0be826d695p-30.

(** [np.pi/2], the binary64 value that the arc tangent of [+inf] is
    (C99 Annex F.9.1.3: atan(+-inf) returns +-pi/2). *)
Definition half_pi : spec_float := Prim2SF 0x1.921fb54442d18p+0.

Definition atan_at_infinity (lm : libm) : Prop :=
  c_atan lm (S754_infinity false) = half_pi.

(** A C library that is only known at the special values of C99
    Annex F: elsewhere each function returns its argument. *)
Definition special_values_only : libm :=
  {| c_sin x := x;
     c_cos x := match x with S754_zero _ => Prim2SF 1 | _ => x end;
     c_tan x := x;
     c_atan x :=
       match x with
       | S754_infinity false => half_pi
       | S754_infinity true => SFopp half_pi
       | _ => x
       end;
     c_asin x := x;
     c_atan2 y x := y |}.
End Binary64.

(** ** The exact instance

    Real numbers: no rounding, no infinity, no NaN, no overflow; a
    division by zero raises.  [arctan2] is the angle of the point [(x, y)] in
    [(-PI, PI]], and [0] at the origin.  Where NumPy would answer NaN
    (the square root of a negative number, the arc sine outside
    [[-1, 1]]) the functions of the Standard Library have some value:
    a statement in exact arithmetic is about the arguments on which the
    functions are defined. *)

Module Exact.
Local Open Scope R_scope.

Definition arctan2 (y x : R) : R :=
  if Rlt_dec 0 x then atan (y / x)
  else if Rlt_dec x 0 then
    (if Rle_dec 0 y then atan (y / x) + PI else atan (y / x) - PI)
  else if Rlt_dec 0 y then PI / 2
  else if Rlt_dec y 0 then - (PI / 2)
  else 0.

#[export] Instance R_eq_decision : EqDecision R := Req_dec_T.
#[export] Instance Rlt_decision (a b : R) : Decision (a < b) := Rlt_dec a b.

#[export] Instance exact : Num R := {|
  lit_0 := 0;
  lit_1 := 1;
  lit_2 := 2;
  lit_4 := 4;
  lit_half := / 2;
  lit_180 := 180;
  np_pi := PI;
  add := Rplus;
  sub := Rminus;
  mul := Rmult;
  div := Rdiv;
  zero_division a b := bool_decide (b = 0);
  pow_overflow _ := false;
  neg := Ropp;
  ltb a b := bool_decide (a < b);
  eqb a b := bool_decide (a = b);
  float64 x := x;
  np_sqrt := sqrt
|}.

#[export] Instance exact_trig : Trig R := {|
  np_sin := sin;
  np_cos := cos;
  np_tan := tan;
  np_arctan := atan;
  np_arcsin := asin;
  np_arctan2 := arctan2
|}.

(** Degrees to radians and back. *)
Definition rad (d : R) : R := d * PI / 180.
Definition deg (r : R) : R := r * (180 / PI).
End Exact.

(** * The words of the statements *)

(** ** What a header holds *)

Section Keys.
Context {F : Type}.

(** The header holds the six numbers of the linear transform under the
    keywords of [wcs.py]. *)
Record linear_keys (hdr : gmap string (hval F))
    (cd1_1 cd1_2 cd2_1 cd2_2 crpix1 crpix2 : F) : Prop := {
  key_cd1_1 : hdr !! "CD1_1" = Some (HNum cd1_1);
  key_cd1_2 : hdr !! "CD1_2" = Some (HNum cd1_2);
  key_cd2_1 : hdr !! "CD2_1" = Some (HNum cd2_1);
  key_cd2_2 : hdr !! "CD2_2" = Some (HNum cd2_2);
  key_crpix1 : hdr !! "CRPIX1" = Some (HNum crpix1);
  key_crpix2 : hdr !! "CRPIX2" = Some (HNum crpix2)
}.

(** The same under the lower-case keywords of [wcs_transform.py]. *)
Record linear_keys_lc (hdr : gmap string (hval F))
    (cd1_1 cd1_2 cd2_1 cd2_2 crpix1 crpix2 : F) : Prop := {
  key_lc_cd1_1 : hdr !! "cd1_1" = Some (HNum cd1_1);
  key_lc_cd1_2 : hdr !! "cd1_2" = Some (HNum cd1_2);
  key_lc_cd2_1 : hdr !! "cd2_1" = Some (HNum cd2_1);
  key_lc_cd2_2 : hdr !! "cd2_2" = Some (HNum cd2_2);
  key_lc_crpix1 : hdr !! "crpix1" = Some (HNum crpix1);
  key_lc_crpix2 : hdr !! "crpix2" = Some (HNum crpix2)
}.

(** The header holds the strings [ctype1] and [ctype2] under CTYPE1 and
    CTYPE2. *)
Record ctype_keys (hdr : gmap string (hval F)) (ctype1 ctype2 : string) : Prop := {
  key_ctype1 : hdr !! "CTYPE1" = Some (HStr ctype1);
  key_ctype2 : hdr !! "CTYPE2" = Some (HStr ctype2)
}.

(** The header holds the reference point under CRVAL1 and CRVAL2. *)
Record crval_keys (hdr : gmap string (hval F)) (crval1 crval2 : F) : Prop := {
  key_crval1 : hdr !! "CRVAL1" = Some (HNum crval1);
  key_crval2 : hdr !! "CRVAL2" = Some (HNum crval2)
}.

(** The header with CTYPE2 replaced. *)
Definition with_ctype2 (hdr : gmap string (hval F)) (other : string)
  : gmap string (hval F) :=
  <["CTYPE2" := HStr other]> hdr.

(** The native latitude of an outcome. *)
Definition theta_of (outcome : result (F * F)) : result F :=
  '(_, theta) ← outcome; mret theta.
End Keys.

(** The projection code that a CTYPE string names. *)
Definition projection (ctype : string) : string := snd (parse_ctype ctype).

(** The two divisions of [proj2pix] by the determinant [c], from the six
    numbers of the header. *)
Definition solve {F : Type} `{Num F}
    (cd1_1 cd1_2 cd2_1 cd2_2 crpix1 crpix2 xp yp : F) : result (F * F) :=
  let c := sub (mul cd1_1 cd2_2) (mul cd1_2 cd2_1) in
  q ← truediv (sub (mul cd2_2 xp) (mul cd1_2 yp)) c;
  let x := add q crpix1 in
  q ← truediv (add (mul (neg cd2_1) xp) (mul cd1_1 yp)) c;
  let y := add q crpix2 in
  mret (x, y).

(** ** The gnomonic projection

    What [proj2natsph] and [natsph2proj] of [wcs.py] compute on a header
    that names the TAN projection, from coordinates in degrees. *)

Section Gnomonic.
Context {F : Type} `{Num F} `{Trig F}.
Local Open Scope num_scope.

(** The quotient [1/r] of [proj2natsph], for the point [(xp, yp)] of the
    projection plane. *)
Definition reciprocal_radius (xp yp : F) : result F :=
  let xp := xp * np_pi / lit_180 in
  let yp := yp * np_pi / lit_180 in
  sx ← power2 xp; sy ← power2 yp;
  truediv lit_1 (np_sqrt (sx + sy)).

Definition gnomonic_sphere (xp yp : F) : result (F * F) :=
  q ← reciprocal_radius xp yp;
  let phi := np_arctan2 (xp * np_pi / lit_180) (- (yp * np_pi / lit_180)) in
  let theta := np_arctan q in
  mret (phi * (lit_180 / np_pi), theta * (lit_180 / np_pi)).

Definition gnomonic_plane (phi theta : F) : result (F * F) :=
  let phi := phi * np_pi / lit_180 in
  let theta := theta * np_pi / lit_180 in
  r ← truediv lit_1 (np_tan theta);
  mret (r * np_sin phi * (lit_180 / np_pi), (- r) * np_cos phi * (lit_180 / np_pi)).
End Gnomonic.

(** ** Binary64 headers, samples and outcomes *)

Module Terms64.
Import Binary64.
Local Open Scope num_scope.

Abbreviation header := (gmap string (hval pyfloat)).

(** A header with a plate scale of half a degree per pixel. *)
Definition half_degree_header : header :=
  {[ "CD1_1" := HNum (py (-0.5)); "CD1_2" := HNum (py 0);
     "CD2_1" := HNum (py 0); "CD2_2" := HNum (py 0.5);
     "CRPIX1" := HNum (py 512.5); "CRPIX2" := HNum (py 256.5);
     "cd1_1" := HNum (py (-0.5)); "cd1_2" := HNum (py 0);
     "cd2_1" := HNum (py 0); "cd2_2" := HNum (py 0.5);
     "crpix1" := HNum (py 512.5); "crpix2" := HNum (py 256.5) ]}.

(** A header whose CD matrix has determinant zero. *)
Definition singular_header : header :=
  {[ "CD1_1" := HNum (py 1); "CD1_2" := HNum (py 1);
     "CD2_1" := HNum (py 1); "CD2_2" := HNum (py 1);
     "CRPIX1" := HNum (py 0); "CRPIX2" := HNum (py 0);
     "cd1_1" := HNum (py 1); "cd1_2" := HNum (py 1);
     "cd2_1" := HNum (py 1); "cd2_2" := HNum (py 1);
     "crpix1" := HNum (py 0); "crpix2" := HNum (py 0) ]}.

(** A header whose CD matrix has the determinant [2^-52]. *)
Definition ill_conditioned_header : header :=
  {[ "CD1_1" := HNum (py 1); "CD1_2" := HNum (py 1);
     "CD2_1" := HNum (py 1); "CD2_2" := HNum (py 0x1.0000000000001p+0);
     "CRPIX1" := HNum (py 0); "CRPIX2" := HNum (py 0) ]}.

(** A header that names the TAN projection on both axes. *)
Definition tan_header : header :=
  {[ "CTYPE1" := HStr "RA---TAN"; "CTYPE2" := HStr "DEC--TAN" ]}.

(** Whether NumPy carries out the divisions of [proj2pix]: one of the
    coordinates or of the CD entries is a NumPy value. *)
Definition numpy_division (xp yp cd1_1 cd1_2 cd2_1 cd2_2 : pyfloat) : bool :=
  is_np xp || is_np yp || is_np cd1_1 || is_np cd1_2 || is_np cd2_1 || is_np cd2_2.

(** What [proj2pix] does on a zero determinant: with NumPy operands it
    returns two coordinates that are infinite or NaN, with Python floats
    only the division raises [ZeroDivisionError]. *)
Definition divides_by_zero (numpy : bool) (outcome : result (pyfloat * pyfloat)) : Prop :=
  if numpy
  then exists x y, outcome = Ok (x, y) /\ not_finite x /\ not_finite y
  else outcome = Raise ZeroDivisionError.

(** [i = x != y] and the five sums of [leastsquares2d] over the selected
    samples. *)
Definition selection (x y : list pyfloat) : list bool :=
  zip_with (fun a b => negb (eqb a b)) x y.
Definition sum_xx (x y : list pyfloat) : pyfloat :=
  np_sum (pow2 <$> mask x (selection x y)).
Definition sum_xy (x y : list pyfloat) : pyfloat :=
  np_sum (zip_with mul (mask x (selection x y)) (mask y (selection x y))).
Definition sum_xz (x y z : list pyfloat) : pyfloat :=
  np_sum (zip_with mul (mask x (selection x y)) (mask z (selection x y))).
Definition sum_yy (x y : list pyfloat) : pyfloat :=
  np_sum (pow2 <$> mask y (selection x y)).
Definition sum_yz (x y z : list pyfloat) : pyfloat :=
  np_sum (zip_with mul (mask y (selection x y)) (mask z (selection x y))).

(** The two coefficients from the sums: IEEE 754 divisions, since the
    sums are NumPy values. *)
Definition coeff_a (sx sxy sxz sy syz : pyfloat) : pyfloat :=
  (sxz - sxy * syz / sy) / (sx - pow2 sxy / sy).
Definition coeff_b (sx sxy sxz a : pyfloat) : pyfloat :=
  (sxz - a * sx) / sxy.

(** The samples of the model [z = 2*x - 1*y]. *)
Definition model_x : list pyfloat := np <$> [1; 2; 3]%float.
Definition model_y : list pyfloat := np <$> [4; 5; 6]%float.
Definition model_z : list pyfloat :=
  zip_with (fun xi yi => py 2 * xi - py 1 * yi) model_x model_y.

(** Samples of the same model near the line [x = y]: [y = x + 2^-20],
    so that [z] is [2 - 2^-20] and [3 - 2^-20], without rounding. *)
Definition near_x : list pyfloat := np <$> [2; 3]%float.
Definition near_y : list pyfloat := np <$> [0x1.000008p+1; 0x1.800008p+1]%float.
Definition near_z : list pyfloat :=
  zip_with (fun xi yi => py 2 * xi - py 1 * yi) near_x near_y.

(** Samples of the same model on the two axes: [z = [2, -1]]. *)
Definition axis_x : list pyfloat := np <$> [1; 0]%float.
Definition axis_y : list pyfloat := np <$> [0; 1]%float.
Definition axis_z : list pyfloat :=
  zip_with (fun xi yi => py 2 * xi - py 1 * yi) axis_x axis_y.

(** A header whose CD1_1 is [float('inf')]. *)
Definition infinite_scale_header : header :=
  {[ "CD1_1" := HNum (py infinity); "CD1_2" := HNum (py 0);
     "CD2_1" := HNum (py 0); "CD2_2" := HNum (py 0.5);
     "CRPIX1" := HNum (py 512.5); "CRPIX2" := HNum (py 256.5);
     "cd1_1" := HNum (py infinity); "cd1_2" := HNum (py 0);
     "cd2_1" := HNum (py 0); "cd2_2" := HNum (py 0.5);
     "crpix1" := HNum (py 512.5); "crpix2" := HNum (py 256.5) ]}.

(** A TAN header with the reference point at longitude 10 on the
    equator and a plate scale of [1e200] degrees per pixel (the binary64
    value [0x1.4e718d7d7625ap+664]): the
    determinant of its CD matrix, [1e400], is out of the range of
    binary64. *)
Definition steep_header : header :=
  {[ "CTYPE1" := HStr "RA---TAN"; "CTYPE2" := HStr "DEC--TAN";
     "CRVAL1" := HNum (py 10); "CRVAL2" := HNum (py 0);
     "CD1_1" := HNum (py 0x1.4e718d7d7625ap+664); "CD1_2" := HNum (py 0);
     "CD2_1" := HNum (py 0); "CD2_2" := HNum (py 0x1.4e718d7d7625ap+664);
     "CRPIX1" := HNum (py 0); "CRPIX2" := HNum (py 0) ]}.

(** With the C library [lm], [pix2world] maps the pixel [(x, y)] to the
    point [(u, v)] of the projection plane and on to the sky, and
    [world2pix] maps the result back to a pixel whose first coordinate
    is farther than [1e-9] from [x]. *)
Definition roundtrip_misses (hdr : header) (x y u v : pyfloat) (lm : libm) : Prop :=
  Wcs.pix2proj x y hdr = Ok (u, v)
  /\ exists lon lat x' y',
      Wcs.pix2world (H0 := binary64_trig lm) x y hdr = Ok (lon, lat)
      /\ Wcs.world2pix (H0 := binary64_trig lm) lon lat hdr = Ok (x', y')
      /\ beyond tolerance x' x.

(** A property of the code that holds whatever the C library. *)
Definition every_libm (P : libm -> Prop) : Prop := forall lm : libm, P lm.
End Terms64.

(** ** Exact headers, sums and angles *)

Module TermsExact.
Import Exact.
Local Open Scope R_scope.

(** A header whose CD matrix rotates and scales: its determinant is 25. *)
Definition rotated_header : gmap string (hval R) :=
  {[ "CD1_1" := HNum 3; "CD1_2" := HNum (-4);
     "CD2_1" := HNum 4; "CD2_2" := HNum 3;
     "CRPIX1" := HNum 100; "CRPIX2" := HNum 200 ]}.

(** A header of an orthographic (SIN) projection. *)
Definition sin_header : gmap string (hval R) :=
  {[ "CTYPE1" := HStr "RA---SIN"; "CTYPE2" := HStr "DEC--SIN";
     "CRVAL1" := HNum 10; "CRVAL2" := HNum 20;
     "CD1_1" := HNum 1; "CD1_2" := HNum 0;
     "CD2_1" := HNum 0; "CD2_2" := HNum 1;
     "CRPIX1" := HNum 0; "CRPIX2" := HNum 0 ]}.

(** A header whose first axis names TAN and whose second names SIN. *)
Definition mixed_header : gmap string (hval R) :=
  {[ "CTYPE1" := HStr "RA---TAN"; "CTYPE2" := HStr "DEC--SIN";
     "CRVAL1" := HNum 10; "CRVAL2" := HNum 20 ]}.

(** A TAN header with the reference point at longitude 10 on the equator. *)
Definition equatorial_header : gmap string (hval R) :=
  {[ "CTYPE1" := HStr "RA---TAN"; "CTYPE2" := HStr "DEC--TAN";
     "CRVAL1" := HNum 10; "CRVAL2" := HNum 0;
     "CD1_1" := HNum 1; "CD1_2" := HNum 0;
     "CD2_1" := HNum 0; "CD2_2" := HNum 1;
     "CRPIX1" := HNum 0; "CRPIX2" := HNum 0 ]}.

(** *** Sums *)

(** The sum of a list of numbers. *)
Definition total (l : list R) : R := foldl Rplus 0 l.

(** *** Angles of the sky *)

(** The direction cosines of the point that the rotation of
    [natsph2celsph] makes of the angles [a] and [b], for the pole at the
    latitude [p]. *)
Definition rot_x (a b p : R) : R := sin b * cos p - cos b * sin p * cos a.
Definition rot_y (a b p : R) : R := - cos b * sin a.
Definition rot_z (a b p : R) : R := sin b * sin p + cos b * cos p * cos a.

(** The native coordinates of the point [(u, v)] of the projection
    plane, in radians. *)
Definition native_phi (u v : R) : R := arctan2 u (- v).
Definition native_theta (u v : R) : R := atan (1 / sqrt (u * u + v * v)).

(** The projection-plane coordinates of the pixel [(x, y)], in radians. *)
Definition plane_u (cd1_1 cd1_2 crpix1 crpix2 x y : R) : R :=
  rad (cd1_1 * (x - crpix1) + cd1_2 * (y - crpix2)).
Definition plane_v (cd2_1 cd2_2 crpix1 crpix2 x y : R) : R :=
  rad (cd2_1 * (x - crpix1) + cd2_2 * (y - crpix2)).
End TermsExact.

(** ** Keywords that a function reads *)

(** The keywords of the linear transform, as [wcs.py] and as
    [wcs_transform.py] spell them. *)
Definition linear_keywords : list string :=
  ["CD1_1"; "CD1_2"; "CD2_1"; "CD2_2"; "CRPIX1"; "CRPIX2"].
Definition linear_keywords_lc : list string :=
  ["cd1_1"; "cd1_2"; "cd2_1"; "cd2_2"; "crpix1"; "crpix2"].

(** The exception [e] names a keyword among [keys] that the header
    lacks ([KeyError]), or is the [TypeError] of arithmetic on a string
    that the header holds under one of [keys]. *)
Definition missing_or_text {F : Type} (hdr : gmap string (hval F))
    (keys : list string) (e : exn) : Prop :=
  exists k, k ∈ keys /\
    ((hdr !! k = None /\ e = KeyError k)
     \/ (exists s, hdr !! k = Some (HStr s) /\ e = TypeError)).

(** ** More binary64 values *)

Module Values64.
Import Binary64.

(** Python's [a == b]. *)
Definition equal (a b : pyfloat) : Prop := eqb a b = true.

(** A determinant that [proj2pix] can divide by: not a zero and not NaN. *)
Definition divisor (c : pyfloat) : Prop :=
  is_zero (val c) = false /\ val c <> S754_nan.

(** The tangent of a zero is that zero (C99 Annex F.9.1.7: tan(+-0)
    returns +-0). *)
Definition tan_at_zero (lm : libm) : Prop :=
  forall s, c_tan lm (S754_zero s) = S754_zero s.

(** The coordinate [x], in degrees, is a finite number of radians whose
    square is out of the range of binary64. *)
Definition square_overflows (x : pyfloat) : Prop :=
  finite (x * np_pi / lit_180)%num /\ not_finite (pow2 (x * np_pi / lit_180)%num).
End Values64.

(** ** CTYPE strings and the conversions that read them *)

(** A string without the dash that separates the parts of a CTYPE. *)
Fixpoint dashless (s : string) : Prop :=
  match s with
  | EmptyString => True
  | String c rest => c <> "-"%char /\ dashless rest
  end.

(** The four conversions of [wcs.py] that read CTYPE all raise [e] on
    the coordinates [(a, b)]. *)
Definition conversions_raise {F : Type} `{Num F} `{Trig F}
    (hdr : gmap string (hval F)) (a b : F) (e : exn) : Prop :=
  Wcs.proj2natsph a b hdr = Raise e
  /\ Wcs.natsph2proj a b hdr = Raise e
  /\ Wcs.natsph2celsph a b hdr = Raise e
  /\ Wcs.celsph2natsph a b hdr = Raise e.

(** ** The samples of a fit *)

(** [x != y], the samples that [leastsquares2d] keeps. *)
Definition unequal {F : Type} `{Num F} (x y : list F) : list bool :=
  zip_with (fun a b => negb (eqb a b)) x y.

(** The statements of [leastsquares2d] after the selection, on the
    samples kept. *)
Definition normal_solution {F : Type} `{Num F} (xs ys zs : list F) : result (fit F) :=
  let sx := np_sum (pow2 <$> xs) in
  let sxy := np_sum (zip_with mul xs ys) in
  let sxz := np_sum (zip_with mul xs zs) in
  let sy := np_sum (pow2 <$> ys) in
  let syz := np_sum (zip_with mul ys zs) in
  q1 ← truediv (mul sxy syz) sy;
  q2 ← truediv (pow2 sxy) sy;
  a ← truediv (sub sxz q1) (sub sx q2);
  b ← truediv (sub sxz (mul a sx)) sxy;
  mret (Coeffs a b).

Module TermsFit.
Import Exact.
Local Open Scope R_scope.

(** The five sums of [leastsquares2d] in exact arithmetic. *)
Definition sx (x y : list R) : R := np_sum (pow2 <$> mask x (unequal x y)).
Definition sxy (x y : list R) : R :=
  np_sum (zip_with Rmult (mask x (unequal x y)) (mask y (unequal x y))).
Definition sxz (x y z : list R) : R :=
  np_sum (zip_with Rmult (mask x (unequal x y)) (mask z (unequal x y))).
Definition sy (x y : list R) : R := np_sum (pow2 <$> mask y (unequal x y)).
Definition syz (x y z : list R) : R :=
  np_sum (zip_with Rmult (mask y (unequal x y)) (mask z (unequal x y))).

(** Samples that the model [z = a*x + b*y] generates. *)
Definition plane (a b : R) (x y : list R) : list R :=
  zip_with (fun xi yi => a * xi + b * yi) x y.
End TermsFit.

(** * Properties *)

(** ** The linear stage, for any arithmetic *)

Section Linear.
Context {F : Type} `{Num F}.
Local Open Scope num_scope.

Lemma getitem_Some (hdr : gmap string (hval F)) key v :
  hdr !! key = Some v -> getitem hdr key = Ok v.
Proof. unfold getitem. intros ->. reflexivity. Qed.

Variables (hdr : gmap string (hval F)) (cd1_1 cd1_2 cd2_1 cd2_2 crpix1 crpix2 : F).

Lemma pix2proj_linear x y :
  linear_keys hdr cd1_1 cd1_2 cd2_1 cd2_2 crpix1 crpix2 ->
  Wcs.pix2proj x y hdr
  = Ok (cd1_1 * (x - crpix1) + cd1_2 * (y - crpix2),
        cd2_1 * (x - crpix1) + cd2_2 * (y - crpix2)).
Proof.
  intros [K1 K2 K3 K4 K5 K6]. unfold Wcs.pix2proj.
  rewrite !(getitem_Some _ _ _ K1), !(getitem_Some _ _ _ K2), !(getitem_Some _ _ _ K3),
    !(getitem_Some _ _ _ K4), !(getitem_Some _ _ _ K5), !(getitem_Some _ _ _ K6).
  reflexivity.
Qed.

Lemma pix2proj_linear_lc x y :
  linear_keys_lc hdr cd1_1 cd1_2 cd2_1 cd2_2 crpix1 crpix2 ->
  WcsTransform.pix2proj x y hdr
  = Ok (cd1_1 * (x - crpix1) + cd1_2 * (y - crpix2),
        cd2_1 * (x - crpix1) + cd2_2 * (y - crpix2)).
Proof.
  intros [K1 K2 K3 K4 K5 K6]. unfold WcsTransform.pix2proj.
  rewrite !(getitem_Some _ _ _ K1), !(getitem_Some _ _ _ K2), !(getitem_Some _ _ _ K3),
    !(getitem_Some _ _ _ K4), !(getitem_Some _ _ _ K5), !(getitem_Some _ _ _ K6).
  reflexivity.
Qed.

Lemma proj2pix_linear xp yp :
  linear_keys hdr cd1_1 cd1_2 cd2_1 cd2_2 crpix1 crpix2 ->
  Wcs.proj2pix xp yp hdr = solve cd1_1 cd1_2 cd2_1 cd2_2 crpix1 crpix2 xp yp.
Proof.
  intros [K1 K2 K3 K4 K5 K6]. unfold Wcs.proj2pix, solve.
  rewrite !(getitem_Some _ _ _ K1), !(getitem_Some _ _ _ K2), !(getitem_Some _ _ _ K3),
    !(getitem_Some _ _ _ K4), !(getitem_Some _ _ _ K5), !(getitem_Some _ _ _ K6).
  cbn. destruct (truediv _ _); [|reflexivity]. cbn.
  destruct (truediv _ _); reflexivity.
Qed.

Lemma proj2pix_linear_lc u v :
  linear_keys_lc hdr cd1_1 cd1_2 cd2_1 cd2_2 crpix1 crpix2 ->
  WcsTransform.proj2pix u v hdr = solve cd1_1 cd1_2 cd2_1 cd2_2 crpix1 crpix2 u v.
Proof.
  intros [K1 K2 K3 K4 K5 K6]. unfold WcsTransform.proj2pix, solve.
  rewrite !(getitem_Some _ _ _ K1), !(getitem_Some _ _ _ K2), !(getitem_Some _ _ _ K3),
    !(getitem_Some _ _ _ K4), !(getitem_Some _ _ _ K5), !(getitem_Some _ _ _ K6).
  cbn. destruct (truediv _ _); [|reflexivity]. cbn.
  destruct (truediv _ _); reflexivity.
Qed.
End Linear.

(** ** Zeros, infinities and NaN in binary64 *)

Module Ieee.
Import Binary64.

Lemma sub_diag x : is_finite x = true -> SFsub prec emax x x = S754_zero false.
Proof.
  destruct x as [[]|[]| |s m e]; try discriminate; intros _; try reflexivity.
  cbn [SFsub]. rewrite Z.sub_diag. reflexivity.
Qed.

Lemma mul_zero_r x y :
  is_finite x = true -> is_zero y = true -> is_zero (SFmul prec emax x y) = true.
Proof. destruct x, y; try discriminate; reflexivity. Qed.

Lemma add_zeros x y :
  is_zero x = true -> is_zero y = true -> is_zero (SFadd prec emax x y) = true.
Proof. destruct x as [[]| | |], y as [[]| | |]; try discriminate; reflexivity. Qed.

(** A quotient by zero is an infinity or NaN. *)
Lemma div_zero a c : is_zero c = true -> is_finite (SFdiv prec emax a c) = false.
Proof. destruct a, c; try discriminate; reflexivity. Qed.

(** An infinity or NaN stays one when a number is added to it. *)
Lemma add_not_finite a b :
  is_finite a = false -> is_finite (SFadd prec emax a b) = false.
Proof.
  destruct a as [|[]| |]; try discriminate; intros _;
    destruct b as [|[]| |]; reflexivity.
Qed.

Lemma sub_not_finite_r a b :
  is_finite b = false -> is_finite (SFsub prec emax a b) = false.
Proof.
  destruct b as [|[]| |]; try discriminate; intros _;
    destruct a as [|[]| |]; reflexivity.
Qed.

(** The quotient of two values that are infinite or NaN is NaN. *)
Lemma div_not_finite a b :
  is_finite a = false -> is_finite b = false -> SFdiv prec emax a b = S754_nan.
Proof. destruct a, b; try discriminate; reflexivity. Qed.

Lemma sub_nan_r a : SFsub prec emax a S754_nan = S754_nan.
Proof. destruct a; reflexivity. Qed.
End Ieee.

(** ** The linear stage in binary64 *)

Module LinearBinary64.
Import Binary64 Terms64.
Local Open Scope num_scope.

Lemma origin_term cd x :
  finite cd -> finite x -> zero (cd * (x - x)).
Proof.
  unfold finite, zero. intros Hcd Hx. cbn.
  apply Ieee.mul_zero_r; [exact Hcd|]. rewrite Ieee.sub_diag by exact Hx. reflexivity.
Qed.

Lemma origin_sum a b : zero a -> zero b -> zero (a + b).
Proof. unfold zero. cbn. apply Ieee.add_zeros. Qed.

(** C10 (as amended). For every header whose CD matrix and reference
    pixel are finite binary64 numbers, the forward linear transform maps the reference
    pixel to the origin of the projection plane: both coordinates of
    [pix2proj(CRPIX1, CRPIX2, h)] are zeros, in [wcs.py] and in
    [wcs_transform.py]. *)
Theorem pix2proj_reference_pixel (hdr : header) cd1_1 cd1_2 cd2_1 cd2_2 crpix1 crpix2 :
  finite cd1_1 -> finite cd1_2 -> finite cd2_1 -> finite cd2_2 ->
  finite crpix1 -> finite crpix2 ->
  (linear_keys hdr cd1_1 cd1_2 cd2_1 cd2_2 crpix1 crpix2 ->
   exists xp yp, Wcs.pix2proj crpix1 crpix2 hdr = Ok (xp, yp) /\ zero xp /\ zero yp)
  /\
  (linear_keys_lc hdr cd1_1 cd1_2 cd2_1 cd2_2 crpix1 crpix2 ->
   exists u v, WcsTransform.pix2proj crpix1 crpix2 hdr = Ok (u, v) /\ zero u /\ zero v).
Proof.
  intros F11 F12 F21 F22 F1 F2. split; intros K.
  - rewrite (pix2proj_linear _ _ _ _ _ _ _ _ _ K). do 2 eexists. split; [reflexivity|].
    split; apply origin_sum; apply origin_term; assumption.
  - rewrite (pix2proj_linear_lc _ _ _ _ _ _ _ _ _ K). do 2 eexists. split; [reflexivity|].
    split; apply origin_sum; apply origin_term; assumption.
Qed.

(** With [CD1_1 = float('inf')] the reference pixel is not mapped to the
    origin: [inf * 0.0] is NaN. *)
Lemma pix2proj_infinite_scale :
  Wcs.pix2proj (py 512.5) (py 256.5) infinite_scale_header
  = Ok (PyFloat false S754_nan, py 0)
  /\ WcsTransform.pix2proj (py 512.5) (py 256.5) infinite_scale_header
     = Ok (PyFloat false S754_nan, py 0).
Proof. split; vm_compute; reflexivity. Qed.

Lemma half_degree_keys :
  linear_keys half_degree_header (py (-0.5)) (py 0) (py 0) (py 0.5) (py 512.5) (py 256.5).
Proof. split; reflexivity. Defined.

Lemma half_degree_keys_lc :
  linear_keys_lc half_degree_header (py (-0.5)) (py 0) (py 0) (py 0.5) (py 512.5) (py 256.5).
Proof. split; reflexivity. Defined.

Lemma pix2proj_reference_pixel_witness :
  (exists xp yp, Wcs.pix2proj (py 512.5) (py 256.5) half_degree_header = Ok (xp, yp)
                 /\ zero xp /\ zero yp)
  /\
  (exists u v, WcsTransform.pix2proj (py 512.5) (py 256.5) half_degree_header = Ok (u, v)
               /\ zero u /\ zero v).
Proof.
  destruct (pix2proj_reference_pixel half_degree_header
              (py (-0.5)) (py 0) (py 0) (py 0.5) (py 512.5) (py 256.5)) as [W T];
    try reflexivity.
  split; [apply W, half_degree_keys | apply T, half_degree_keys_lc].
Defined.
End LinearBinary64.

Module SingularBinary64.
Import Binary64 Terms64.
Local Open Scope num_scope.

Lemma solve_singular cd1_1 cd1_2 cd2_1 cd2_2 crpix1 crpix2 xp yp :
  zero (cd1_1 * cd2_2 - cd1_2 * cd2_1) ->
  divides_by_zero (numpy_division xp yp cd1_1 cd1_2 cd2_1 cd2_2)
    (solve cd1_1 cd1_2 cd2_1 cd2_2 crpix1 crpix2 xp yp).
Proof.
  unfold zero, divides_by_zero, numpy_division, solve, truediv, not_finite.
  destruct cd1_1 as [t11 v11], cd1_2 as [t12 v12], cd2_1 as [t21 v21],
    cd2_2 as [t22 v22], xp as [tx vx], yp as [ty vy], crpix1 as [t1 v1], crpix2 as [t2 v2].
  cbn. intros Hc.
  destruct tx, ty, t11, t12, t21, t22; cbn; rewrite ?Hc; cbn;
    try reflexivity;
    (do 2 eexists; split; [reflexivity|]; cbn;
     split; apply Ieee.add_not_finite, Ieee.div_zero, Hc).
Qed.

(** C3 (as amended). For every header whose determinant
    [c = CD1_1*CD2_2 - CD1_2*CD2_1] evaluates to zero, [proj2pix] makes
    no check of [c] and divides by it: with a NumPy operand it returns
    coordinates that are infinite or NaN, and with Python floats only it
    raises [ZeroDivisionError]; in [wcs.py] and in [wcs_transform.py]. *)
Theorem proj2pix_singular (hdr : header) cd1_1 cd1_2 cd2_1 cd2_2 crpix1 crpix2 xp yp :
  zero (cd1_1 * cd2_2 - cd1_2 * cd2_1) ->
  (linear_keys hdr cd1_1 cd1_2 cd2_1 cd2_2 crpix1 crpix2 ->
   divides_by_zero (numpy_division xp yp cd1_1 cd1_2 cd2_1 cd2_2)
     (Wcs.proj2pix xp yp hdr))
  /\
  (linear_keys_lc hdr cd1_1 cd1_2 cd2_1 cd2_2 crpix1 crpix2 ->
   divides_by_zero (numpy_division xp yp cd1_1 cd1_2 cd2_1 cd2_2)
     (WcsTransform.proj2pix xp yp hdr)).
Proof.
  intros Hc. split; intros K.
  - rewrite (proj2pix_linear _ _ _ _ _ _ _ _ _ K). apply solve_singular, Hc.
  - rewrite (proj2pix_linear_lc _ _ _ _ _ _ _ _ _ K). apply solve_singular, Hc.
Qed.

Lemma singular_keys :
  linear_keys singular_header (py 1) (py 1) (py 1) (py 1) (py 0) (py 0).
Proof. split; reflexivity. Defined.

Lemma singular_keys_lc :
  linear_keys_lc singular_header (py 1) (py 1) (py 1) (py 1) (py 0) (py 0).
Proof. split; reflexivity. Defined.

Lemma proj2pix_singular_witness :
  divides_by_zero true (Wcs.proj2pix (np 2) (np 3) singular_header)
  /\ divides_by_zero true (WcsTransform.proj2pix (np 2) (np 3) singular_header).
Proof.
  destruct (proj2pix_singular singular_header
              (py 1) (py 1) (py 1) (py 1) (py 0) (py 0) (np 2) (np 3)) as [W T];
    [reflexivity|].
  split; [apply W, singular_keys | apply T, singular_keys_lc].
Defined.

(** On the singular header [proj2pix] reports no error for NumPy
    coordinates: it returns the pair [(-inf, inf)]. *)
Lemma proj2pix_singular_returns :
  Wcs.proj2pix (np 2) (np 3) singular_header
  = Ok (PyFloat true (S754_infinity true), PyFloat true (S754_infinity false))
  /\ WcsTransform.proj2pix (np 2) (np 3) singular_header
  = Ok (PyFloat true (S754_infinity true), PyFloat true (S754_infinity false)).
Proof. split; vm_compute; reflexivity. Qed.
End SingularBinary64.

(** ** The round trip of the linear stage *)

Module LinearRoundTrip.
Import Binary64 Terms64.

(** In binary64 the pixel (1, 3) comes back as (0, 4): [pix2proj] gives
    [xp = 4] and [yp] rounds to [4 + 2^-50], and the division by
    [c = 2^-52] turns the rounding into whole pixels. *)
Lemma linear_roundtrip_binary64 :
  Wcs.pix2proj (py 1) (py 3) ill_conditioned_header
  = Ok (py 4, py 0x1.0000000000001p+2)
  /\ Wcs.proj2pix (py 4) (py 0x1.0000000000001p+2) ill_conditioned_header
  = Ok (py 0, py 4).
Proof. split; vm_compute; reflexivity. Qed.

Import Exact TermsExact.
Local Open Scope R_scope.

Lemma truediv_exact (a b : R) : b <> 0 -> truediv a b = Ok (a / b).
Proof.
  intros Hb. unfold truediv. cbn. rewrite bool_decide_eq_false_2 by exact Hb. reflexivity.
Qed.

(** Cramer's rule on the image of a pixel. *)
Lemma solve_image (cd1_1 cd1_2 cd2_1 cd2_2 crpix1 crpix2 x y : R) :
  cd1_1 * cd2_2 - cd1_2 * cd2_1 <> 0 ->
  solve cd1_1 cd1_2 cd2_1 cd2_2 crpix1 crpix2
    (cd1_1 * (x - crpix1) + cd1_2 * (y - crpix2))
    (cd2_1 * (x - crpix1) + cd2_2 * (y - crpix2))
  = Ok (x, y).
Proof.
  intros Hc. unfold solve. cbn.
  rewrite !truediv_exact by exact Hc. cbn. f_equal. f_equal; field; exact Hc.
Qed.

(** C2 (as amended). In exact arithmetic, for every header whose CD
    matrix has a determinant other than zero and every pixel [(x, y)],
    [proj2pix] undoes [pix2proj]. *)
Theorem linear_roundtrip_exact (hdr : gmap string (hval R))
    (cd1_1 cd1_2 cd2_1 cd2_2 crpix1 crpix2 x y : R) :
  linear_keys hdr cd1_1 cd1_2 cd2_1 cd2_2 crpix1 crpix2 ->
  cd1_1 * cd2_2 - cd1_2 * cd2_1 <> 0 ->
  ('(xp, yp) ← Wcs.pix2proj x y hdr; Wcs.proj2pix xp yp hdr) = Ok (x, y).
Proof.
  intros K Hc. rewrite (pix2proj_linear _ _ _ _ _ _ _ _ _ K). cbn [mbind result_bind].
  rewrite (proj2pix_linear _ _ _ _ _ _ _ _ _ K). apply solve_image, Hc.
Qed.

Lemma rotated_keys : linear_keys rotated_header 3 (-4) 4 3 100 200.
Proof. split; reflexivity. Defined.

Lemma linear_roundtrip_exact_witness :
  ('(xp, yp) ← Wcs.pix2proj 7 9 rotated_header; Wcs.proj2pix xp yp rotated_header)
  = Ok (7, 9).
Proof.
  apply (linear_roundtrip_exact rotated_header 3 (-4) 4 3 100 200 7 9 rotated_keys).
  lra.
Defined.
End LinearRoundTrip.

(** ** The projection code, for any arithmetic *)

Section Projection.
Context {F : Type} `{Num F} `{Trig F}.
Local Open Scope num_scope.

Variables (hdr : gmap string (hval F)) (ctype1 ctype2 : string).
Hypothesis K : ctype_keys hdr ctype1 ctype2.

Lemma projection_of_ctype1 : Wcs.projection_of hdr "CTYPE1" = Ok (projection ctype1).
Proof. unfold Wcs.projection_of. rewrite (getitem_Some _ _ _ (key_ctype1 _ _ _ K)). reflexivity. Qed.

Lemma projection_of_ctype2 : Wcs.projection_of hdr "CTYPE2" = Ok (projection ctype2).
Proof. unfold Wcs.projection_of. rewrite (getitem_Some _ _ _ (key_ctype2 _ _ _ K)). reflexivity. Qed.

(** With the code TAN, the two conversions are the gnomonic
    projection. *)
Lemma proj2natsph_tan xp yp :
  projection ctype1 = "TAN" -> Wcs.proj2natsph xp yp hdr = gnomonic_sphere xp yp.
Proof.
  intros T. unfold Wcs.proj2natsph, gnomonic_sphere, reciprocal_radius.
  rewrite projection_of_ctype1, projection_of_ctype2, T. cbn.
  destruct (power2 (xp * np_pi / lit_180)); [|reflexivity]. cbn.
  destruct (power2 (yp * np_pi / lit_180)); [|reflexivity]. cbn.
  destruct (truediv _ _); reflexivity.
Qed.

Lemma natsph2proj_tan phi theta :
  projection ctype1 = "TAN" -> Wcs.natsph2proj phi theta hdr = gnomonic_plane phi theta.
Proof.
  intros T. unfold Wcs.natsph2proj, gnomonic_plane.
  rewrite projection_of_ctype1, projection_of_ctype2, T. cbn.
  destruct (truediv _ _); reflexivity.
Qed.

Lemma proj2natsph_not_tan xp yp :
  projection ctype1 <> "TAN" -> Wcs.proj2natsph xp yp hdr = Raise TypeError.
Proof.
  intros T. unfold Wcs.proj2natsph.
  rewrite projection_of_ctype1, projection_of_ctype2. cbn -[projection String.eqb].
  apply String.eqb_neq in T. rewrite T. reflexivity.
Qed.

Lemma natsph2proj_not_tan phi theta :
  projection ctype1 <> "TAN" -> Wcs.natsph2proj phi theta hdr = Raise TypeError.
Proof.
  intros T. unfold Wcs.natsph2proj.
  rewrite projection_of_ctype1, projection_of_ctype2. cbn -[projection String.eqb].
  apply String.eqb_neq in T. rewrite T. reflexivity.
Qed.

Lemma natsph2celsph_not_tan phi theta :
  projection ctype1 <> "TAN" -> Wcs.natsph2celsph phi theta hdr = Raise TypeError.
Proof.
  intros T. unfold Wcs.natsph2celsph, Wcs.pole_settings.
  rewrite projection_of_ctype1, projection_of_ctype2. cbn -[projection String.eqb].
  apply String.eqb_neq in T. rewrite T. reflexivity.
Qed.

Lemma celsph2natsph_not_tan lon lat :
  projection ctype1 <> "TAN" -> Wcs.celsph2natsph lon lat hdr = Raise TypeError.
Proof.
  intros T. unfold Wcs.celsph2natsph, Wcs.pole_settings.
  rewrite projection_of_ctype1, projection_of_ctype2. cbn -[projection String.eqb].
  apply String.eqb_neq in T. rewrite T. reflexivity.
Qed.
End Projection.

(** ** Projection codes other than TAN *)

Module Unsupported.
Import Exact TermsExact.
Local Open Scope R_scope.

Lemma sin_keys : ctype_keys sin_header "RA---SIN" "DEC--SIN".
Proof. split; reflexivity. Defined.

(** On the code SIN both conversions raise [TypeError], which carries
    no projection code: the [None] placeholders are multiplied by
    [180/np.pi]. *)
Lemma sin_projection_raises_TypeError :
  Wcs.proj2natsph 1 1 sin_header = Raise TypeError
  /\ Wcs.natsph2proj 1 1 sin_header = Raise TypeError.
Proof. split; reflexivity. Qed.

(** C4 (as amended). For every header whose CTYPE1 names a projection
    code other than TAN, [proj2natsph] and [natsph2proj] fail with
    [TypeError]; they never return coordinates, and so never
    [(None, None)]. *)
Theorem unsupported_projection_raises {F : Type} `{Num F} `{Trig F}
    (hdr : gmap string (hval F)) (ctype1 ctype2 : string) (a b : F) :
  ctype_keys hdr ctype1 ctype2 ->
  projection ctype1 <> "TAN" ->
  Wcs.proj2natsph a b hdr = Raise TypeError
  /\ Wcs.natsph2proj a b hdr = Raise TypeError.
Proof.
  intros K T. split.
  - exact (proj2natsph_not_tan hdr ctype1 ctype2 K a b T).
  - exact (natsph2proj_not_tan hdr ctype1 ctype2 K a b T).
Qed.

Lemma unsupported_projection_raises_witness :
  Wcs.proj2natsph 3 4 sin_header = Raise TypeError
  /\ Wcs.natsph2proj 3 4 sin_header = Raise TypeError.
Proof.
  apply (unsupported_projection_raises sin_header "RA---SIN" "DEC--SIN" 3 4 sin_keys).
  discriminate.
Defined.
End Unsupported.

(** ** Headers whose two axes name different projection codes *)

Section Axis2.
Context {F : Type} `{Num F} `{Trig F}.

Variables (hdr : gmap string (hval F)) (ctype1 ctype2 other : string).
Hypothesis K : ctype_keys hdr ctype1 ctype2.

Lemma with_ctype2_keys : ctype_keys (with_ctype2 hdr other) ctype1 other.
Proof.
  destruct K as [K1 K2]. split; unfold with_ctype2.
  - rewrite lookup_insert_ne by discriminate. exact K1.
  - apply lookup_insert_eq.
Qed.

Lemma getitem_with_ctype2 key :
  key <> "CTYPE2" -> getitem (with_ctype2 hdr other) key = getitem hdr key.
Proof.
  intros Hk. unfold getitem, with_ctype2. rewrite lookup_insert_ne by congruence.
  reflexivity.
Qed.

Lemma proj2natsph_ctype2 xp yp :
  Wcs.proj2natsph xp yp (with_ctype2 hdr other) = Wcs.proj2natsph xp yp hdr.
Proof.
  unfold Wcs.proj2natsph.
  rewrite (projection_of_ctype1 _ _ _ with_ctype2_keys), (projection_of_ctype1 _ _ _ K),
    (projection_of_ctype2 _ _ _ with_ctype2_keys), (projection_of_ctype2 _ _ _ K).
  reflexivity.
Qed.

Lemma natsph2proj_ctype2 phi theta :
  Wcs.natsph2proj phi theta (with_ctype2 hdr other) = Wcs.natsph2proj phi theta hdr.
Proof.
  unfold Wcs.natsph2proj.
  rewrite (projection_of_ctype1 _ _ _ with_ctype2_keys), (projection_of_ctype1 _ _ _ K),
    (projection_of_ctype2 _ _ _ with_ctype2_keys), (projection_of_ctype2 _ _ _ K).
  reflexivity.
Qed.

Lemma pole_settings_ctype2 code :
  Wcs.pole_settings (with_ctype2 hdr other) code = Wcs.pole_settings hdr code.
Proof.
  unfold Wcs.pole_settings. rewrite !getitem_with_ctype2 by discriminate. reflexivity.
Qed.

Lemma natsph2celsph_ctype2 phi theta :
  Wcs.natsph2celsph phi theta (with_ctype2 hdr other) = Wcs.natsph2celsph phi theta hdr.
Proof.
  unfold Wcs.natsph2celsph.
  rewrite (projection_of_ctype1 _ _ _ with_ctype2_keys), (projection_of_ctype1 _ _ _ K),
    (projection_of_ctype2 _ _ _ with_ctype2_keys), (projection_of_ctype2 _ _ _ K).
  cbn -[Wcs.pole_settings]. rewrite pole_settings_ctype2. reflexivity.
Qed.

Lemma celsph2natsph_ctype2 lon lat :
  Wcs.celsph2natsph lon lat (with_ctype2 hdr other) = Wcs.celsph2natsph lon lat hdr.
Proof.
  unfold Wcs.celsph2natsph.
  rewrite (projection_of_ctype1 _ _ _ with_ctype2_keys), (projection_of_ctype1 _ _ _ K),
    (projection_of_ctype2 _ _ _ with_ctype2_keys), (projection_of_ctype2 _ _ _ K).
  cbn -[Wcs.pole_settings]. rewrite pole_settings_ctype2. reflexivity.
Qed.
End Axis2.

Module MixedAxes.
Import Exact TermsExact LinearRoundTrip.
Local Open Scope R_scope.

Lemma mixed_keys : ctype_keys mixed_header "RA---TAN" "DEC--SIN".
Proof. split; reflexivity. Defined.

Lemma mixed_axes_accepted :
  returns (Wcs.proj2natsph 1 1 mixed_header)
  /\ returns (Wcs.natsph2proj 0 45 mixed_header)
  /\ returns (Wcs.natsph2celsph 0 45 mixed_header)
  /\ returns (Wcs.celsph2natsph 10 20 mixed_header).
Proof.
  split; [|split; [|split; exact I]].
  - rewrite (proj2natsph_tan _ _ _ mixed_keys) by reflexivity.
    unfold gnomonic_sphere, reciprocal_radius, power2. cbn -[truediv].
    rewrite truediv_exact; [exact I|].
    unfold pow2. cbn.
    apply Rgt_not_eq, sqrt_lt_R0. pose proof PI_RGT_0. nra.
  - unfold Wcs.natsph2proj.
    rewrite (projection_of_ctype1 _ _ _ mixed_keys), (projection_of_ctype2 _ _ _ mixed_keys).
    cbn -[truediv].
    replace (45 * PI / 180) with (PI / 4) by field. rewrite tan_PI4.
    rewrite truediv_exact by lra. exact I.
Qed.

(** C9 (as amended). The conversions that consult CTYPE use the
    projection code of CTYPE1 alone: CTYPE2 is read and parsed, and its
    code is never compared or used, so replacing CTYPE2 by any other
    string leaves the outcome of each conversion unchanged. *)
Theorem axis2_code_unused {F : Type} `{Num F} `{Trig F}
    (hdr : gmap string (hval F)) (ctype1 ctype2 other : string) (a b : F) :
  ctype_keys hdr ctype1 ctype2 ->
  Wcs.proj2natsph a b (with_ctype2 hdr other) = Wcs.proj2natsph a b hdr
  /\ Wcs.natsph2proj a b (with_ctype2 hdr other) = Wcs.natsph2proj a b hdr
  /\ Wcs.natsph2celsph a b (with_ctype2 hdr other) = Wcs.natsph2celsph a b hdr
  /\ Wcs.celsph2natsph a b (with_ctype2 hdr other) = Wcs.celsph2natsph a b hdr.
Proof.
  intros K. repeat split.
  - exact (proj2natsph_ctype2 hdr ctype1 ctype2 other K a b).
  - exact (natsph2proj_ctype2 hdr ctype1 ctype2 other K a b).
  - exact (natsph2celsph_ctype2 hdr ctype1 ctype2 other K a b).
  - exact (celsph2natsph_ctype2 hdr ctype1 ctype2 other K a b).
Qed.

Lemma axis2_code_unused_witness :
  Wcs.proj2natsph 1 2 (with_ctype2 mixed_header "DEC--TAN") = Wcs.proj2natsph 1 2 mixed_header
  /\ Wcs.natsph2proj 1 2 (with_ctype2 mixed_header "DEC--TAN") = Wcs.natsph2proj 1 2 mixed_header
  /\ Wcs.natsph2celsph 1 2 (with_ctype2 mixed_header "DEC--TAN")
     = Wcs.natsph2celsph 1 2 mixed_header
  /\ Wcs.celsph2natsph 1 2 (with_ctype2 mixed_header "DEC--TAN")
     = Wcs.celsph2natsph 1 2 mixed_header.
Proof.
  exact (axis2_code_unused mixed_header "RA---TAN" "DEC--SIN" "DEC--TAN" 1 2 mixed_keys).
Defined.
End MixedAxes.

(** ** The tangent point in binary64 *)

Module TangentPoint.
Import Binary64 Terms64.
Local Open Scope num_scope.

(** At the origin [r = np.sqrt(0)] is a NumPy zero, and NumPy divides by
    it: [1/r] is [+inf]. *)
Lemma reciprocal_radius_origin (u v : pyfloat) :
  zero u -> zero v -> reciprocal_radius u v = Ok (PyFloat true (S754_infinity false)).
Proof.
  destruct u as [tu [su| | |]], v as [tv [sv| | |]]; try discriminate. intros _ _.
  destruct tu, su, tv, sv; vm_compute; reflexivity.
Qed.

(** At [(0.0, 0.0)] the code of [wcs.py] has no case of its own: it
    evaluates [1/r] to [+inf]; and [proj2natsph] of [wcs_transform.py]
    returns no latitude, it raises [NameError] (whatever the C
    library). *)
Lemma origin_divides_by_zero :
  reciprocal_radius (py 0) (py 0) = Ok (PyFloat true (S754_infinity false))
  /\ WcsTransform.proj2natsph (H0 := binary64_trig special_values_only) (py 0) (py 0)
     = Raise (NameError "np").
Proof. split; reflexivity. Qed.

Section WithLibm.
Variable lm : libm.
Hypothesis atan_inf : atan_at_infinity lm.
#[local] Existing Instance binary64_trig.

Lemma tan_origin (u v : pyfloat) :
  zero u -> zero v ->
  theta_of (gnomonic_sphere (H0 := binary64_trig lm) u v) = Ok (np 90).
Proof.
  intros Hu Hv. unfold gnomonic_sphere.
  rewrite (reciprocal_radius_origin u v Hu Hv). cbn [mbind result_bind theta_of mret result_ret].
  change (np_arctan (PyFloat true (S754_infinity false)))
    with (PyFloat true (c_atan lm (S754_infinity false))).
  rewrite atan_inf. vm_compute. reflexivity.
Qed.

(** C5 (as amended). At the origin of the projection plane,
    [(u, v) = (0, 0)], and on a header that names TAN, [proj2natsph] of
    [wcs.py] takes the path of every other point: [r] is zero, NumPy
    evaluates [1/r] to [+inf], the arc tangent of [+inf] is [pi/2], and
    the native latitude returned is [theta = 90] exactly. *)
Theorem proj2natsph_origin (hdr : header) (ctype1 ctype2 : string) (u v : pyfloat) :
  zero u -> zero v ->
  ctype_keys hdr ctype1 ctype2 -> projection ctype1 = "TAN" ->
  Wcs.proj2natsph (H0 := binary64_trig lm) u v hdr
  = gnomonic_sphere (H0 := binary64_trig lm) u v
  /\ reciprocal_radius u v = Ok (PyFloat true (S754_infinity false))
  /\ theta_of (Wcs.proj2natsph (H0 := binary64_trig lm) u v hdr) = Ok (np 90).
Proof.
  intros Hu Hv K T. rewrite (proj2natsph_tan _ _ _ K _ _ T).
  split; [reflexivity|]. split; [apply reciprocal_radius_origin | apply tan_origin]; assumption.
Qed.
End WithLibm.

Lemma tan_keys : ctype_keys tan_header "RA---TAN" "DEC--TAN".
Proof. split; reflexivity. Defined.

Lemma proj2natsph_origin_witness :
  Wcs.proj2natsph (H0 := binary64_trig special_values_only) (py 0) (py 0) tan_header
  = gnomonic_sphere (H0 := binary64_trig special_values_only) (py 0) (py 0)
  /\ reciprocal_radius (py 0) (py 0) = Ok (PyFloat true (S754_infinity false))
  /\ theta_of (Wcs.proj2natsph (H0 := binary64_trig special_values_only) (py 0) (py 0) tan_header)
     = Ok (np 90).
Proof.
  exact (proj2natsph_origin special_values_only eq_refl tan_header
           "RA---TAN" "DEC--TAN" (py 0) (py 0) eq_refl eq_refl tan_keys eq_refl).
Defined.
End TangentPoint.

(** ** The least-squares fit in binary64 *)

Module FitBinary64.
Import Binary64 Terms64.
Local Open Scope num_scope.

Lemma np_sum_is_np (a : list pyfloat) : is_np (np_sum a) = true.
Proof. reflexivity. Qed.

Lemma truediv_numpy (a b : pyfloat) : is_np b = true -> truediv a b = Ok (a / b).
Proof.
  intros Hb. unfold truediv. cbn. rewrite Hb, andb_false_r. reflexivity.
Qed.

Lemma broadcast_eq {A B C} (f : A -> B -> C) (x : list A) (y : list B) :
  List.length x = List.length y -> broadcast f x y = Ok (zip_with f x y).
Proof. intros E. unfold broadcast. rewrite E, Nat.eqb_refl. reflexivity. Qed.

Lemma boolean_index_eq {A} (a : list A) (i : list bool) :
  List.length a = List.length i -> boolean_index a i = Ok tt.
Proof. intros E. unfold boolean_index. rewrite E, Nat.eqb_refl. reflexivity. Qed.

Lemma leastsquares2d_unfold (x y z : list pyfloat) :
  List.length x = List.length y -> List.length x = List.length z ->
  leastsquares2d x y z =
  if forallb negb (selection x y) then Ok Nan
  else
    let a := coeff_a (sum_xx x y) (sum_xy x y) (sum_xz x y z) (sum_yy x y) (sum_yz x y z) in
    Ok (Coeffs a (coeff_b (sum_xx x y) (sum_xy x y) (sum_xz x y z) a)).
Proof.
  intros Exy Exz. unfold leastsquares2d.
  rewrite (broadcast_eq _ _ _ Exy).
  cbn [mbind result_bind]. fold (selection x y).
  destruct (forallb negb (selection x y)); [reflexivity|].
  rewrite (boolean_index_eq x (selection x y)), (boolean_index_eq y (selection x y)),
    (boolean_index_eq z (selection x y))
    by (unfold selection; rewrite length_zip_with; lia).
  cbn [mbind result_bind].
  fold (sum_xx x y) (sum_xy x y) (sum_xz x y z) (sum_yy x y) (sum_yz x y z).
  rewrite (truediv_numpy _ (sum_yy x y)) by reflexivity. cbn [mbind result_bind].
  rewrite (truediv_numpy _ (sum_yy x y)) by reflexivity. cbn [mbind result_bind].
  rewrite truediv_numpy by reflexivity. cbn [mbind result_bind].
  rewrite truediv_numpy by reflexivity. reflexivity.
Qed.

Lemma coeff_a_nan sx sxy sxz sy syz : zero sy -> is_nan (coeff_a sx sxy sxz sy syz).
Proof.
  unfold zero, is_nan, coeff_a, pow2. cbn. intros Hsy.
  apply Ieee.div_not_finite; apply Ieee.sub_not_finite_r, Ieee.div_zero, Hsy.
Qed.

Lemma coeff_b_nan sx sxy sxz a : is_nan a -> is_nan (coeff_b sx sxy sxz a).
Proof.
  unfold is_nan, coeff_b. cbn. intros ->. cbn. rewrite Ieee.sub_nan_r. reflexivity.
Qed.

Lemma coeff_b_not_finite sx sxy sxz a : zero sxy -> not_finite (coeff_b sx sxy sxz a).
Proof. unfold zero, not_finite, coeff_b. cbn. apply Ieee.div_zero. Qed.

(** With [x = [1, 0]], [y = [0, 1]] and [z = [2, 3]] no sample has
    [x == y] and [sxy] is zero: the fit returns the pair [(2.0, nan)],
    not the sentinel. *)
Lemma fit_returns_pair_on_zero_sxy :
  sum_xy (np <$> [1; 0]%float) (np <$> [0; 1]%float) = np 0
  /\ leastsquares2d (np <$> [1; 0]%float) (np <$> [0; 1]%float) (np <$> [2; 3]%float)
     = Ok (Coeffs (np 2) (PyFloat true S754_nan)).
Proof. split; vm_compute; reflexivity. Qed.

(** C6 (as amended). For arrays of one length: when every sample has
    [x == y] the fit returns the bare [np.nan]; otherwise it returns a
    pair [(a, b)], also when [sy] or [sxy] is zero: with [sy == 0] both
    [a] and [b] are NaN, and with [sxy == 0] the coefficient [b] is an
    infinity or NaN. *)
Theorem fit_outcomes (x y z : list pyfloat) :
  List.length x = List.length y -> List.length x = List.length z ->
  if forallb negb (selection x y) then leastsquares2d x y z = Ok Nan
  else exists a b,
      leastsquares2d x y z = Ok (Coeffs a b)
      /\ (zero (sum_yy x y) -> is_nan a /\ is_nan b)
      /\ (zero (sum_xy x y) -> not_finite b).
Proof.
  intros Exy Exz. rewrite (leastsquares2d_unfold x y z Exy Exz).
  destruct (forallb negb (selection x y)); [reflexivity|].
  do 2 eexists. split; [reflexivity|]. split.
  - intros Hsy. split; [|apply coeff_b_nan]; apply coeff_a_nan, Hsy.
  - apply coeff_b_not_finite.
Qed.

Lemma fit_outcomes_witness :
  (leastsquares2d (np <$> [1; 2; 3]%float) (np <$> [1; 2; 3]%float) (np <$> [5; 7; 9]%float)
   = Ok Nan)
  /\ (exists a b,
         leastsquares2d (np <$> [1; 2]%float) (np <$> [0; 0]%float) (np <$> [2; 3]%float)
         = Ok (Coeffs a b)
         /\ (zero (sum_yy (np <$> [1; 2]%float) (np <$> [0; 0]%float)) -> is_nan a /\ is_nan b)
         /\ (zero (sum_xy (np <$> [1; 2]%float) (np <$> [0; 0]%float)) -> not_finite b)).
Proof.
  split.
  - exact (fit_outcomes (np <$> [1; 2; 3]%float) (np <$> [1; 2; 3]%float)
             (np <$> [5; 7; 9]%float) eq_refl eq_refl).
  - exact (fit_outcomes (np <$> [1; 2]%float) (np <$> [0; 0]%float)
             (np <$> [2; 3]%float) eq_refl eq_refl).
Defined.

(** For [x = [1, 2, 3]], [y = [4, 5, 6]] and [z = 2*x - 1*y] the fit
    returns, through the normal equations over the samples with
    [x != y] (here all three), the pair
    [(2.0000000000000027, -1.0000000000000011)]: the generating
    coefficients [(2, -1)] within [1e-9]. *)
Lemma fit_model_binary64 :
  let a := coeff_a (sum_xx model_x model_y) (sum_xy model_x model_y)
             (sum_xz model_x model_y model_z) (sum_yy model_x model_y)
             (sum_yz model_x model_y model_z) in
  let b := coeff_b (sum_xx model_x model_y) (sum_xy model_x model_y)
             (sum_xz model_x model_y model_z) a in
  selection model_x model_y = [true; true; true]
  /\ leastsquares2d model_x model_y model_z = Ok (Coeffs a b)
  /\ a = np 0x1.0000000000006p+1
  /\ b = np (-0x1.0000000000005p+0)
  /\ within tolerance a (py 2)
  /\ within tolerance b (py (-1)).
Proof. repeat split; vm_compute; reflexivity. Qed.

(** In binary64 other samples of the same model do not give its
    coefficients back.  For [x = [2, 3]], [y = x + 2^-20] and
    [z = 2*x - 1*y] no sum is zero and the fit returns
    [(2.0256410256410255, -1.0256410162359568)], farther than [1e-9]
    from [(2, -1)]; for [x = [1, 0]], [y = [0, 1]] and [z = 2*x - 1*y]
    it returns [(2.0, nan)]. *)
Lemma fit_misses_coefficients :
  leastsquares2d near_x near_y near_z
  = Ok (Coeffs (np 0x1.0348348348348p+1) (np (-0x1.069068de2b6d8p+0)))
  /\ beyond tolerance (np 0x1.0348348348348p+1) (py 2)
  /\ beyond tolerance (np (-0x1.069068de2b6d8p+0)) (py (-1))
  /\ leastsquares2d axis_x axis_y axis_z = Ok (Coeffs (np 2) (PyFloat true S754_nan)).
Proof. repeat split; vm_compute; reflexivity. Qed.
End FitBinary64.

(** ** Sums *)

Section Pairwise.
Context {F : Type} `{Num F}.

(** The length of the array bounds the nesting of [pairwise_sum]: a
    larger bound gives the same sum. *)
Lemma pairwise_sum_depth (d d' : nat) (a : list F) :
  (List.length a <= d)%nat -> (List.length a <= d')%nat ->
  pairwise_sum d a = pairwise_sum d' a.
Proof.
  revert d' a. induction d as [|d IH]; intros d' a Hd Hd'.
  - destruct a; [|cbn in Hd; lia]. destruct d'; reflexivity.
  - destruct d' as [|d'].
    + destruct a; [|cbn in Hd'; lia]. reflexivity.
    + cbn [pairwise_sum].
      destruct (Nat.ltb (List.length a) 8); [reflexivity|].
      destruct (Nat.leb_spec (List.length a) PW_BLOCKSIZE) as [Hn|Hn]; [reflexivity|].
      unfold PW_BLOCKSIZE in Hn.
      set (n2 := (List.length a / 2 - (List.length a / 2) mod 8)%nat).
      assert (n2 < List.length a /\ 0 < n2)%nat as [Hlt Hpos].
      { subst n2.
        pose proof (Nat.div_mod_eq (List.length a) 2) as E2.
        pose proof (Nat.mod_upper_bound (List.length a) 2) as B2.
        pose proof (Nat.mod_upper_bound (List.length a / 2) 8) as B8. lia. }
      rewrite (IH d' (take n2 a)), (IH d' (drop n2 a));
        rewrite ?length_take, ?length_drop; try lia.
      reflexivity.
Qed.
End Pairwise.

(** In exact arithmetic the order of the additions does not matter:
    [np.sum] is the sum. *)
Module Summation.
Import Exact TermsExact.
Local Open Scope R_scope.

Lemma foldl_Rplus (l : list R) (a : R) : foldl Rplus a l = a + total l.
Proof.
  unfold total. revert a. induction l as [|x l IH]; intros a; cbn.
  - ring.
  - rewrite (IH (a + x)), (IH (0 + x)). ring.
Qed.

Lemma total_nil : total [] = 0.
Proof. reflexivity. Qed.

Lemma total_cons x l : total (x :: l) = x + total l.
Proof. unfold total at 1. cbn. rewrite foldl_Rplus. ring. Qed.

Lemma total_app l1 l2 : total (l1 ++ l2) = total l1 + total l2.
Proof.
  induction l1 as [|x l1 IH]; cbn [app].
  - rewrite total_nil. ring.
  - rewrite !total_cons, IH. ring.
Qed.

Lemma lane_add_total (r : list R) (v : R) :
  r <> [] -> total (lane_add r v) = total r + v /\ List.length (lane_add r v) = List.length r.
Proof.
  destruct r as [|r0 r]; [congruence|]. intros _. cbn [lane_add]. split.
  - rewrite total_app, !total_cons, total_nil. cbn. ring.
  - rewrite length_app. cbn. lia.
Qed.

Lemma lanes_total (xs r : list R) :
  r <> [] ->
  total (foldl lane_add r xs) = total r + total xs
  /\ List.length (foldl lane_add r xs) = List.length r.
Proof.
  revert r. induction xs as [|x xs IH]; intros r Hr; cbn [foldl].
  - rewrite total_nil. split; [ring|reflexivity].
  - destruct (lane_add_total r x Hr) as [Ht Hl].
    assert (lane_add r x <> []) as Hr'.
    { intros E. rewrite E in Hl. destruct r; [congruence|discriminate]. }
    destruct (IH _ Hr') as [Ht' Hl']. rewrite Ht', Hl', Ht, Hl, total_cons.
    split; [ring|reflexivity].
Qed.

Lemma unrolled_sum_total (a : list R) : (8 <= List.length a)%nat -> unrolled_sum a = total a.
Proof.
  intros Hn. unfold unrolled_sum.
  set (n := List.length a) in *. set (m := (n - n mod 8)%nat).
  assert (8 <= m <= n)%nat as Hm.
  { subst m. pose proof (Nat.div_mod_eq n 8). pose proof (Nat.mod_upper_bound n 8). lia. }
  assert (take 8 (take m a) <> []) as Hr.
  { intros E. apply (f_equal List.length) in E. rewrite !length_take in E.
    cbn [List.length] in E. fold n in E. lia. }
  destruct (lanes_total (drop 8 (take m a)) _ Hr) as [Ht Hl].
  rewrite !length_take in Hl. fold n in Hl.
  replace (8 `min` (m `min` n))%nat with 8%nat in Hl by lia.
  rewrite <- total_app, take_drop in Ht.
  destruct (foldl lane_add (take 8 (take m a)) (drop 8 (take m a)))
    as [|r0 [|r1 [|r2 [|r3 [|r4 [|r5 [|r6 [|r7 [|r8 r]]]]]]]]]; try discriminate.
  rewrite foldl_Rplus. rewrite <- (take_drop m a) at 2. rewrite total_app, <- Ht.
  rewrite !total_cons, total_nil. cbn. ring.
Qed.

Lemma pairwise_sum_total (d : nat) (a : list R) : pairwise_sum d a = total a.
Proof.
  revert a. induction d as [|d IH]; intros a; cbn [pairwise_sum].
  - destruct (Nat.ltb_spec (List.length a) 8); [reflexivity|].
    destruct (Nat.leb (List.length a) PW_BLOCKSIZE); apply unrolled_sum_total; lia.
  - destruct (Nat.ltb_spec (List.length a) 8); [reflexivity|].
    destruct (Nat.leb (List.length a) PW_BLOCKSIZE); [apply unrolled_sum_total; lia|].
    rewrite !IH, <- total_app, take_drop. reflexivity.
Qed.

Lemma np_sum_total (l : list R) : np_sum l = total l.
Proof. unfold np_sum. rewrite pairwise_sum_total. cbn. ring. Qed.
End Summation.

(** ** The area of a spherical polygon *)

Module SpareaOutcome.

(** C8 (what the code does).  [sparea] returns no area: on every
    polygon, radius and unit system, and so on a polygon and on the same
    vertices in reverse order, its first statement
    [lon, lat = np.array(lon), np.array(lat)] raises [NameError], since
    [sparea.py] never binds [np]. *)
Theorem sparea_unbound_numpy {F : Type} `{Num F}
    (lon lat : list F) (R : F) (units : string) :
  Sparea.sparea lon lat R units = Raise (NameError "np")
  /\ Sparea.sparea (reverse lon) (reverse lat) R units = Raise (NameError "np").
Proof. split; reflexivity. Qed.
End SpareaOutcome.

(** ** The round trip between pixels and the sky in exact arithmetic *)

Module RoundTrip.
Import Exact TermsExact LinearRoundTrip.
Local Open Scope R_scope.

(** *** The angle of a point of the plane *)

Lemma hypot_scaled (x t : R) : 0 < x -> sqrt (x * x + t * x * (t * x)) = x * sqrt (1 + t²).
Proof.
  intros Hx. assert (Hs : 0 <= 1 + t²) by (unfold Rsqr; nra).
  apply sqrt_lem_1.
  - nra.
  - apply Rmult_le_pos; [lra|apply sqrt_pos].
  - replace (x * sqrt (1 + t²) * (x * sqrt (1 + t²)))
      with (x * x * (sqrt (1 + t²) * sqrt (1 + t²))) by ring.
    rewrite sqrt_sqrt by exact Hs. unfold Rsqr. ring.
Qed.

Lemma sqrt_1_sqr_pos (t : R) : 0 < sqrt (1 + t²).
Proof. apply sqrt_lt_R0. unfold Rsqr. nra. Qed.

(** On the half plane [x > 0]. *)
Lemma atan_polar (y x : R) :
  0 < x ->
  sqrt (x * x + y * y) * sin (atan (y / x)) = y
  /\ sqrt (x * x + y * y) * cos (atan (y / x)) = x.
Proof.
  intros Hx. set (t := y / x).
  assert (Hy : y = t * x) by (unfold t; field; lra).
  clearbody t. subst y. rewrite hypot_scaled by exact Hx.
  rewrite sin_atan, cos_atan. pose proof (sqrt_1_sqr_pos t).
  split; field; lra.
Qed.

Lemma arctan2_polar (y x : R) :
  x <> 0 \/ y <> 0 ->
  sqrt (x * x + y * y) * sin (arctan2 y x) = y
  /\ sqrt (x * x + y * y) * cos (arctan2 y x) = x.
Proof.
  intros Hxy. unfold arctan2.
  destruct (Rlt_dec 0 x) as [Hx|Hx]; [apply atan_polar, Hx|].
  destruct (Rlt_dec x 0) as [Hx'|Hx'].
  - assert (Hneg : 0 < - x) by lra.
    destruct (atan_polar (- y) (- x) Hneg) as [Hs Hc].
    replace (- y / - x) with (y / x) in Hs, Hc by (field; lra).
    replace (- x * - x + - y * - y) with (x * x + y * y) in Hs, Hc by ring.
    destruct (Rle_dec 0 y).
    + rewrite neg_sin, neg_cos. split; lra.
    + replace (atan (y / x) - PI) with (- (- atan (y / x) + PI)) by ring.
      rewrite sin_neg, cos_neg, neg_sin, neg_cos, sin_neg, cos_neg. split; lra.
  - assert (x = 0) by lra. subst x.
    replace (0 * 0 + y * y) with (y * y) by ring.
    destruct (Rlt_dec 0 y) as [Hy|Hy].
    + rewrite sqrt_square by lra. rewrite sin_PI2, cos_PI2. split; ring.
    + destruct (Rlt_dec y 0) as [Hy'|Hy']; [|exfalso; destruct Hxy; lra].
      replace (y * y) with (- y * - y) by ring. rewrite sqrt_square by lra.
      rewrite sin_neg, cos_neg, sin_PI2, cos_PI2. split; ring.
Qed.

(** *** The four conversions as formulas *)

Lemma rad_deg (r : R) : rad (deg r) = r.
Proof. unfold rad, deg. pose proof PI_RGT_0. field. lra. Qed.

Lemma deg_rad (d : R) : deg (rad d) = d.
Proof. unfold rad, deg. pose proof PI_RGT_0. field. lra. Qed.

Section Formulas.
Variables (hdr : gmap string (hval R)) (ctype1 ctype2 : string) (crval1 crval2 : R).
Hypothesis Kc : ctype_keys hdr ctype1 ctype2.
Hypothesis Tan : projection ctype1 = "TAN".
Hypothesis Kv : crval_keys hdr crval1 crval2.

Lemma proj2natsph_formula (xp yp : R) :
  sqrt (rad xp * rad xp + rad yp * rad yp) <> 0 ->
  Wcs.proj2natsph xp yp hdr
  = Ok (deg (arctan2 (rad xp) (- rad yp)),
        deg (atan (1 / sqrt (rad xp * rad xp + rad yp * rad yp)))).
Proof.
  intros Hr. rewrite (proj2natsph_tan _ _ _ Kc _ _ Tan).
  unfold gnomonic_sphere, reciprocal_radius, power2.
  cbn [pow_overflow exact mbind result_bind].
  change (truediv lit_1 _) with (truediv 1 (sqrt (rad xp * rad xp + rad yp * rad yp))).
  rewrite truediv_exact by exact Hr. reflexivity.
Qed.

Lemma natsph2proj_formula (phi theta : R) :
  tan (rad theta) <> 0 ->
  Wcs.natsph2proj phi theta hdr
  = Ok (deg (1 / tan (rad theta) * sin (rad phi)),
        deg (- (1 / tan (rad theta)) * cos (rad phi))).
Proof.
  intros Ht. unfold Wcs.natsph2proj.
  rewrite (projection_of_ctype1 _ _ _ Kc), (projection_of_ctype2 _ _ _ Kc).
  cbn -[projection String.eqb truediv]. rewrite Tan.
  change (truediv lit_1 _) with (truediv 1 (tan (rad theta))).
  rewrite truediv_exact by exact Ht. reflexivity.
Qed.

Lemma pole_settings_formula :
  Wcs.pole_settings hdr (projection ctype1)
  = Ok (Some (rad crval1), Some (rad crval2), Some (rad 180)).
Proof.
  unfold Wcs.pole_settings. rewrite Tan.
  rewrite (getitem_Some _ _ _ (key_crval1 _ _ _ Kv)), (getitem_Some _ _ _ (key_crval2 _ _ _ Kv)).
  reflexivity.
Qed.

Lemma natsph2celsph_formula (phi theta : R) :
  Wcs.natsph2celsph phi theta hdr
  = Ok (deg (rad crval1 + Wcs.rot_lon (rad phi - rad 180) (rad theta) (rad crval2)),
        deg (Wcs.rot_lat (rad phi - rad 180) (rad theta) (rad crval2))).
Proof.
  unfold Wcs.natsph2celsph.
  rewrite (projection_of_ctype1 _ _ _ Kc), (projection_of_ctype2 _ _ _ Kc).
  cbn -[projection Wcs.pole_settings]. rewrite pole_settings_formula. reflexivity.
Qed.

Lemma celsph2natsph_formula (lon lat : R) :
  Wcs.celsph2natsph lon lat hdr
  = Ok (deg (rad 180 + Wcs.rot_lon (rad lon - rad crval1) (rad lat) (rad crval2)),
        deg (Wcs.rot_lat (rad lon - rad crval1) (rad lat) (rad crval2))).
Proof.
  unfold Wcs.celsph2natsph.
  rewrite (projection_of_ctype1 _ _ _ Kc), (projection_of_ctype2 _ _ _ Kc).
  cbn -[projection Wcs.pole_settings]. rewrite pole_settings_formula. reflexivity.
Qed.
End Formulas.

(** *** The rotation of the sphere and its inverse *)

Section Rotation.
Variables a b p : R.

Local Abbreviation X := (rot_x a b p).
Local Abbreviation Y := (rot_y a b p).
Local Abbreviation Z := (rot_z a b p).

Lemma rot_unit : X * X + Y * Y + Z * Z = 1.
Proof.
  pose proof (sin2_cos2 a) as Ha. pose proof (sin2_cos2 b) as Hb.
  pose proof (sin2_cos2 p) as Hp. unfold Rsqr in *. unfold rot_x, rot_y, rot_z.
  replace ((sin b * cos p - cos b * sin p * cos a) * (sin b * cos p - cos b * sin p * cos a)
           + - cos b * sin a * (- cos b * sin a)
           + (sin b * sin p + cos b * cos p * cos a) * (sin b * sin p + cos b * cos p * cos a))
    with (sin b * sin b * (sin p * sin p + cos p * cos p)
          + cos b * cos b * (sin a * sin a
                             + cos a * cos a * (sin p * sin p + cos p * cos p))) by ring.
  rewrite !Hp, !Rmult_1_r, Ha, Rmult_1_r. exact Hb.
Qed.

Lemma rot_back_lat : Z * sin p + X * cos p = sin b.
Proof.
  pose proof (sin2_cos2 p) as Hp. unfold Rsqr in Hp. unfold rot_x, rot_z.
  replace ((sin b * sin p + cos b * cos p * cos a) * sin p
           + (sin b * cos p - cos b * sin p * cos a) * cos p)
    with (sin b * (sin p * sin p + cos p * cos p)) by ring.
  rewrite Hp. ring.
Qed.

Lemma rot_back_lon : Z * cos p - X * sin p = cos b * cos a.
Proof.
  pose proof (sin2_cos2 p) as Hp. unfold Rsqr in Hp. unfold rot_x, rot_z.
  replace ((sin b * sin p + cos b * cos p * cos a) * cos p
           - (sin b * cos p - cos b * sin p * cos a) * sin p)
    with (cos b * cos a * (sin p * sin p + cos p * cos p)) by ring.
  rewrite Hp. ring.
Qed.

Lemma rot_lat_sin : sin (Wcs.rot_lat a b p) = Z.
Proof.
  change (Wcs.rot_lat a b p) with (asin Z). apply sin_asin.
  pose proof rot_unit. split; nra.
Qed.

Lemma rot_lat_cos : cos (Wcs.rot_lat a b p) = sqrt (X * X + Y * Y).
Proof.
  change (Wcs.rot_lat a b p) with (asin Z). pose proof rot_unit as U.
  rewrite cos_asin by (split; nra). f_equal. unfold Rsqr. lra.
Qed.

(** Away from the poles of the sky, the inverse rotation gives back the
    latitude (as [asin (sin b)]) and the direction of the longitude. *)
Lemma rotation_inverse :
  0 < cos b -> cos (Wcs.rot_lat a b p) <> 0 ->
  Wcs.rot_lat (Wcs.rot_lon a b p) (Wcs.rot_lat a b p) p = asin (sin b)
  /\ sin (Wcs.rot_lon (Wcs.rot_lon a b p) (Wcs.rot_lat a b p) p) = sin a
  /\ cos (Wcs.rot_lon (Wcs.rot_lon a b p) (Wcs.rot_lat a b p) p) = cos a.
Proof.
  intros Hb Hpole. rewrite rot_lat_cos in Hpole.
  assert (Hxy : X <> 0 \/ Y <> 0).
  { destruct (Req_dec X 0) as [HX|HX]; [|left; exact HX].
    destruct (Req_dec Y 0) as [HY|HY]; [|right; exact HY].
    exfalso. apply Hpole. rewrite HX, HY.
    replace (0 * 0 + 0 * 0) with 0 by ring. apply sqrt_0. }
  destruct (arctan2_polar Y X Hxy) as [Hs Hc].
  change (arctan2 Y X) with (Wcs.rot_lon a b p) in Hs, Hc.
  set (A := Wcs.rot_lon a b p) in *. set (lat := Wcs.rot_lat a b p).
  assert (Slat : sin lat = Z) by apply rot_lat_sin.
  assert (Clat : cos lat = sqrt (X * X + Y * Y)) by apply rot_lat_cos.
  assert (E1 : sin lat * sin p + cos lat * cos p * cos A = sin b).
  { rewrite Slat, Clat, <- rot_back_lat.
    replace (sqrt (X * X + Y * Y) * cos p * cos A)
      with (sqrt (X * X + Y * Y) * cos A * cos p) by ring.
    rewrite Hc. ring. }
  assert (E2 : - cos lat * sin A = cos b * sin a).
  { rewrite Clat. replace (- sqrt (X * X + Y * Y) * sin A)
      with (- (sqrt (X * X + Y * Y) * sin A)) by ring.
    rewrite Hs. unfold rot_y. ring. }
  assert (E3 : sin lat * cos p - cos lat * sin p * cos A = cos b * cos a).
  { rewrite Slat, Clat, <- rot_back_lon.
    replace (sqrt (X * X + Y * Y) * sin p * cos A)
      with (sqrt (X * X + Y * Y) * cos A * sin p) by ring.
    rewrite Hc. ring. }
  split.
  - change (Wcs.rot_lat A lat p) with (asin (sin lat * sin p + cos lat * cos p * cos A)).
    rewrite E1. reflexivity.
  - change (Wcs.rot_lon A lat p)
      with (arctan2 (- cos lat * sin A) (sin lat * cos p - cos lat * sin p * cos A)).
    rewrite E2, E3.
    destruct (arctan2_polar (cos b * sin a) (cos b * cos a)) as [Hs' Hc'].
    { destruct (cos_sin_0_var a) as [Hca|Hsa]; [left|right]; nra. }
    assert (Hrho : sqrt (cos b * cos a * (cos b * cos a) + cos b * sin a * (cos b * sin a))
                   = cos b).
    { pose proof (sin2_cos2 a) as Ha. unfold Rsqr in Ha.
      replace (cos b * cos a * (cos b * cos a) + cos b * sin a * (cos b * sin a))
        with (cos b * cos b * (sin a * sin a + cos a * cos a)) by ring.
      rewrite Ha, Rmult_1_r. apply sqrt_square. lra. }
    rewrite Hrho in Hs', Hc'. split; nra.
Qed.
End Rotation.

(** *** The gnomonic projection and its inverse *)

Section Gnomonic.
Variables u v : R.
Hypothesis off_origin : sqrt (u * u + v * v) <> 0.

Local Abbreviation r := (sqrt (u * u + v * v)).
Local Abbreviation phi := (native_phi u v).
Local Abbreviation theta := (native_theta u v).

Lemma radius_pos : 0 < r.
Proof. pose proof (sqrt_pos (u * u + v * v)). lra. Qed.

Lemma theta_range : 0 < theta < PI / 2.
Proof.
  pose proof radius_pos as Hr. unfold native_theta. split; [|apply atan_bound].
  rewrite <- atan_0. apply atan_increasing. apply Rdiv_lt_0_compat; lra.
Qed.

Lemma theta_tan : tan theta = 1 / r.
Proof. unfold native_theta. apply tan_atan. Qed.

Lemma theta_cos_pos : 0 < cos theta.
Proof. pose proof theta_range. apply cos_gt_0; lra. Qed.

Lemma phi_polar : r * sin phi = u /\ r * cos phi = - v.
Proof.
  unfold native_phi. destruct (arctan2_polar u (- v)) as [Hs Hc].
  - destruct (Req_dec v 0) as [->|Hv]; [|left; lra]. right. intros ->.
    apply off_origin. replace (0 * 0 + 0 * 0) with 0 by ring. apply sqrt_0.
  - replace (- v * - v + u * u) with (u * u + v * v) in Hs, Hc by ring.
    split; assumption.
Qed.

(** [natsph2proj] undoes [proj2natsph] from any longitude with the sine
    and cosine of [phi]. *)
Lemma gnomonic_inverse (phi' : R) :
  sin phi' = sin phi -> cos phi' = cos phi ->
  1 / tan theta * sin phi' = u /\ - (1 / tan theta) * cos phi' = v.
Proof.
  intros -> ->. rewrite theta_tan. pose proof radius_pos as Hr.
  destruct phi_polar as [Hs Hc].
  replace (1 / (1 / r)) with r by (field; lra). split; lra.
Qed.
End Gnomonic.

(** *** Pixels to the sky and back *)

Section Sky.
Variables (hdr : gmap string (hval R)) (ctype1 ctype2 : string).
Variables (cd1_1 cd1_2 cd2_1 cd2_2 crpix1 crpix2 crval1 crval2 : R).
Hypothesis Kl : linear_keys hdr cd1_1 cd1_2 cd2_1 cd2_2 crpix1 crpix2.
Hypothesis Kc : ctype_keys hdr ctype1 ctype2.
Hypothesis Kv : crval_keys hdr crval1 crval2.
Hypothesis Tan : projection ctype1 = "TAN".
Hypothesis regular : cd1_1 * cd2_2 - cd1_2 * cd2_1 <> 0.

Variables x y : R.

Local Abbreviation plane_u := (TermsExact.plane_u cd1_1 cd1_2 crpix1 crpix2 x y).
Local Abbreviation plane_v := (TermsExact.plane_v cd2_1 cd2_2 crpix1 crpix2 x y).
Local Abbreviation native_phi := (TermsExact.native_phi plane_u plane_v).
Local Abbreviation native_theta := (TermsExact.native_theta plane_u plane_v).

Lemma off_origin_radius :
  Wcs.pix2proj x y hdr <> Ok (0, 0) ->
  sqrt (plane_u * plane_u + plane_v * plane_v) <> 0.
Proof.
  rewrite (pix2proj_linear _ _ _ _ _ _ _ _ _ Kl). intros Hne Hr. apply Hne.
  apply sqrt_eq_0 in Hr; [|nra].
  assert (Hu : plane_u = 0) by nra. assert (Hv : plane_v = 0) by nra.
  apply (f_equal deg) in Hu, Hv. unfold TermsExact.plane_u, TermsExact.plane_v in Hu, Hv.
  rewrite deg_rad in Hu, Hv. cbn. rewrite Hu, Hv. unfold deg. f_equal. f_equal; ring.
Qed.

Lemma pix2world_formula :
  Wcs.pix2proj x y hdr <> Ok (0, 0) ->
  Wcs.pix2world x y hdr
  = Ok (deg (rad crval1 + Wcs.rot_lon (native_phi - rad 180) native_theta (rad crval2)),
        deg (Wcs.rot_lat (native_phi - rad 180) native_theta (rad crval2))).
Proof.
  intros Ho. pose proof (off_origin_radius Ho) as Hr. unfold Wcs.pix2world.
  rewrite (pix2proj_linear _ _ _ _ _ _ _ _ _ Kl). cbn [mbind result_bind].
  rewrite (proj2natsph_formula hdr ctype1 ctype2 Kc Tan) by exact Hr.
  cbn [mbind result_bind].
  rewrite (natsph2celsph_formula hdr ctype1 ctype2 crval1 crval2 Kc Tan Kv).
  cbn [mbind result_bind]. rewrite !rad_deg. reflexivity.
Qed.

Lemma roundtrip_at (lat : R) :
  Wcs.pix2proj x y hdr <> Ok (0, 0) ->
  lat = deg (Wcs.rot_lat (native_phi - rad 180) native_theta (rad crval2)) ->
  - 90 < lat < 90 ->
  Wcs.world2pix
    (deg (rad crval1 + Wcs.rot_lon (native_phi - rad 180) native_theta (rad crval2)))
    lat hdr
  = Ok (x, y).
Proof.
  intros Ho -> Hlat. pose proof (off_origin_radius Ho) as Hr.
  set (a := native_phi - rad 180) in *. set (p := rad crval2) in *.
  pose proof (theta_range plane_u plane_v Hr) as Hth.
  pose proof (theta_cos_pos plane_u plane_v Hr) as Hcos.
  assert (Hpole : cos (Wcs.rot_lat a native_theta p) <> 0).
  { apply Rgt_not_eq. unfold deg in Hlat. pose proof PI_RGT_0 as Hpi.
    assert (H180 : 0 < 180 / PI) by (apply Rdiv_lt_0_compat; lra).
    assert (HPI : 180 / PI * (PI / 2) = 90) by (field; lra).
    apply cos_gt_0; nra. }
  destruct (rotation_inverse a native_theta p Hcos Hpole) as (E1 & E2 & E3).
  rewrite asin_sin in E1 by lra.
  unfold Wcs.world2pix.
  rewrite (celsph2natsph_formula hdr ctype1 ctype2 crval1 crval2 Kc Tan Kv).
  cbn [mbind result_bind]. rewrite !rad_deg.
  replace (rad crval1 + Wcs.rot_lon a native_theta p - rad crval1)
    with (Wcs.rot_lon a native_theta p) by ring.
  fold p. rewrite E1.
  rewrite (natsph2proj_formula hdr ctype1 ctype2 Kc Tan); rewrite !rad_deg.
  2:{ rewrite theta_tan. pose proof (radius_pos plane_u plane_v Hr).
      apply Rgt_not_eq. apply Rdiv_lt_0_compat; lra. }
  cbn [mbind result_bind].
  set (B := Wcs.rot_lon (Wcs.rot_lon a native_theta p) (Wcs.rot_lat a native_theta p) p) in *.
  assert (Hpi : rad 180 = PI) by (unfold rad; field).
  destruct (gnomonic_inverse plane_u plane_v Hr (rad 180 + B)) as [Gu Gv].
  - rewrite Hpi, Rplus_comm, neg_sin, E2. unfold a. rewrite Hpi.
    rewrite sin_minus, sin_PI, cos_PI. ring.
  - rewrite Hpi, Rplus_comm, neg_cos, E3. unfold a. rewrite Hpi.
    rewrite cos_minus, sin_PI, cos_PI. ring.
  - rewrite Gu, Gv. unfold TermsExact.plane_u, TermsExact.plane_v.
    rewrite !deg_rad.
    pose proof (solve_image cd1_1 cd1_2 cd2_1 cd2_2 crpix1 crpix2 x y regular) as L.
    rewrite <- (proj2pix_linear hdr _ _ _ _ _ _ _ _ Kl) in L.
    replace (Wcs.proj2pix _ _ hdr) with (@Ok (R * R) (x, y)) by (symmetry; exact L).
    reflexivity.
Qed.

(** C1 (as amended). In exact arithmetic, for every header with the
    projection code TAN and a non-singular CD matrix, and every pixel
    that [pix2proj] does not map to the origin of the projection plane:
    [pix2world] returns, and unless the celestial latitude it returns is
    [90] or [-90] degrees (a pole), [world2pix] maps its result back to
    the pixel. *)
Theorem world2pix_pix2world :
  Wcs.pix2proj x y hdr <> Ok (0, 0) ->
  exists lon lat,
    Wcs.pix2world x y hdr = Ok (lon, lat)
    /\ (- 90 < lat < 90 -> Wcs.world2pix lon lat hdr = Ok (x, y)).
Proof.
  intros Ho. do 2 eexists. split; [exact (pix2world_formula Ho)|].
  intros Hlat. exact (roundtrip_at _ Ho eq_refl Hlat).
Qed.

(** With the reference point on the equator no pixel off the origin is
    mapped to a pole. *)
Lemma equatorial_reference_latitude :
  crval2 = 0 ->
  Wcs.pix2proj x y hdr <> Ok (0, 0) ->
  - 90 < deg (Wcs.rot_lat (native_phi - rad 180) native_theta (rad crval2)) < 90.
Proof.
  intros -> Ho. pose proof (off_origin_radius Ho) as Hr.
  pose proof (theta_range plane_u plane_v Hr) as Hth.
  pose proof (theta_cos_pos plane_u plane_v Hr) as Hcos.
  set (a := native_phi - rad 180).
  replace (rad 0) with 0 by (unfold rad; field).
  change (Wcs.rot_lat a native_theta 0)
    with (asin (sin native_theta * sin 0 + cos native_theta * cos 0 * cos a)).
  rewrite sin_0, cos_0.
  assert (Hsin : 0 < sin native_theta) by (apply sin_gt_0; pose proof PI_RGT_0; lra).
  pose proof (sin2_cos2 native_theta) as Hsc. unfold Rsqr in Hsc.
  pose proof (COS_bound a) as [Hlo Hhi].
  assert (Hz : -1 < sin native_theta * 0 + cos native_theta * 1 * cos a < 1) by (split; nra).
  apply asin_bound_lt in Hz. unfold deg. pose proof PI_RGT_0 as Hpi.
  assert (H180 : 0 < 180 / PI) by (apply Rdiv_lt_0_compat; lra).
  assert (HPI : 180 / PI * (PI / 2) = 90) by (field; lra).
  split; nra.
Qed.
End Sky.

Lemma equatorial_linear : linear_keys equatorial_header 1 0 0 1 0 0.
Proof. split; reflexivity. Defined.

Lemma equatorial_ctype : ctype_keys equatorial_header "RA---TAN" "DEC--TAN".
Proof. split; reflexivity. Defined.

Lemma equatorial_crval : crval_keys equatorial_header 10 0.
Proof. split; reflexivity. Defined.

Lemma equatorial_off_origin : Wcs.pix2proj 3 4 equatorial_header <> Ok (0, 0).
Proof.
  rewrite (pix2proj_linear _ _ _ _ _ _ _ _ _ equatorial_linear). cbn. intros E.
  injection E as E1 E2. lra.
Defined.

Lemma world2pix_pix2world_witness :
  exists lon lat,
    Wcs.pix2world 3 4 equatorial_header = Ok (lon, lat)
    /\ - 90 < lat < 90
    /\ Wcs.world2pix lon lat equatorial_header = Ok (3, 4).
Proof.
  destruct (world2pix_pix2world equatorial_header "RA---TAN" "DEC--TAN" 1 0 0 1 0 0 10 0
              equatorial_linear equatorial_ctype equatorial_crval eq_refl
              ltac:(lra) 3 4 equatorial_off_origin) as (lon & lat & Hw & Hback).
  exists lon, lat. split; [exact Hw|].
  assert (Hlat : - 90 < lat < 90).
  { rewrite (pix2world_formula equatorial_header "RA---TAN" "DEC--TAN" 1 0 0 1 0 0 10 0
               equatorial_linear equatorial_ctype equatorial_crval eq_refl
               3 4 equatorial_off_origin) in Hw.
    injection Hw as _ <-.
    exact (equatorial_reference_latitude equatorial_header 1 0 0 1 0 0 10 0
             equatorial_linear equatorial_crval 3 4 eq_refl equatorial_off_origin). }
  split; [exact Hlat|exact (Hback Hlat)].
Defined.

End RoundTrip.

(** ** The round trip between pixels and the sky in binary64 *)

Module RoundTripBinary64.
Import Binary64 Terms64.
Local Open Scope num_scope.

Lemma steep_linear :
  linear_keys steep_header (py 0x1.4e718d7d7625ap+664) (py 0) (py 0)
    (py 0x1.4e718d7d7625ap+664) (py 0) (py 0).
Proof. split; reflexivity. Qed.

Lemma steep_ctype : ctype_keys steep_header "RA---TAN" "DEC--TAN".
Proof. split; reflexivity. Qed.

(** A quotient by [+inf] is a zero or NaN, and so is its sum with [0.]:
    farther than [1e-9] from [1]. *)
Lemma div_infinity (n : spec_float) :
  SFleb (SFabs (SFsub prec emax
                  (SFadd prec emax (SFdiv prec emax n (S754_infinity false)) (S754_zero false))
                  (Prim2SF 1)))
        tolerance = false.
Proof. destruct n as [[]|[]| |[] m e]; vm_compute; reflexivity. Qed.

(** The determinant [c = 1e200 * 1e200 - 0] of the header overflows to
    [+inf], and [proj2pix] divides by it. *)
Lemma proj2pix_steep (u v : pyfloat) :
  exists x' y', Wcs.proj2pix u v steep_header = Ok (x', y') /\ beyond tolerance x' (np 1).
Proof.
  rewrite (proj2pix_linear _ _ _ _ _ _ _ _ _ steep_linear). unfold solve, truediv.
  set (c := sub (mul _ _) (mul _ _)).
  assert (Hc : c = PyFloat false (S754_infinity false)) by (vm_compute; reflexivity).
  rewrite Hc. cbn [zero_division binary64 is_np val is_zero]. rewrite !andb_false_r.
  cbn [mbind result_bind mret result_ret]. do 2 eexists. split; [reflexivity|].
  unfold beyond. cbn [val add div binary64 binop py np].
  change (Prim2SF 0) with (S754_zero false).
  apply div_infinity.
Qed.

Section WithLibm.
Variable lm : libm.
#[local] Existing Instance binary64_trig.

(** With NumPy coordinates no stage raises, whatever the values. *)
Lemma gnomonic_sphere_numpy (vx vy : spec_float) :
  exists phi theta,
    gnomonic_sphere (H0 := binary64_trig lm) (PyFloat true vx) (PyFloat true vy)
    = Ok (phi, theta).
Proof. do 2 eexists. reflexivity. Qed.

Lemma gnomonic_plane_returns (phi theta : pyfloat) :
  exists xp yp, gnomonic_plane (H0 := binary64_trig lm) phi theta = Ok (xp, yp).
Proof. do 2 eexists. reflexivity. Qed.

Lemma natsph2celsph_returns (phi theta : pyfloat) :
  exists lon lat, Wcs.natsph2celsph (H0 := binary64_trig lm) phi theta steep_header = Ok (lon, lat).
Proof. do 2 eexists. reflexivity. Qed.

Lemma celsph2natsph_returns (lon lat : pyfloat) :
  exists phi theta, Wcs.celsph2natsph (H0 := binary64_trig lm) lon lat steep_header = Ok (phi, theta).
Proof. do 2 eexists. reflexivity. Qed.

Lemma steep_roundtrip :
  roundtrip_misses steep_header (np 1) (np 0) (np 0x1.4e718d7d7625ap+664) (np 0) lm.
Proof.
  split; [vm_compute; reflexivity|].
  unfold Wcs.pix2world, Wcs.world2pix.
  assert (E : Wcs.pix2proj (np 1) (np 0) steep_header
              = Ok (PyFloat true (Prim2SF 0x1.4e718d7d7625ap+664), PyFloat true (S754_zero false)))
    by (vm_compute; reflexivity).
  rewrite E. cbn [mbind result_bind].
  rewrite (proj2natsph_tan _ _ _ steep_ctype _ _ eq_refl).
  destruct (gnomonic_sphere_numpy (Prim2SF 0x1.4e718d7d7625ap+664) (S754_zero false))
    as (phi & theta & ->). cbn [mbind result_bind].
  destruct (natsph2celsph_returns phi theta) as (lon & lat & ->). cbn [mbind result_bind].
  exists lon, lat.
  destruct (celsph2natsph_returns lon lat) as (p & t & ->). cbn [mbind result_bind].
  rewrite (natsph2proj_tan _ _ _ steep_ctype _ _ eq_refl).
  destruct (gnomonic_plane_returns p t) as (u & v & ->). cbn [mbind result_bind].
  destruct (proj2pix_steep u v) as (x' & y' & -> & B). cbn [mbind result_bind mret result_ret].
  exists x', y'. split; [reflexivity|]. split; [reflexivity|exact B].
Qed.
End WithLibm.

(** In binary64, on the TAN header with [CD = [[1e200, 0], [0, 1e200]]]
    and the reference point [(10, 0)], the pixel [(1, 0)] is mapped to
    the point [(1e200, 0)] of the projection plane, off the origin;
    [pix2world] and [world2pix] both return, and the first coordinate
    that comes back is a zero or NaN, not within [1e-9] of [1]:
    [proj2pix] divides by the determinant, which has overflowed to
    [+inf].  This holds whatever the C library. *)
Lemma roundtrip_misses_binary64 :
  every_libm (roundtrip_misses steep_header (np 1) (np 0) (np 0x1.4e718d7d7625ap+664) (np 0)).
Proof. intros lm. apply steep_roundtrip. Qed.
End RoundTripBinary64.

(** ** Outcomes of the linear stage *)

Module LinearOutcomes.
Section Outcomes.
Context {F : Type} `{Num F}.
Local Open Scope num_scope.
Variable hdr : gmap string (hval F).

Ltac blame :=
  intros [= <-];
  match goal with
  | E : hdr !! ?k = None |- missing_or_text _ _ (KeyError ?k) =>
      exists k; split; [set_solver|left; split; [exact E|reflexivity]]
  | E : hdr !! ?k = Some (HStr ?s) |- missing_or_text _ _ TypeError =>
      exists k; split; [set_solver|right; exists s; split; [exact E|reflexivity]]
  end.

Ltac look k :=
  destruct (hdr !! k) as [[?|?]|] eqn:?; cbn;
  try discriminate; try contradiction; try blame; try (intros [= <-]; congruence).

Lemma pix2proj_returns_keys x y :
  returns (Wcs.pix2proj x y hdr) ->
  exists cd1_1 cd1_2 cd2_1 cd2_2 crpix1 crpix2,
    linear_keys hdr cd1_1 cd1_2 cd2_1 cd2_2 crpix1 crpix2.
Proof.
  unfold Wcs.pix2proj, getitem.
  look "CD1_1"; look "CRPIX1"; look "CD1_2"; look "CRPIX2"; look "CD2_1"; look "CD2_2".
  intros _. do 6 eexists. split; eassumption.
Qed.

Lemma pix2proj_returns_keys_lc x y :
  returns (WcsTransform.pix2proj x y hdr) ->
  exists cd1_1 cd1_2 cd2_1 cd2_2 crpix1 crpix2,
    linear_keys_lc hdr cd1_1 cd1_2 cd2_1 cd2_2 crpix1 crpix2.
Proof.
  unfold WcsTransform.pix2proj, getitem.
  look "cd1_1"; look "crpix1"; look "cd1_2"; look "crpix2"; look "cd2_1"; look "cd2_2".
  intros _. do 6 eexists. split; eassumption.
Qed.

(** X1. [pix2proj] returns coordinates exactly when the header holds a
    number under each of the six keywords of the linear transform
    (upper case in [wcs.py], lower case in [wcs_transform.py]): nothing
    else about the header or the pixel can make it fail. *)
Theorem pix2proj_returns_iff (x y : F) :
  (returns (Wcs.pix2proj x y hdr) <->
   exists cd1_1 cd1_2 cd2_1 cd2_2 crpix1 crpix2,
     linear_keys hdr cd1_1 cd1_2 cd2_1 cd2_2 crpix1 crpix2)
  /\ (returns (WcsTransform.pix2proj x y hdr) <->
      exists cd1_1 cd1_2 cd2_1 cd2_2 crpix1 crpix2,
        linear_keys_lc hdr cd1_1 cd1_2 cd2_1 cd2_2 crpix1 crpix2).
Proof.
  split; split.
  - apply pix2proj_returns_keys.
  - intros (cd1_1 & cd1_2 & cd2_1 & cd2_2 & crpix1 & crpix2 & K).
    rewrite (pix2proj_linear _ _ _ _ _ _ _ _ _ K). exact I.
  - apply pix2proj_returns_keys_lc.
  - intros (cd1_1 & cd1_2 & cd2_1 & cd2_2 & crpix1 & crpix2 & K).
    rewrite (pix2proj_linear_lc _ _ _ _ _ _ _ _ _ K). exact I.
Qed.

(** X2. When [pix2proj] fails, it is with the [KeyError] of one of its
    six keywords that the header lacks, or with the [TypeError] of
    arithmetic on a string held under one of them; in [wcs.py] and in
    [wcs_transform.py]. *)
Theorem pix2proj_errors (x y : F) (e : exn) :
  (Wcs.pix2proj x y hdr = Raise e -> missing_or_text hdr linear_keywords e)
  /\ (WcsTransform.pix2proj x y hdr = Raise e -> missing_or_text hdr linear_keywords_lc e).
Proof.
  split.
  - unfold Wcs.pix2proj, getitem.
    look "CD1_1"; look "CRPIX1"; look "CD1_2"; look "CRPIX2"; look "CD2_1"; look "CD2_2".
  - unfold WcsTransform.pix2proj, getitem.
    look "cd1_1"; look "crpix1"; look "cd1_2"; look "crpix2"; look "cd2_1"; look "cd2_2".
Qed.

Ltac divisions :=
  unfold truediv;
  repeat match goal with
         | |- context [zero_division ?a ?b] => destruct (zero_division a b)
         end; cbn; try (intros [= <-]; congruence).

(** X3. When [proj2pix] fails, it is with [ZeroDivisionError], with the
    [KeyError] of one of its six keywords that the header lacks, or
    with the [TypeError] of arithmetic on a string held under one of
    them; in [wcs.py] and in [wcs_transform.py]. *)
Theorem proj2pix_errors (xp yp : F) (e : exn) :
  (Wcs.proj2pix xp yp hdr = Raise e ->
   e = ZeroDivisionError \/ missing_or_text hdr linear_keywords e)
  /\ (WcsTransform.proj2pix xp yp hdr = Raise e ->
      e = ZeroDivisionError \/ missing_or_text hdr linear_keywords_lc e).
Proof.
  assert (e = ZeroDivisionError \/ e <> ZeroDivisionError) as [->|Hz]
    by (destruct e; (left; reflexivity) || (right; discriminate)).
  { split; left; reflexivity. }
  split; intros E; right; revert E.
  - unfold Wcs.proj2pix, getitem.
    look "CD1_1"; look "CD2_2"; look "CD1_2"; look "CD2_1".
    divisions. all: look "CRPIX1"; look "CRPIX2".
  - unfold WcsTransform.proj2pix, getitem.
    look "cd1_1"; look "cd2_2"; look "cd1_2"; look "cd2_1".
    divisions. all: look "crpix1"; look "crpix2".
Qed.
End Outcomes.

Import Binary64 Terms64.

Lemma pix2proj_errors_witness :
  missing_or_text tan_header linear_keywords (KeyError "CD1_1")
  /\ missing_or_text tan_header linear_keywords_lc (KeyError "cd1_1").
Proof.
  destruct (pix2proj_errors tan_header (py 1) (py 2)
              (KeyError "CD1_1")) as [W _].
  destruct (pix2proj_errors tan_header (py 1) (py 2)
              (KeyError "cd1_1")) as [_ T].
  split; [exact (W eq_refl)|exact (T eq_refl)].
Defined.

Lemma proj2pix_errors_witness :
  (ZeroDivisionError = ZeroDivisionError
   \/ missing_or_text singular_header linear_keywords ZeroDivisionError)
  /\ (KeyError "cd1_1" = ZeroDivisionError
      \/ missing_or_text tan_header linear_keywords_lc (KeyError "cd1_1")).
Proof.
  destruct (proj2pix_errors singular_header (py 2) (py 3)
              ZeroDivisionError) as [W _].
  destruct (proj2pix_errors tan_header (py 2) (py 3)
              (KeyError "cd1_1")) as [_ T].
  split; [exact (W eq_refl)|exact (T eq_refl)].
Defined.
End LinearOutcomes.

(** ** The linear stage backwards, and in the two files *)

Module LinearInverse.
Import Exact TermsExact LinearRoundTrip.
Local Open Scope R_scope.

(** X4. In exact arithmetic, for every header whose CD matrix has a
    determinant other than zero and every point [(xp, yp)] of the
    projection plane, [proj2pix] returns a pixel and [pix2proj] maps it
    back to [(xp, yp)]. *)
Theorem pix2proj_proj2pix (hdr : gmap string (hval R))
    (cd1_1 cd1_2 cd2_1 cd2_2 crpix1 crpix2 xp yp : R) :
  linear_keys hdr cd1_1 cd1_2 cd2_1 cd2_2 crpix1 crpix2 ->
  cd1_1 * cd2_2 - cd1_2 * cd2_1 <> 0 ->
  ('(x, y) ← Wcs.proj2pix xp yp hdr; Wcs.pix2proj x y hdr) = Ok (xp, yp).
Proof.
  intros K Hc. rewrite (proj2pix_linear _ _ _ _ _ _ _ _ _ K). unfold solve. cbn.
  rewrite !truediv_exact by exact Hc. cbn.
  rewrite (pix2proj_linear _ _ _ _ _ _ _ _ _ K). cbn. f_equal. f_equal; field; exact Hc.
Qed.

Lemma pix2proj_proj2pix_witness :
  ('(x, y) ← Wcs.proj2pix 7 9 rotated_header; Wcs.pix2proj x y rotated_header) = Ok (7, 9).
Proof.
  apply (pix2proj_proj2pix rotated_header 3 (-4) 4 3 100 200 7 9 rotated_keys). lra.
Defined.
End LinearInverse.

Module LinearOrigin.
Import Binary64 Terms64 Values64.
Local Open Scope num_scope.

Lemma sub_zeros x y :
  is_zero x = true -> is_zero y = true -> is_zero (SFsub prec emax x y) = true.
Proof. destruct x as [[]| | |], y as [[]| | |]; try discriminate; reflexivity. Qed.

Lemma opp_finite x : is_finite x = true -> is_finite (SFopp x) = true.
Proof. destruct x; try discriminate; reflexivity. Qed.

Lemma div_zero_l x c :
  is_zero x = true -> is_zero c = false -> c <> S754_nan ->
  is_zero (SFdiv prec emax x c) = true.
Proof. destruct x, c; try discriminate; try congruence; reflexivity. Qed.

Lemma finite_eqb x : is_finite x = true -> SFeqb x x = true.
Proof.
  destruct x as [| | |s m e]; try discriminate; try reflexivity. intros _.
  unfold SFeqb, SFcompare. rewrite Z.compare_refl.
  change (Pos.compare_cont Eq m m) with (Pos.compare m m). rewrite Pos.compare_refl.
  destruct s; reflexivity.
Qed.

Lemma add_zero_l x y :
  is_zero x = true -> is_finite y = true -> SFeqb (SFadd prec emax x y) y = true.
Proof.
  destruct x as [sx| | |]; try discriminate. intros _.
  destruct y as [sy| | |s m e]; try discriminate; intros Hy.
  - destruct sx, sy; reflexivity.
  - apply (finite_eqb (S754_finite s m e)). reflexivity.
Qed.

(** The two quotients of [proj2pix] at the origin of the plane. *)
Lemma solve_origin cd1_1 cd1_2 cd2_1 cd2_2 crpix1 crpix2 xp yp :
  finite cd1_1 -> finite cd1_2 -> finite cd2_1 -> finite cd2_2 ->
  finite crpix1 -> finite crpix2 ->
  divisor (cd1_1 * cd2_2 - cd1_2 * cd2_1) ->
  zero xp -> zero yp ->
  exists x y, solve cd1_1 cd1_2 cd2_1 cd2_2 crpix1 crpix2 xp yp = Ok (x, y)
              /\ equal x crpix1 /\ equal y crpix2.
Proof.
  unfold finite, zero, divisor, equal. intros F11 F12 F21 F22 F1 F2 [Hz Hn] Hx Hy.
  unfold solve, truediv. cbn in Hz, Hn |- *. rewrite Hz, !andb_false_r. cbn.
  do 2 eexists. split; [reflexivity|]. cbn. split; apply add_zero_l; try assumption.
  - apply div_zero_l; [|exact Hz|exact Hn].
    apply sub_zeros; apply Ieee.mul_zero_r; assumption.
  - apply div_zero_l; [|exact Hz|exact Hn].
    apply Ieee.add_zeros; apply Ieee.mul_zero_r; try assumption.
    apply opp_finite, F21.
Qed.

(** X5. In binary64, for every header of finite numbers whose
    determinant is neither zero nor NaN, [proj2pix] maps the origin of
    the projection plane to the reference pixel: it returns [(x, y)]
    with [x == CRPIX1] and [y == CRPIX2], without rounding; in [wcs.py]
    and in [wcs_transform.py]. *)
Theorem proj2pix_origin (hdr : header) cd1_1 cd1_2 cd2_1 cd2_2 crpix1 crpix2 xp yp :
  finite cd1_1 -> finite cd1_2 -> finite cd2_1 -> finite cd2_2 ->
  finite crpix1 -> finite crpix2 ->
  divisor (cd1_1 * cd2_2 - cd1_2 * cd2_1) ->
  zero xp -> zero yp ->
  (linear_keys hdr cd1_1 cd1_2 cd2_1 cd2_2 crpix1 crpix2 ->
   exists x y, Wcs.proj2pix xp yp hdr = Ok (x, y) /\ equal x crpix1 /\ equal y crpix2)
  /\
  (linear_keys_lc hdr cd1_1 cd1_2 cd2_1 cd2_2 crpix1 crpix2 ->
   exists x y, WcsTransform.proj2pix xp yp hdr = Ok (x, y)
               /\ equal x crpix1 /\ equal y crpix2).
Proof.
  intros F11 F12 F21 F22 F1 F2 Hc Hx Hy. split; intros K.
  - rewrite (proj2pix_linear _ _ _ _ _ _ _ _ _ K). apply solve_origin; assumption.
  - rewrite (proj2pix_linear_lc _ _ _ _ _ _ _ _ _ K). apply solve_origin; assumption.
Qed.

Lemma proj2pix_origin_witness :
  (exists x y, Wcs.proj2pix (py 0) (py 0) half_degree_header = Ok (x, y)
               /\ equal x (py 512.5) /\ equal y (py 256.5))
  /\
  (exists x y, WcsTransform.proj2pix (py 0) (py 0) half_degree_header = Ok (x, y)
               /\ equal x (py 512.5) /\ equal y (py 256.5)).
Proof.
  destruct (proj2pix_origin half_degree_header
              (py (-0.5)) (py 0) (py 0) (py 0.5) (py 512.5) (py 256.5) (py 0) (py 0))
    as [W T]; try reflexivity.
  - split; [reflexivity|discriminate].
  - split; [apply W, LinearBinary64.half_degree_keys
           |apply T, LinearBinary64.half_degree_keys_lc].
Defined.
End LinearOrigin.

Module LinearSpellings.
Section Spellings.
Context {F : Type} `{Num F}.

(** X6. In any arithmetic, when the header of [wcs_transform.py] holds
    under its lower-case keywords the six numbers that the header of
    [wcs.py] holds under the upper-case ones, [pix2proj] and [proj2pix]
    of the two files have the same outcome, rounding and exceptions
    included. *)
Theorem linear_stage_agrees (hdr hdr_lc : gmap string (hval F))
    (cd1_1 cd1_2 cd2_1 cd2_2 crpix1 crpix2 a b : F) :
  linear_keys hdr cd1_1 cd1_2 cd2_1 cd2_2 crpix1 crpix2 ->
  linear_keys_lc hdr_lc cd1_1 cd1_2 cd2_1 cd2_2 crpix1 crpix2 ->
  Wcs.pix2proj a b hdr = WcsTransform.pix2proj a b hdr_lc
  /\ Wcs.proj2pix a b hdr = WcsTransform.proj2pix a b hdr_lc.
Proof.
  intros K L. split.
  - rewrite (pix2proj_linear _ _ _ _ _ _ _ _ _ K), (pix2proj_linear_lc _ _ _ _ _ _ _ _ _ L).
    reflexivity.
  - rewrite (proj2pix_linear _ _ _ _ _ _ _ _ _ K), (proj2pix_linear_lc _ _ _ _ _ _ _ _ _ L).
    reflexivity.
Qed.
End Spellings.

Import Binary64 Terms64.

Lemma linear_stage_agrees_witness :
  Wcs.pix2proj (py 3) (py 4) half_degree_header
  = WcsTransform.pix2proj (py 3) (py 4) half_degree_header
  /\ Wcs.proj2pix (py 3) (py 4) half_degree_header
     = WcsTransform.proj2pix (py 3) (py 4) half_degree_header.
Proof.
  exact (linear_stage_agrees half_degree_header half_degree_header
           (py (-0.5)) (py 0) (py 0) (py 0.5) (py 512.5) (py 256.5) (py 3) (py 4)
           LinearBinary64.half_degree_keys LinearBinary64.half_degree_keys_lc).
Defined.
End LinearSpellings.

(** ** The parts of a CTYPE string *)

Module CtypeParts.

Lemma split_dashless (s : string) : dashless s -> split "-" s = [s].
Proof.
  induction s as [|c s IH]; [reflexivity|]. intros [Hc Hs]. cbn [split].
  rewrite (proj2 (Ascii.eqb_neq c "-") Hc), (IH Hs). reflexivity.
Qed.

Lemma split_cons (s : string) : exists w ws, split "-" s = w :: ws.
Proof.
  induction s as [|c s (w & ws & E)]; [do 2 eexists; reflexivity|]. cbn [split].
  destruct (Ascii.eqb c "-"); [do 2 eexists; reflexivity|].
  rewrite E. do 2 eexists. reflexivity.
Qed.

(** The first part ends at the first dash. *)
Lemma split_first (a rest : string) :
  dashless a -> split "-" (a ++ String "-" rest) = a :: split "-" rest.
Proof.
  induction a as [|c a IH]; [reflexivity|]. intros [Hc Ha].
  simpl. rewrite (proj2 (Ascii.eqb_neq c "-") Hc), (IH Ha). reflexivity.
Qed.

Lemma last_cons_cons {A} (x y : A) (l : list A) (d : A) :
  List.last (x :: y :: l) d = List.last (y :: l) d.
Proof. reflexivity. Qed.

(** A dash adds a part: after it there are at least two. *)
Lemma split_two (m rest : string) :
  exists w v vs, split "-" (m ++ String "-" rest) = w :: v :: vs.
Proof.
  induction m as [|c m (w & v & vs & E)].
  - destruct (split_cons rest) as (v & vs & E). simpl.
    rewrite E. do 3 eexists. reflexivity.
  - simpl. rewrite E.
    destruct (Ascii.eqb c "-"); do 3 eexists; reflexivity.
Qed.

(** The last part starts after the last dash. *)
Lemma split_last (m b d : string) :
  dashless b -> List.last (split "-" (m ++ String "-" b)) d = b.
Proof.
  intros Hb. induction m as [|c m IH].
  - simpl. rewrite (split_dashless b Hb). reflexivity.
  - destruct (split_two m b) as (w & v & vs & E).
    simpl. rewrite E in IH |- *.
    destruct (Ascii.eqb c "-"); rewrite !last_cons_cons in *; exact IH.
Qed.

(** X7. [parse_ctype] returns the text before the first dash as the
    coordinate system and the text after the last dash as the projection
    code, whatever lies between, padding dashes included; of a string
    without a dash it returns the whole string as both. *)
Theorem parse_ctype_parts (a m b : string) :
  dashless a -> dashless b ->
  parse_ctype a = (a, a)
  /\ parse_ctype (a ++ "-" ++ b) = (a, b)
  /\ parse_ctype (a ++ "-" ++ m ++ "-" ++ b) = (a, b).
Proof.
  intros Ha Hb. unfold parse_ctype. repeat split.
  - rewrite (split_dashless a Ha). reflexivity.
  - change (a ++ "-" ++ b)%string with (a ++ String "-" b)%string.
    rewrite (split_first a b Ha), (split_dashless b Hb). reflexivity.
  - change (a ++ "-" ++ m ++ "-" ++ b)%string with (a ++ String "-" (m ++ String "-" b))%string.
    rewrite (split_first a _ Ha). cbn [List.hd]. f_equal.
    destruct (split_two m b) as (w & v & vs & E).
    pose proof (split_last m b EmptyString Hb) as L. rewrite E in L |- *.
    rewrite last_cons_cons. exact L.
Qed.

Lemma parse_ctype_parts_witness :
  parse_ctype "RA" = ("RA", "RA")
  /\ parse_ctype "RA-TAN" = ("RA", "TAN")
  /\ parse_ctype "RA---TAN" = ("RA", "TAN").
Proof.
  apply (parse_ctype_parts "RA" "-" "TAN"); cbn; repeat split; discriminate.
Defined.
End CtypeParts.

(** ** What the conversions ask of CTYPE *)

Module CtypeOutcomes.
Section Outcomes.
Context {F : Type} `{Num F} `{Trig F}.
Local Open Scope num_scope.
Variable hdr : gmap string (hval F).

Lemma projection_of_missing key :
  hdr !! key = None -> Wcs.projection_of hdr key = Raise (KeyError key).
Proof. unfold Wcs.projection_of, getitem. intros ->. reflexivity. Qed.

Lemma projection_of_number key v :
  hdr !! key = Some (HNum v) -> Wcs.projection_of hdr key = Raise AttributeError.
Proof. unfold Wcs.projection_of, getitem. intros ->. reflexivity. Qed.

Lemma projection_of_text key s :
  hdr !! key = Some (HStr s) -> Wcs.projection_of hdr key = Ok (projection s).
Proof. unfold Wcs.projection_of, getitem. intros ->. reflexivity. Qed.

Lemma raise_first (e : exn) (a b : F) :
  Wcs.projection_of hdr "CTYPE1" = Raise e -> conversions_raise hdr a b e.
Proof.
  intros E. unfold conversions_raise, Wcs.proj2natsph, Wcs.natsph2proj,
    Wcs.natsph2celsph, Wcs.celsph2natsph.
  rewrite E. repeat split; reflexivity.
Qed.

Lemma raise_second (e : exn) (code : string) (a b : F) :
  Wcs.projection_of hdr "CTYPE1" = Ok code ->
  Wcs.projection_of hdr "CTYPE2" = Raise e -> conversions_raise hdr a b e.
Proof.
  intros E1 E2. unfold conversions_raise, Wcs.proj2natsph, Wcs.natsph2proj,
    Wcs.natsph2celsph, Wcs.celsph2natsph.
  rewrite E1, E2. repeat split; reflexivity.
Qed.

(** X8. The four conversions of [wcs.py] that read CTYPE need both
    keywords, although the code of CTYPE2 is never used: without CTYPE1
    they raise [KeyError] for CTYPE1; with a string under CTYPE1 and
    without CTYPE2 they raise [KeyError] for CTYPE2, also on a TAN
    header; and a number under either keyword raises [AttributeError]
    (it has no [split]). *)
Theorem ctype_required (a b : F) :
  (hdr !! "CTYPE1" = None -> conversions_raise hdr a b (KeyError "CTYPE1"))
  /\ (forall v, hdr !! "CTYPE1" = Some (HNum v) -> conversions_raise hdr a b AttributeError)
  /\ (forall s, hdr !! "CTYPE1" = Some (HStr s) ->
      (hdr !! "CTYPE2" = None -> conversions_raise hdr a b (KeyError "CTYPE2"))
      /\ (forall v, hdr !! "CTYPE2" = Some (HNum v) ->
          conversions_raise hdr a b AttributeError)).
Proof.
  split; [|split].
  - intros E. apply raise_first, projection_of_missing, E.
  - intros v E. apply raise_first, (projection_of_number _ v), E.
  - intros s E1. split.
    + intros E2. apply (raise_second _ (projection s)).
      * apply projection_of_text, E1.
      * apply projection_of_missing, E2.
    + intros v E2. apply (raise_second _ (projection s)).
      * apply projection_of_text, E1.
      * apply (projection_of_number _ v), E2.
Qed.
End Outcomes.

Section NotTan.
Context {F : Type} `{Num F} `{Trig F}.
Local Open Scope num_scope.

(** X9. On a header whose CTYPE1 names a projection code other than
    TAN, the rotations [natsph2celsph] and [celsph2natsph] fail with
    [TypeError] (arithmetic on the [None] settings), and so do the two
    pipelines: [world2pix] on every header, [pix2world] as soon as the
    linear transform is there to pass its first stage. *)
Theorem not_tan_pipeline (hdr : gmap string (hval F)) (ctype1 ctype2 : string) (a b : F) :
  ctype_keys hdr ctype1 ctype2 ->
  projection ctype1 <> "TAN" ->
  Wcs.natsph2celsph a b hdr = Raise TypeError
  /\ Wcs.celsph2natsph a b hdr = Raise TypeError
  /\ Wcs.world2pix a b hdr = Raise TypeError
  /\ (forall cd1_1 cd1_2 cd2_1 cd2_2 crpix1 crpix2,
        linear_keys hdr cd1_1 cd1_2 cd2_1 cd2_2 crpix1 crpix2 ->
        Wcs.pix2world a b hdr = Raise TypeError).
Proof.
  intros K T. split; [|split; [|split]].
  - exact (natsph2celsph_not_tan hdr ctype1 ctype2 K a b T).
  - exact (celsph2natsph_not_tan hdr ctype1 ctype2 K a b T).
  - unfold Wcs.world2pix. rewrite (celsph2natsph_not_tan hdr ctype1 ctype2 K a b T).
    reflexivity.
  - intros cd1_1 cd1_2 cd2_1 cd2_2 crpix1 crpix2 L. unfold Wcs.pix2world.
    rewrite (pix2proj_linear _ _ _ _ _ _ _ _ _ L). cbn [mbind result_bind].
    rewrite (proj2natsph_not_tan hdr ctype1 ctype2 K _ _ T). reflexivity.
Qed.

End NotTan.

Import Exact TermsExact.
Local Open Scope R_scope.

Lemma ctype_required_witness :
  conversions_raise rotated_header 1 2 (KeyError "CTYPE1").
Proof.
  destruct (ctype_required rotated_header 1 2) as [W _]. exact (W eq_refl).
Defined.

Lemma not_tan_pipeline_witness :
  Wcs.natsph2celsph 1 2 sin_header = Raise TypeError
  /\ Wcs.celsph2natsph 1 2 sin_header = Raise TypeError
  /\ Wcs.world2pix 1 2 sin_header = Raise TypeError
  /\ Wcs.pix2world 1 2 sin_header = Raise TypeError.
Proof.
  destruct (not_tan_pipeline sin_header "RA---SIN" "DEC--SIN" 1 2 Unsupported.sin_keys)
    as (A & B & C & D); [discriminate|].
  split; [exact A|split; [exact B|split; [exact C|]]].
  apply (D 1 0 0 1 0 0). split; reflexivity.
Defined.

End CtypeOutcomes.

(** ** Angles in exact arithmetic *)

Module Angles.
Import Exact TermsExact LinearRoundTrip RoundTrip.
Local Open Scope R_scope.

(** [arctan2] answers in [(-PI, PI]]. *)
Lemma arctan2_range (y x : R) : - PI < arctan2 y x <= PI.
Proof.
  pose proof PI_RGT_0 as Hpi. unfold arctan2.
  destruct (Rlt_dec 0 x) as [Hx|Hx].
  { pose proof (atan_bound (y / x)). lra. }
  destruct (Rlt_dec x 0) as [Hx'|Hx'].
  - destruct (Rle_dec 0 y) as [Hy|Hy].
    + assert (Hq : atan (y / x) <= 0).
      { destruct (Req_dec y 0) as [->|Hy0].
        - unfold Rdiv. rewrite Rmult_0_l, atan_0. lra.
        - left. rewrite <- atan_0. apply atan_increasing.
          apply Ropp_lt_cancel. rewrite Ropp_0.
          replace (- (y / x)) with (y / - x) by (field; lra).
          apply Rdiv_lt_0_compat; lra. }
      pose proof (atan_bound (y / x)). lra.
    + assert (Hq : 0 < atan (y / x)).
      { rewrite <- atan_0. apply atan_increasing.
        replace (y / x) with (- y / - x) by (field; lra).
        apply Rdiv_lt_0_compat; lra. }
      pose proof (atan_bound (y / x)). lra.
  - destruct (Rlt_dec 0 y); [lra|]. destruct (Rlt_dec y 0); lra.
Qed.

(** An angle of [(-PI, PI]] is known by its sine and cosine. *)
Lemma same_angle (a b : R) :
  - PI < a <= PI -> - PI < b <= PI -> sin a = sin b -> cos a = cos b -> a = b.
Proof.
  intros Ha Hb Hs Hc.
  destruct (Rlt_dec a 0) as [Ha0|Ha0].
  - assert (Hsa : sin a < 0) by (apply sin_lt_0_var; lra).
    assert (Hb0 : b < 0).
    { destruct (Rlt_dec b 0) as [|Hb0]; [assumption|].
      assert (0 <= sin b) by (apply sin_ge_0; lra). lra. }
    apply Ropp_eq_reg. apply cos_inj; try lra. rewrite !cos_neg. exact Hc.
  - assert (Hsa : 0 <= sin a) by (apply sin_ge_0; lra).
    assert (Hb0 : 0 <= b).
    { destruct (Rlt_dec b 0) as [Hb0|Hb0]; [|lra].
      assert (sin b < 0) by (apply sin_lt_0_var; lra). lra. }
    apply cos_inj; lra.
Qed.

(** [arctan2] finds the angle of a point given in polar form. *)
Lemma arctan2_angle (rho phi : R) :
  0 < rho -> - PI < phi <= PI -> arctan2 (rho * sin phi) (rho * cos phi) = phi.
Proof.
  intros Hrho Hphi. pose proof (sin2_cos2 phi) as Hsc. unfold Rsqr in Hsc.
  destruct (arctan2_polar (rho * sin phi) (rho * cos phi)) as [Hs Hc].
  { destruct (Req_dec (cos phi) 0) as [Hc0|Hc0]; [right|left];
      intros E; apply Rmult_integral in E; destruct E; nra. }
  assert (Hr : sqrt (rho * cos phi * (rho * cos phi) + rho * sin phi * (rho * sin phi)) = rho).
  { replace (rho * cos phi * (rho * cos phi) + rho * sin phi * (rho * sin phi))
      with (rho * rho * (sin phi * sin phi + cos phi * cos phi)) by ring.
    rewrite Hsc, Rmult_1_r. apply sqrt_square. lra. }
  rewrite Hr in Hs, Hc.
  apply same_angle; [apply arctan2_range|exact Hphi| |].
  - apply (Rmult_eq_reg_l rho); [exact Hs|lra].
  - apply (Rmult_eq_reg_l rho); [exact Hc|lra].
Qed.

Lemma rad_range (lo hi d : R) : lo < d <= hi -> rad lo < rad d <= rad hi.
Proof. unfold rad. pose proof PI_RGT_0. intros [H1 H2]. split; nra. Qed.

Lemma rad_range_open (lo hi d : R) : lo < d < hi -> rad lo < rad d < rad hi.
Proof. unfold rad. pose proof PI_RGT_0. intros [H1 H2]. split; nra. Qed.

Lemma deg_range (lo hi r : R) : rad lo < r <= rad hi -> lo < deg r <= hi.
Proof.
  unfold rad, deg. pose proof PI_RGT_0 as Hpi. intros [H1 H2].
  assert (H180 : 0 < 180 / PI) by (apply Rdiv_lt_0_compat; lra).
  replace lo with (lo * PI / 180 * (180 / PI)) by (field; lra).
  replace hi with (hi * PI / 180 * (180 / PI)) by (field; lra).
  split; nra.
Qed.

Lemma deg_range_open (lo hi r : R) : rad lo < r < rad hi -> lo < deg r < hi.
Proof.
  unfold rad, deg. pose proof PI_RGT_0 as Hpi. intros [H1 H2].
  assert (H180 : 0 < 180 / PI) by (apply Rdiv_lt_0_compat; lra).
  replace lo with (lo * PI / 180 * (180 / PI)) by (field; lra).
  replace hi with (hi * PI / 180 * (180 / PI)) by (field; lra).
  split; nra.
Qed.

Lemma deg_range_closed (lo hi r : R) : rad lo <= r <= rad hi -> lo <= deg r <= hi.
Proof.
  unfold rad, deg. pose proof PI_RGT_0 as Hpi. intros [H1 H2].
  assert (H180 : 0 < 180 / PI) by (apply Rdiv_lt_0_compat; lra).
  replace lo with (lo * PI / 180 * (180 / PI)) by (field; lra).
  replace hi with (hi * PI / 180 * (180 / PI)) by (field; lra).
  split; nra.
Qed.

Lemma rad_180 : rad 180 = PI.
Proof. unfold rad. field. Qed.

Lemma rad_90 : rad 90 = PI / 2.
Proof. unfold rad. field. Qed.

Lemma rad_0 : rad 0 = 0.
Proof. unfold rad. field. Qed.
End Angles.

(** ** The gnomonic projection and the sphere in exact arithmetic *)

Module GnomonicSphere.
Import Exact TermsExact LinearRoundTrip RoundTrip Angles.
Local Open Scope R_scope.

Section Tan.
Variables (hdr : gmap string (hval R)) (ctype1 ctype2 : string).
Hypothesis Kc : ctype_keys hdr ctype1 ctype2.
Hypothesis Tan : projection ctype1 = "TAN".

Lemma off_origin_plane (xp yp : R) :
  (xp, yp) <> (0, 0) -> sqrt (rad xp * rad xp + rad yp * rad yp) <> 0.
Proof.
  intros Hne Hr. apply Hne. apply sqrt_eq_0 in Hr; [|nra].
  assert (Hu : rad xp = 0) by nra. assert (Hv : rad yp = 0) by nra.
  apply (f_equal deg) in Hu, Hv. rewrite deg_rad in Hu, Hv.
  unfold deg in Hu, Hv. rewrite Rmult_0_l in Hu, Hv. congruence.
Qed.

(** X11. In exact arithmetic, on a TAN header and away from the origin
    of the projection plane, [natsph2proj] undoes [proj2natsph]: the
    point [(xp, yp)] comes back from its native coordinates. *)
Theorem natsph2proj_proj2natsph (xp yp : R) :
  (xp, yp) <> (0, 0) ->
  ('(phi, theta) ← Wcs.proj2natsph xp yp hdr; Wcs.natsph2proj phi theta hdr) = Ok (xp, yp).
Proof.
  intros Hne. pose proof (off_origin_plane xp yp Hne) as Hr.
  rewrite (proj2natsph_formula hdr ctype1 ctype2 Kc Tan) by exact Hr.
  cbn [mbind result_bind].
  fold (native_phi (rad xp) (rad yp)) (native_theta (rad xp) (rad yp)).
  rewrite (natsph2proj_formula hdr ctype1 ctype2 Kc Tan); rewrite !rad_deg.
  2:{ rewrite theta_tan. pose proof (radius_pos _ _ Hr).
      apply Rgt_not_eq. apply Rdiv_lt_0_compat; lra. }
  destruct (gnomonic_inverse _ _ Hr (native_phi (rad xp) (rad yp)) eq_refl eq_refl)
    as [Gu Gv].
  rewrite Gu, Gv, !deg_rad. reflexivity.
Qed.

(** X12. In exact arithmetic, on a TAN header and away from the origin
    of the projection plane, [proj2natsph] returns a native longitude
    in [(-180, 180]] and a native latitude strictly between 0 and 90
    degrees: the projection reaches only the hemisphere of the tangent
    point, and never its horizon. *)
Theorem proj2natsph_range (xp yp : R) :
  (xp, yp) <> (0, 0) ->
  exists phi theta,
    Wcs.proj2natsph xp yp hdr = Ok (phi, theta)
    /\ - 180 < phi <= 180 /\ 0 < theta < 90.
Proof.
  intros Hne. pose proof (off_origin_plane xp yp Hne) as Hr.
  rewrite (proj2natsph_formula hdr ctype1 ctype2 Kc Tan) by exact Hr.
  do 2 eexists. split; [reflexivity|]. split.
  - apply deg_range. replace (rad (-180)) with (- PI) by (unfold rad; field).
    rewrite rad_180. apply arctan2_range.
  - apply deg_range_open. rewrite rad_0, rad_90.
    exact (theta_range (rad xp) (rad yp) Hr).
Qed.

(** X13. In exact arithmetic, on a TAN header, [proj2natsph] undoes
    [natsph2proj] for every native latitude strictly between 0 and 90
    degrees and every native longitude in [(-180, 180]]. *)
Theorem proj2natsph_natsph2proj (phi theta : R) :
  - 180 < phi <= 180 -> 0 < theta < 90 ->
  ('(xp, yp) ← Wcs.natsph2proj phi theta hdr; Wcs.proj2natsph xp yp hdr) = Ok (phi, theta).
Proof.
  intros Hphi Htheta. pose proof PI_RGT_0 as Hpi.
  assert (Hp : - PI < rad phi <= PI).
  { apply rad_range in Hphi. rewrite rad_180 in Hphi.
    replace (rad (-180)) with (- PI) in Hphi by (unfold rad; field). exact Hphi. }
  assert (Ht : 0 < rad theta < PI / 2).
  { apply rad_range_open in Htheta. rewrite rad_0, rad_90 in Htheta. exact Htheta. }
  assert (Htan : 0 < tan (rad theta)) by (apply tan_gt_0; lra).
  set (rho := 1 / tan (rad theta)).
  assert (Hrho : 0 < rho) by (apply Rdiv_lt_0_compat; lra).
  rewrite (natsph2proj_formula hdr ctype1 ctype2 Kc Tan) by lra.
  cbn [mbind result_bind]. fold rho.
  assert (Hr : sqrt (rho * sin (rad phi) * (rho * sin (rad phi))
                     + - rho * cos (rad phi) * (- rho * cos (rad phi))) = rho).
  { pose proof (sin2_cos2 (rad phi)) as Hsc. unfold Rsqr in Hsc.
    replace (rho * sin (rad phi) * (rho * sin (rad phi))
             + - rho * cos (rad phi) * (- rho * cos (rad phi)))
      with (rho * rho * (sin (rad phi) * sin (rad phi) + cos (rad phi) * cos (rad phi)))
      by ring.
    rewrite Hsc, Rmult_1_r. apply sqrt_square. lra. }
  rewrite (proj2natsph_formula hdr ctype1 ctype2 Kc Tan); rewrite !rad_deg, Hr; [|lra].
  f_equal. f_equal.
  - replace (- (- rho * cos (rad phi))) with (rho * cos (rad phi)) by ring.
    rewrite (arctan2_angle rho (rad phi) Hrho Hp). apply deg_rad.
  - replace (1 / rho) with (tan (rad theta)) by (unfold rho; field; lra).
    rewrite atan_tan by lra. apply deg_rad.
Qed.
End Tan.

Lemma natsph2proj_proj2natsph_witness :
  ('(phi, theta) ← Wcs.proj2natsph 3 4 equatorial_header;
   Wcs.natsph2proj phi theta equatorial_header) = Ok (3, 4).
Proof.
  apply (natsph2proj_proj2natsph equatorial_header "RA---TAN" "DEC--TAN"
           equatorial_ctype eq_refl 3 4).
  intros [= E _]. lra.
Defined.

Lemma proj2natsph_range_witness :
  exists phi theta,
    Wcs.proj2natsph 3 4 equatorial_header = Ok (phi, theta)
    /\ - 180 < phi <= 180 /\ 0 < theta < 90.
Proof.
  apply (proj2natsph_range equatorial_header "RA---TAN" "DEC--TAN"
           equatorial_ctype eq_refl 3 4).
  intros [= E _]. lra.
Defined.

Lemma proj2natsph_natsph2proj_witness :
  ('(xp, yp) ← Wcs.natsph2proj 30 60 equatorial_header;
   Wcs.proj2natsph xp yp equatorial_header) = Ok (30, 60).
Proof.
  apply (proj2natsph_natsph2proj equatorial_header "RA---TAN" "DEC--TAN"
           equatorial_ctype eq_refl 30 60); lra.
Defined.
End GnomonicSphere.

(** ** The horizon of the gnomonic projection in binary64 *)

Module Horizon.
Import Binary64 Terms64 Values64.
Local Open Scope num_scope.

Lemma mul_not_finite_l a b :
  is_finite a = false -> is_finite (SFmul prec emax a b) = false.
Proof.
  destruct a as [|[]| |]; try discriminate; intros _; destruct b as [|[]| |[]]; reflexivity.
Qed.

Lemma radians_zero (tt st : bool) :
  val (PyFloat tt (S754_zero st) * np_pi / lit_180) = S754_zero st.
Proof. destruct tt, st; vm_compute; reflexivity. Qed.

Section WithLibm.
Variable lm : libm.
Hypothesis tan_zero : tan_at_zero lm.
#[local] Existing Instance binary64_trig.

Lemma horizon (phi theta : pyfloat) :
  zero theta ->
  exists u v, gnomonic_plane (H0 := binary64_trig lm) phi theta = Ok (u, v)
              /\ not_finite u /\ not_finite v.
Proof.
  destruct theta as [tt [st| | |]]; try discriminate. intros _.
  unfold gnomonic_plane, truediv.
  assert (E : exists s,
             np_tan (Trig := binary64_trig lm) (PyFloat tt (S754_zero st) * np_pi / lit_180)
                        = PyFloat true (S754_zero s)).
  { exists st. change (np_tan ?x) with (PyFloat true (c_tan lm (val x))).
    rewrite radians_zero, tan_zero. reflexivity. }
  destruct E as [s ->]. cbn [zero_division binary64 is_np val andb negb].
  cbn [mbind result_bind mret result_ret].
  do 2 eexists. split; [reflexivity|]. unfold not_finite. cbn [val mul binary64 binop].
  split; apply mul_not_finite_l, mul_not_finite_l.
  - destruct s; reflexivity.
  - destruct s; reflexivity.
Qed.

(** X14. In binary64, at a native latitude of zero (the horizon, which
    the gnomonic projection sends to infinity) [natsph2proj] of [wcs.py]
    raises nothing on a TAN header: the tangent is a zero, NumPy divides
    [1] by it, and both coordinates returned are infinite or NaN, for
    every longitude. *)
Theorem natsph2proj_horizon (hdr : header) (ctype1 ctype2 : string) (phi theta : pyfloat) :
  zero theta ->
  ctype_keys hdr ctype1 ctype2 -> projection ctype1 = "TAN" ->
  exists xp yp, Wcs.natsph2proj (H0 := binary64_trig lm) phi theta hdr = Ok (xp, yp)
                /\ not_finite xp /\ not_finite yp.
Proof.
  intros Ht K T. rewrite (natsph2proj_tan _ _ _ K _ _ T). apply horizon, Ht.
Qed.
End WithLibm.

Lemma natsph2proj_horizon_witness :
  exists xp yp,
    Wcs.natsph2proj (H0 := binary64_trig special_values_only) (py 30) (py 0) tan_header
    = Ok (xp, yp) /\ not_finite xp /\ not_finite yp.
Proof.
  exact (natsph2proj_horizon special_values_only (fun s => eq_refl) tan_header
           "RA---TAN" "DEC--TAN" (py 30) (py 0) eq_refl TangentPoint.tan_keys eq_refl).
Defined.
End Horizon.

(** ** The rotation between native and celestial coordinates *)

Module SkyRotation.
Import Exact TermsExact LinearRoundTrip RoundTrip Angles.
Local Open Scope R_scope.

(** With the native pole at longitude 180 the rotation is its own
    inverse. *)
Lemma rotation_involution (a b p : R) :
  - PI < a <= PI -> - (PI / 2) < b < PI / 2 ->
  cos (Wcs.rot_lat a b p) <> 0 ->
  Wcs.rot_lon (Wcs.rot_lon a b p) (Wcs.rot_lat a b p) p = a
  /\ Wcs.rot_lat (Wcs.rot_lon a b p) (Wcs.rot_lat a b p) p = b.
Proof.
  intros Ha Hb Hpole.
  assert (Hcos : 0 < cos b) by (apply cos_gt_0; lra).
  destruct (rotation_inverse a b p Hcos Hpole) as (E1 & E2 & E3). split.
  - apply same_angle; [apply arctan2_range|exact Ha|exact E2|exact E3].
  - rewrite E1. apply asin_sin. lra.
Qed.

Lemma latitude_off_pole (lat : R) : - 90 < deg lat < 90 -> - (PI / 2) <= lat <= PI / 2 ->
  cos lat <> 0.
Proof.
  intros Hlat Hb. apply Rgt_not_eq. unfold deg in Hlat. pose proof PI_RGT_0 as Hpi.
  assert (H180 : 0 < 180 / PI) by (apply Rdiv_lt_0_compat; lra).
  assert (HPI : 180 / PI * (PI / 2) = 90) by (field; lra).
  apply cos_gt_0; nra.
Qed.

Section Tan.
Variables (hdr : gmap string (hval R)) (ctype1 ctype2 : string) (crval1 crval2 : R).
Hypothesis Kc : ctype_keys hdr ctype1 ctype2.
Hypothesis Tan : projection ctype1 = "TAN".
Hypothesis Kv : crval_keys hdr crval1 crval2.

(** X15. In exact arithmetic, on a TAN header, [celsph2natsph] undoes
    [natsph2celsph] for every native longitude in [(0, 360]] and every
    native latitude strictly between -90 and 90 degrees, unless the
    celestial latitude in between is a pole. *)
Theorem celsph2natsph_natsph2celsph (phi theta : R) :
  0 < phi <= 360 -> - 90 < theta < 90 ->
  exists lon lat,
    Wcs.natsph2celsph phi theta hdr = Ok (lon, lat)
    /\ (- 90 < lat < 90 -> Wcs.celsph2natsph lon lat hdr = Ok (phi, theta)).
Proof.
  intros Hphi Htheta. pose proof PI_RGT_0 as Hpi.
  rewrite (natsph2celsph_formula hdr ctype1 ctype2 crval1 crval2 Kc Tan Kv).
  do 2 eexists. split; [reflexivity|]. intros Hlat.
  set (a := rad phi - rad 180) in *. set (b := rad theta) in *. set (p := rad crval2) in *.
  assert (Ha : - PI < a <= PI).
  { unfold a. rewrite rad_180. apply rad_range in Hphi.
    replace (rad 360) with (2 * PI) in Hphi by (unfold rad; field).
    rewrite rad_0 in Hphi. lra. }
  assert (Hb : - (PI / 2) < b < PI / 2).
  { unfold b. apply rad_range_open in Htheta. rewrite rad_90 in Htheta.
    replace (rad (-90)) with (- (PI / 2)) in Htheta by (unfold rad; field). exact Htheta. }
  assert (Hpole : cos (Wcs.rot_lat a b p) <> 0).
  { apply latitude_off_pole; [exact Hlat|apply asin_bound]. }
  destruct (rotation_involution a b p Ha Hb Hpole) as [E1 E2].
  rewrite (celsph2natsph_formula hdr ctype1 ctype2 crval1 crval2 Kc Tan Kv).
  rewrite !rad_deg.
  replace (rad crval1 + Wcs.rot_lon a b p - rad crval1) with (Wcs.rot_lon a b p) by ring.
  fold p. rewrite E1, E2. unfold a, b.
  replace (rad 180 + (rad phi - rad 180)) with (rad phi) by ring.
  rewrite !deg_rad. reflexivity.
Qed.

(** X16. In exact arithmetic, on a TAN header, [natsph2celsph] undoes
    [celsph2natsph] for every celestial longitude within 180 degrees of
    CRVAL1 (in [(CRVAL1 - 180, CRVAL1 + 180]]) and every celestial
    latitude strictly between -90 and 90 degrees, unless the native
    latitude in between is a pole. *)
Theorem natsph2celsph_celsph2natsph (lon lat : R) :
  crval1 - 180 < lon <= crval1 + 180 -> - 90 < lat < 90 ->
  exists phi theta,
    Wcs.celsph2natsph lon lat hdr = Ok (phi, theta)
    /\ (- 90 < theta < 90 -> Wcs.natsph2celsph phi theta hdr = Ok (lon, lat)).
Proof.
  intros Hlon Hlat. pose proof PI_RGT_0 as Hpi.
  rewrite (celsph2natsph_formula hdr ctype1 ctype2 crval1 crval2 Kc Tan Kv).
  do 2 eexists. split; [reflexivity|]. intros Htheta.
  set (a := rad lon - rad crval1) in *. set (b := rad lat) in *. set (p := rad crval2) in *.
  assert (Ha : - PI < a <= PI).
  { unfold a, rad in *. split; nra. }
  assert (Hb : - (PI / 2) < b < PI / 2).
  { unfold b. apply rad_range_open in Hlat. rewrite rad_90 in Hlat.
    replace (rad (-90)) with (- (PI / 2)) in Hlat by (unfold rad; field). exact Hlat. }
  assert (Hpole : cos (Wcs.rot_lat a b p) <> 0).
  { apply latitude_off_pole; [exact Htheta|apply asin_bound]. }
  destruct (rotation_involution a b p Ha Hb Hpole) as [E1 E2].
  rewrite (natsph2celsph_formula hdr ctype1 ctype2 crval1 crval2 Kc Tan Kv).
  rewrite !rad_deg.
  replace (rad 180 + Wcs.rot_lon a b p - rad 180) with (Wcs.rot_lon a b p) by ring.
  fold p. rewrite E1, E2. unfold a, b.
  replace (rad crval1 + (rad lon - rad crval1)) with (rad lon) by ring.
  rewrite !deg_rad. reflexivity.
Qed.

(** X17. In exact arithmetic, on a TAN header, the rotations return
    for every input: [natsph2celsph] a celestial latitude in
    [[-90, 90]] and a celestial longitude in
    [(CRVAL1 - 180, CRVAL1 + 180]], which is not brought into
    [[0, 360)]; [celsph2natsph] a native latitude in [[-90, 90]] and a
    native longitude in [(0, 360]]. *)
Theorem rotation_ranges (a b : R) :
  (exists lon lat, Wcs.natsph2celsph a b hdr = Ok (lon, lat)
                   /\ crval1 - 180 < lon <= crval1 + 180 /\ - 90 <= lat <= 90)
  /\ (exists phi theta, Wcs.celsph2natsph a b hdr = Ok (phi, theta)
                        /\ 0 < phi <= 360 /\ - 90 <= theta <= 90).
Proof.
  pose proof PI_RGT_0 as Hpi.
  assert (Hlat : forall x, - 90 <= deg (asin x) <= 90).
  { intros x. apply deg_range_closed. rewrite rad_90.
    replace (rad (-90)) with (- (PI / 2)) by (unfold rad; field). apply asin_bound. }
  split.
  - rewrite (natsph2celsph_formula hdr ctype1 ctype2 crval1 crval2 Kc Tan Kv).
    do 2 eexists. split; [reflexivity|]. split; [|apply Hlat].
    apply deg_range.
    pose proof (arctan2_range
                  (- cos (rad b) * sin (rad a - rad 180))
                  (sin (rad b) * cos (rad crval2)
                   - cos (rad b) * sin (rad crval2) * cos (rad a - rad 180))) as Hr.
    change (arctan2 _ _) with (Wcs.rot_lon (rad a - rad 180) (rad b) (rad crval2)) in Hr.
    unfold rad in *. split; nra.
  - rewrite (celsph2natsph_formula hdr ctype1 ctype2 crval1 crval2 Kc Tan Kv).
    do 2 eexists. split; [reflexivity|]. split; [|apply Hlat].
    apply deg_range.
    pose proof (arctan2_range
                  (- cos (rad b) * sin (rad a - rad crval1))
                  (sin (rad b) * cos (rad crval2)
                   - cos (rad b) * sin (rad crval2) * cos (rad a - rad crval1))) as Hr.
    change (arctan2 _ _) with (Wcs.rot_lon (rad a - rad crval1) (rad b) (rad crval2)) in Hr.
    rewrite rad_180, rad_0. replace (rad 360) with (2 * PI) by (unfold rad; field). lra.
Qed.
End Tan.
End SkyRotation.

(** ** The name that wcs_transform.py does not bind *)

Module TransformOutcomes.
Section Outcomes.
Context {F : Type} `{Num F} `{Trig F}.

(** X10. In any arithmetic and on every input, [proj2natsph] and
    [natsph2proj] of [wcs_transform.py] return nothing: their first
    statement evaluates [np], which the file never imports, and raises
    [NameError]. *)
Theorem transform_projection_unbound (a b : F) :
  WcsTransform.proj2natsph a b = Raise (NameError "np")
  /\ WcsTransform.natsph2proj a b = Raise (NameError "np").
Proof. split; reflexivity. Qed.

Lemma celsph2natsph_outcome (hdr : gmap string (hval F)) (a b : F) :
  WcsTransform.celsph2natsph a b hdr
  = match hdr !! "crval1", hdr !! "crval2" with
    | None, _ => Raise (KeyError "crval1")
    | Some _, None => Raise (KeyError "crval2")
    | Some _, Some _ => Raise (NameError "np")
    end.
Proof.
  unfold WcsTransform.celsph2natsph, getitem.
  destruct (hdr !! "crval1"), (hdr !! "crval2"); reflexivity.
Qed.

(** X18. In any arithmetic, the rotations [natsph2celsph] and
    [celsph2natsph] of [wcs_transform.py] have one outcome, which the
    header decides alone: [KeyError] for [crval1] when the header lacks
    it, else [KeyError] for [crval2] when the header lacks it, else
    [NameError] for [np], whatever the header holds under the two
    keywords and whatever the coordinates. *)
Theorem transform_rotations_outcome (hdr : gmap string (hval F)) (a b : F) :
  WcsTransform.natsph2celsph a b hdr = WcsTransform.celsph2natsph a b hdr
  /\ WcsTransform.natsph2celsph a b hdr
     = match hdr !! "crval1", hdr !! "crval2" with
       | None, _ => Raise (KeyError "crval1")
       | Some _, None => Raise (KeyError "crval2")
       | Some _, Some _ => Raise (NameError "np")
       end.
Proof.
  unfold WcsTransform.natsph2celsph, WcsTransform.celsph2natsph, getitem.
  destruct (hdr !! "crval1"), (hdr !! "crval2"); split; reflexivity.
Qed.

(** X19. In any arithmetic, [pix2world] and [world2pix] of
    [wcs_transform.py] never return coordinates: each of them raises on
    every header and every input.  When the header holds the six numbers
    of the linear transform, the exception of [pix2world] is the
    [NameError] for [np]; the exception of [world2pix] is the one of
    [celsph2natsph]. *)
Theorem transform_pipelines_raise (hdr : gmap string (hval F)) (a b : F) :
  raises (WcsTransform.pix2world a b hdr)
  /\ raises (WcsTransform.world2pix a b hdr)
  /\ (forall cd1_1 cd1_2 cd2_1 cd2_2 crpix1 crpix2,
        linear_keys_lc hdr cd1_1 cd1_2 cd2_1 cd2_2 crpix1 crpix2 ->
        WcsTransform.pix2world a b hdr = Raise (NameError "np"))
  /\ (forall e, WcsTransform.celsph2natsph a b hdr = Raise e ->
                WcsTransform.world2pix a b hdr = Raise e).
Proof.
  split; [|split; [|split]].
  - unfold WcsTransform.pix2world.
    destruct (WcsTransform.pix2proj a b hdr) as [[u v]|e]; exact I.
  - unfold WcsTransform.world2pix. rewrite celsph2natsph_outcome.
    destruct (hdr !! "crval1"), (hdr !! "crval2"); exact I.
  - intros cd1_1 cd1_2 cd2_1 cd2_2 crpix1 crpix2 L. unfold WcsTransform.pix2world.
    rewrite (pix2proj_linear_lc _ _ _ _ _ _ _ _ _ L). reflexivity.
  - intros e E. unfold WcsTransform.world2pix. rewrite E. reflexivity.
Qed.
End Outcomes.
End TransformOutcomes.

(** ** The least-squares fit in exact arithmetic *)

Module FitExact.
Import Exact TermsExact TermsFit LinearRoundTrip.
Local Open Scope R_scope.

Lemma mask_zip_with {A B C} (f : A -> B -> C) (x : list A) (y : list B) (i : list bool) :
  mask (zip_with f x y) i = zip_with f (mask x i) (mask y i).
Proof.
  revert x y. induction i as [|b i IH]; intros x y.
  - destruct x, y; reflexivity.
  - destruct x as [|a x], y as [|c y]; try reflexivity.
    + cbn. destruct (if b then a :: mask x i else mask x i); reflexivity.
    + cbn. destruct b; cbn; rewrite IH; reflexivity.
Qed.

Lemma sum_pow2 (l : list R) : np_sum (pow2 <$> l) = total (zip_with Rmult l l).
Proof.
  rewrite Summation.np_sum_total. induction l as [|v l IH]; [reflexivity|].
  cbn [fmap list_fmap zip_with]. rewrite !Summation.total_cons, IH. reflexivity.
Qed.

Lemma mask_plane (a b : R) (x y : list R) (i : list bool) :
  mask (plane a b x y) i = plane a b (mask x i) (mask y i).
Proof. apply mask_zip_with. Qed.

Lemma zip_with_comm (l k : list R) : zip_with Rmult l k = zip_with Rmult k l.
Proof.
  revert k. induction l as [|p l IH]; intros [|q k]; try reflexivity.
  cbn [zip_with]. rewrite Rmult_comm, IH. reflexivity.
Qed.

(** The sums of products are linear in the samples of the model. *)
Lemma total_plane (a b : R) (w x y : list R) :
  List.length w = List.length x -> List.length x = List.length y ->
  total (zip_with Rmult w (plane a b x y))
  = a * total (zip_with Rmult w x) + b * total (zip_with Rmult w y).
Proof.
  revert x y. induction w as [|c w IH]; intros [|p x] [|q y]; try discriminate.
  - intros _ _. unfold plane. cbn [zip_with]. rewrite !Summation.total_nil. ring.
  - intros [= Hw] [= Hx]. cbn [plane zip_with]. rewrite !Summation.total_cons.
    fold (plane a b x y). rewrite (IH x y Hw Hx). ring.
Qed.

Lemma length_mask_eq {A B} (x : list A) (y : list B) (i : list bool) :
  List.length x = List.length y -> List.length (mask x i) = List.length (mask y i).
Proof.
  revert x y. induction i as [|b i IH]; intros [|a x] [|c y]; try discriminate; try reflexivity.
  intros [= E]. cbn. destruct b; cbn; rewrite (IH x y E); reflexivity.
Qed.

Lemma mask_none {A} (l : list A) (i : list bool) :
  forallb negb i = true -> mask l i = [].
Proof.
  revert l. induction i as [|b i IH]; intros [|a l] E; try reflexivity.
  destruct b; [discriminate|]. apply (IH l E).
Qed.

Section Fit.
Variables x y z : list R.
Hypothesis Exy : List.length x = List.length y.
Hypothesis Exz : List.length x = List.length z.
Hypothesis Hsy : sy x y <> 0.
Hypothesis Hsxy : sxy x y <> 0.
Hypothesis Hdet : sx x y * sy x y - sxy x y * sxy x y <> 0.

Lemma some_unequal : forallb negb (unequal x y) = false.
Proof.
  destruct (forallb negb (unequal x y)) eqn:E; [|reflexivity]. exfalso. apply Hsxy.
  unfold sxy. rewrite !(mask_none _ _ E), Summation.np_sum_total. reflexivity.
Qed.

Lemma divisor_a : sx x y - sxy x y * sxy x y / sy x y <> 0.
Proof.
  intros E. apply Hdet.
  replace (sx x y * sy x y - sxy x y * sxy x y)
    with ((sx x y - sxy x y * sxy x y / sy x y) * sy x y) by (field; exact Hsy).
  rewrite E. ring.
Qed.

(** The outcome of the fit when no division is by zero. *)
Lemma fit_coefficients :
  leastsquares2d x y z
  = Ok (Coeffs ((sxz x y z - sxy x y * syz x y z / sy x y)
                / (sx x y - sxy x y * sxy x y / sy x y))
               ((sxz x y z
                 - (sxz x y z - sxy x y * syz x y z / sy x y)
                   / (sx x y - sxy x y * sxy x y / sy x y) * sx x y)
                / sxy x y)).
Proof.
  unfold leastsquares2d.
  rewrite (FitBinary64.broadcast_eq _ _ _ Exy). cbn [mbind result_bind].
  fold (unequal x y). rewrite some_unequal.
  rewrite (FitBinary64.boolean_index_eq x (unequal x y)),
    (FitBinary64.boolean_index_eq y (unequal x y)),
    (FitBinary64.boolean_index_eq z (unequal x y))
    by (unfold unequal; rewrite length_zip_with; lia).
  cbn [mbind result_bind].
  change (zip_with mul) with (zip_with Rmult).
  fold (sx x y) (sxy x y) (sxz x y z) (sy x y) (syz x y z).
  rewrite (truediv_exact _ (sy x y)) by exact Hsy. cbn [mbind result_bind].
  rewrite (truediv_exact _ (sy x y)) by exact Hsy. cbn [mbind result_bind].
  rewrite truediv_exact by exact divisor_a. cbn [mbind result_bind].
  rewrite truediv_exact by exact Hsxy. reflexivity.
Qed.

(** X21. In exact arithmetic, whenever none of the three divisions is
    by zero ([sy], [sxy] and [sx*sy - sxy^2] differ from zero), the pair
    that [leastsquares2d] returns solves both normal equations of the
    docstring, [a*sx + b*sxy = sxz] and [a*sxy + b*sy = syz], over the
    samples with [x != y]. *)
Theorem fit_normal_equations :
  exists a b,
    leastsquares2d x y z = Ok (Coeffs a b)
    /\ a * sx x y + b * sxy x y = sxz x y z
    /\ a * sxy x y + b * sy x y = syz x y z.
Proof.
  do 2 eexists. split; [exact fit_coefficients|].
  pose proof divisor_a as Ha.
  split; field; repeat split; assumption.
Qed.
End Fit.

(** In exact arithmetic, for samples that the model [z = a*x + b*y]
    generates, with any coefficients and any [x] and [y] of one length
    for which none of the divisions is by zero, [leastsquares2d] returns
    the generating pair [(a, b)]. *)
Lemma fit_recovers_plane (a b : R) (x y : list R) :
  List.length x = List.length y ->
  sy x y <> 0 -> sxy x y <> 0 -> sx x y * sy x y - sxy x y * sxy x y <> 0 ->
  leastsquares2d x y (plane a b x y) = Ok (Coeffs a b).
Proof.
  intros Exy Hsy Hsxy Hdet.
  assert (Exz : List.length x = List.length (plane a b x y)).
  { unfold plane. rewrite length_zip_with. lia. }
  rewrite (fit_coefficients x y _ Exy Exz Hsy Hsxy Hdet).
  pose proof (divisor_a x y Hsy Hdet) as Ha.
  pose proof (length_mask_eq x y (unequal x y) Exy) as Em.
  assert (Hxz : sxz x y (plane a b x y) = a * sx x y + b * sxy x y).
  { unfold sxz, sx, sxy. rewrite mask_plane, sum_pow2, !Summation.np_sum_total.
    apply total_plane; [reflexivity|exact Em]. }
  assert (Hyz : syz x y (plane a b x y) = a * sxy x y + b * sy x y).
  { unfold syz, sy, sxy. rewrite mask_plane, sum_pow2, !Summation.np_sum_total.
    rewrite total_plane; [|symmetry; exact Em|exact Em].
    rewrite (zip_with_comm (mask y (unequal x y)) (mask x (unequal x y))). reflexivity. }
  rewrite Hxz, Hyz. f_equal. f_equal; field; repeat split; assumption.
Qed.
End FitExact.

Module FitExactWitness.
Import Exact TermsExact TermsFit FitExact.
Local Open Scope R_scope.

Lemma unequal_123 : unequal [1; 2; 3] [4; 5; 6] = [true; true; true].
Proof.
  unfold unequal. cbn. rewrite !bool_decide_eq_false_2 by lra. reflexivity.
Defined.

Lemma sums_123 :
  sx [1; 2; 3] [4; 5; 6] = 0 + 1 * 1 + 2 * 2 + 3 * 3
  /\ sxy [1; 2; 3] [4; 5; 6] = 0 + 1 * 4 + 2 * 5 + 3 * 6
  /\ sy [1; 2; 3] [4; 5; 6] = 0 + 4 * 4 + 5 * 5 + 6 * 6.
Proof.
  unfold sx, sxy, sy. rewrite unequal_123, !Summation.np_sum_total. repeat split.
Defined.

Lemma fit_normal_equations_witness :
  exists a b,
    leastsquares2d [1; 2; 3] [4; 5; 6] [7; 8; 10] = Ok (Coeffs a b)
    /\ a * sx [1; 2; 3] [4; 5; 6] + b * sxy [1; 2; 3] [4; 5; 6]
       = sxz [1; 2; 3] [4; 5; 6] [7; 8; 10]
    /\ a * sxy [1; 2; 3] [4; 5; 6] + b * sy [1; 2; 3] [4; 5; 6]
       = syz [1; 2; 3] [4; 5; 6] [7; 8; 10].
Proof.
  destruct sums_123 as (Ex & Exy & Ey).
  apply (fit_normal_equations [1; 2; 3] [4; 5; 6] [7; 8; 10] eq_refl eq_refl);
    rewrite ?Ex, ?Exy, ?Ey; lra.
Defined.

End FitExactWitness.

(** ** The fit on the samples of a model *)

Module FitModel.
Import Exact TermsExact TermsFit.
Local Open Scope R_scope.

(** C7 (as amended). In exact arithmetic, for samples generated by the
    model [z = a*x + b*y], with any coefficients and any [x] and [y] of
    one length such that [sy], [sxy] and [sx*sy - sxy^2] over the
    samples with [x != y] differ from zero, the fit returns exactly the
    generating coefficients [(a, b)].  In binary64, for
    [x = [1, 2, 3]], [y = [4, 5, 6]] and [z = 2*x - 1*y], it returns
    [(2.0000000000000027, -1.0000000000000011)], within [1e-9] of
    [(2, -1)]. *)
Theorem fit_recovers_model :
  (forall (a b : R) (x y : list R),
      List.length x = List.length y ->
      sy x y <> 0 -> sxy x y <> 0 -> sx x y * sy x y - sxy x y * sxy x y <> 0 ->
      leastsquares2d x y (plane a b x y) = Ok (Coeffs a b))
  /\ (exists a b : Binary64.pyfloat,
         leastsquares2d (H := Binary64.binary64)
           Terms64.model_x Terms64.model_y Terms64.model_z = Ok (Coeffs a b)
         /\ a = Binary64.np 0x1.0000000000006p+1
         /\ b = Binary64.np (-0x1.0000000000005p+0)
         /\ Binary64.within Binary64.tolerance a (Binary64.py 2)
         /\ Binary64.within Binary64.tolerance b (Binary64.py (-1))).
Proof.
  split; [exact FitExact.fit_recovers_plane|].
  destruct FitBinary64.fit_model_binary64 as (_ & E & Ea & Eb & Wa & Wb).
  do 2 eexists. split; [exact E|]. repeat split; assumption.
Qed.

Lemma fit_recovers_model_witness :
  leastsquares2d [1; 2; 3] [4; 5; 6] (plane 2 (-1) [1; 2; 3] [4; 5; 6])
  = Ok (Coeffs 2 (-1)).
Proof.
  destruct FitExactWitness.sums_123 as (Ex & Exy & Ey).
  apply (proj1 fit_recovers_model 2 (-1) [1; 2; 3] [4; 5; 6] eq_refl);
    rewrite ?Ex, ?Exy, ?Ey; lra.
Defined.
End FitModel.

(** ** The samples that the fit leaves out *)

Module FitSelection.
Section Selection.
Context {F : Type} `{Num F}.
Local Open Scope num_scope.

(** Every sample kept has [x != y]. *)
Lemma unequal_mask (x y : list F) :
  unequal (mask x (unequal x y)) (mask y (unequal x y))
  = (fun _ => true) <$> mask x (unequal x y).
Proof.
  revert y. induction x as [|a x IH]; intros [|b y]; try reflexivity.
  unfold unequal in *. cbn [zip_with mask].
  destruct (eqb a b) eqn:E; cbn [negb].
  - apply IH.
  - cbn [zip_with fmap list_fmap]. rewrite E. cbn [negb]. f_equal. apply IH.
Qed.

Lemma mask_all {A B} (l : list A) (k : list B) :
  List.length l = List.length k -> mask l ((fun _ => true) <$> k) = l.
Proof.
  revert k. induction l as [|a l IH]; intros [|b k]; try discriminate; try reflexivity.
  intros [= E]. cbn. rewrite (IH k E). reflexivity.
Qed.

Lemma none_kept {A} (k : list A) :
  forallb negb ((fun _ => true) <$> k) = match k with [] => true | _ => false end.
Proof. destruct k; reflexivity. Qed.

Lemma none_unequal {A} (l : list A) (i : list bool) :
  List.length l = List.length i ->
  forallb negb i = match mask l i with [] => true | _ => false end.
Proof.
  revert l. induction i as [|b i IH]; intros [|a l]; try discriminate; try reflexivity.
  intros [= E]. cbn. destruct b; [reflexivity|]. apply (IH l E).
Qed.

Lemma leastsquares2d_selected (x y z : list F) :
  leastsquares2d x y z
  = (i ← broadcast (fun a b => negb (eqb a b)) x y;
     if forallb negb i then mret Nan
     else _ ← boolean_index x i; _ ← boolean_index y i; _ ← boolean_index z i;
          normal_solution (mask x i) (mask y i) (mask z i)).
Proof. reflexivity. Qed.

(** X23. In any arithmetic, for arrays of one length, the samples with
    [x == y] have no part in the result: [leastsquares2d] has the same
    outcome on the arrays with those samples removed. *)
Theorem fit_ignores_equal_samples (x y z : list F) :
  List.length x = List.length y -> List.length x = List.length z ->
  leastsquares2d x y z
  = leastsquares2d (mask x (unequal x y)) (mask y (unequal x y)) (mask z (unequal x y)).
Proof.
  intros Exy Exz. set (i := unequal x y).
  assert (Ei : List.length x = List.length i)
    by (unfold i, unequal; rewrite length_zip_with; lia).
  rewrite (leastsquares2d_selected x y z), (leastsquares2d_selected (mask x i) (mask y i)).
  rewrite (FitBinary64.broadcast_eq _ _ _ Exy),
    (FitBinary64.broadcast_eq _ _ _ (FitExact.length_mask_eq x y i Exy)).
  cbn [mbind result_bind]. fold (unequal x y) (unequal (mask x i) (mask y i)).
  pose proof (unequal_mask x y) as Eu. fold i in Eu |- *. rewrite Eu.
  rewrite none_kept, (none_unequal x i Ei).
  destruct (mask x i) as [|a l] eqn:Em; [reflexivity|]. rewrite <- Em.
  rewrite (FitBinary64.boolean_index_eq x i), (FitBinary64.boolean_index_eq y i),
    (FitBinary64.boolean_index_eq z i) by lia.
  rewrite (FitBinary64.boolean_index_eq (mask x i) ((fun _ => true) <$> mask x i))
    by (rewrite length_fmap; reflexivity).
  rewrite (FitBinary64.boolean_index_eq (mask y i) ((fun _ => true) <$> mask x i))
    by (rewrite length_fmap; symmetry; apply FitExact.length_mask_eq, Exy).
  rewrite (FitBinary64.boolean_index_eq (mask z i) ((fun _ => true) <$> mask x i))
    by (rewrite length_fmap; symmetry; apply FitExact.length_mask_eq, Exz).
  cbn [mbind result_bind].
  rewrite (mask_all (mask x i) (mask x i) eq_refl).
  rewrite (mask_all (mask y i) (mask x i)) by (symmetry; apply FitExact.length_mask_eq, Exy).
  rewrite (mask_all (mask z i) (mask x i)) by (symmetry; apply FitExact.length_mask_eq, Exz).
  reflexivity.
Qed.
End Selection.

Import Binary64 Terms64.

Lemma fit_ignores_equal_samples_witness :
  leastsquares2d (np <$> [1; 7; 2; 3]%float) (np <$> [4; 7; 5; 6]%float)
    (np <$> [2; 9; 1; 0]%float)
  = leastsquares2d (np <$> [1; 2; 3]%float) (np <$> [4; 5; 6]%float)
      (np <$> [2; 1; 0]%float).
Proof.
  exact (fit_ignores_equal_samples (np <$> [1; 7; 2; 3]%float) (np <$> [4; 7; 5; 6]%float)
           (np <$> [2; 9; 1; 0]%float) eq_refl eq_refl).
Defined.
End FitSelection.

(** ** Python floats whose square overflows *)

Module Overflow.
Import Binary64 Terms64 Values64.
Local Open Scope num_scope.

Section WithLibm.
Variable lm : libm.
#[local] Existing Instance binary64_trig.

(** X30. In binary64, on a header that names TAN, [proj2natsph] of
    [wcs.py] treats a Python [float] and a NumPy [float64] of the same
    value differently when the square of the first coordinate, in
    radians, is out of range: [xp**2] raises [OverflowError] for the
    [float], whatever the second coordinate, and is an infinity for the
    [float64], with which the function returns coordinates. *)
Theorem proj2natsph_overflow (hdr : header) (ctype1 ctype2 : string) (vx : spec_float)
    (yp : pyfloat) :
  ctype_keys hdr ctype1 ctype2 -> projection ctype1 = "TAN" ->
  square_overflows (PyFloat false vx) ->
  Wcs.proj2natsph (H0 := binary64_trig lm) (PyFloat false vx) yp hdr = Raise OverflowError
  /\ returns (Wcs.proj2natsph (H0 := binary64_trig lm)
                (PyFloat true vx) (PyFloat true (val yp)) hdr).
Proof.
  intros K T [Hf Ho]. rewrite !(proj2natsph_tan _ _ _ K _ _ T). split; [|exact I].
  unfold gnomonic_sphere, reciprocal_radius, power2.
  unfold finite, not_finite, pow2 in Hf, Ho.
  assert (E : pow_overflow (PyFloat false vx * np_pi / lit_180) = true).
  { cbn [pow_overflow binary64 is_np val mul div binop np_pi lit_180 py orb negb andb] in *.
    rewrite Hf, Ho. reflexivity. }
  rewrite E. reflexivity.
Qed.
End WithLibm.

Lemma proj2natsph_overflow_witness :
  Wcs.proj2natsph (H0 := binary64_trig special_values_only)
    (py 0x1.4e718d7d7625ap+664) (py 0) tan_header = Raise OverflowError
  /\ returns (Wcs.proj2natsph (H0 := binary64_trig special_values_only)
                (np 0x1.4e718d7d7625ap+664) (np 0) tan_header).
Proof.
  apply (proj2natsph_overflow special_values_only tan_header "RA---TAN" "DEC--TAN"
           (Prim2SF 0x1.4e718d7d7625ap+664) (py 0) TangentPoint.tan_keys eq_refl).
  split; vm_compute; reflexivity.
Defined.
End Overflow.

(** ** Arrays of different lengths *)

Module FitLengths.
Section Lengths.
Context {F : Type} `{Num F}.

Lemma none_unequal_l (a : F) (y : list F) :
  forallb negb ((fun b => negb (eqb a b)) <$> y) = forallb (eqb a) y.
Proof.
  induction y as [|b y IH]; [reflexivity|]. cbn. rewrite IH, negb_involutive. reflexivity.
Qed.

Lemma none_unequal_r (b : F) (x : list F) :
  forallb negb ((fun a => negb (eqb a b)) <$> x) = forallb (fun a => eqb a b) x.
Proof.
  induction x as [|a x IH]; [reflexivity|]. cbn. rewrite IH, negb_involutive. reflexivity.
Qed.

(** X31. In any arithmetic, for [x] and [y] of different lengths the
    fit returns no pair.  When [x] or [y] has one element NumPy
    stretches it to the length of the other in [x != y]: the fit returns
    [np.nan] if no sample differs, and otherwise the selection
    [x[i]] or [y[i]] of the one-element array raises [IndexError].
    Other lengths are refused by [x != y] with [ValueError]. *)
Theorem fit_unequal_lengths (x y z : list F) :
  List.length x <> List.length y ->
  leastsquares2d x y z
  = match x, y with
    | [a], _ => if forallb (eqb a) y then Ok Nan else Raise IndexError
    | _, [b] => if forallb (fun a => eqb a b) x then Ok Nan else Raise IndexError
    | _, _ => Raise ValueError
    end.
Proof.
  intros Hl. unfold leastsquares2d, broadcast.
  apply Nat.eqb_neq in Hl. rewrite Hl.
  apply Nat.eqb_neq in Hl.
  destruct x as [|a [|a' x]].
  - destruct y as [|b [|b' y]]; [cbn in Hl; congruence|reflexivity|reflexivity].
  - cbn [mbind result_bind]. rewrite none_unequal_l.
    destruct (forallb (eqb a) y); [reflexivity|].
    unfold boolean_index. rewrite length_fmap.
    apply Nat.eqb_neq in Hl. rewrite Hl. reflexivity.
  - destruct y as [|b [|b' y]]; [reflexivity| |reflexivity].
    cbn [mbind result_bind]. rewrite none_unequal_r.
    destruct (forallb _ _); [reflexivity|].
    unfold boolean_index. rewrite !length_fmap, Nat.eqb_refl. reflexivity.
Qed.
End Lengths.

Import Binary64.

Lemma fit_unequal_lengths_witness :
  leastsquares2d (np <$> [1]%float) (np <$> [1; 2]%float) (np <$> [3; 4]%float)
  = Raise IndexError.
Proof.
  rewrite fit_unequal_lengths; [reflexivity|]. cbn. discriminate.
Defined.
End FitLengths.

(** ** The rotations at a concrete header *)

Module ExactWitnesses.
Import Exact TermsExact LinearRoundTrip RoundTrip.
Local Open Scope R_scope.

Lemma celsph2natsph_natsph2celsph_witness :
  exists lon lat,
    Wcs.natsph2celsph 180 60 equatorial_header = Ok (lon, lat)
    /\ (- 90 < lat < 90 -> Wcs.celsph2natsph lon lat equatorial_header = Ok (180, 60)).
Proof.
  apply (SkyRotation.celsph2natsph_natsph2celsph equatorial_header "RA---TAN" "DEC--TAN"
           10 0 equatorial_ctype eq_refl equatorial_crval 180 60); lra.
Defined.

Lemma natsph2celsph_celsph2natsph_witness :
  exists phi theta,
    Wcs.celsph2natsph 20 30 equatorial_header = Ok (phi, theta)
    /\ (- 90 < theta < 90 -> Wcs.natsph2celsph phi theta equatorial_header = Ok (20, 30)).
Proof.
  apply (SkyRotation.natsph2celsph_celsph2natsph equatorial_header "RA---TAN" "DEC--TAN"
           10 0 equatorial_ctype eq_refl equatorial_crval 20 30); lra.
Defined.

Lemma rotation_ranges_witness :
  (exists lon lat, Wcs.natsph2celsph 20 30 equatorial_header = Ok (lon, lat)
                   /\ 10 - 180 < lon <= 10 + 180 /\ - 90 <= lat <= 90)
  /\ (exists phi theta, Wcs.celsph2natsph 20 30 equatorial_header = Ok (phi, theta)
                        /\ 0 < phi <= 360 /\ - 90 <= theta <= 90).
Proof.
  exact (SkyRotation.rotation_ranges equatorial_header "RA---TAN" "DEC--TAN" 10 0
           equatorial_ctype eq_refl equatorial_crval 20 30).
Defined.

End ExactWitnesses.
